(** * imagenet-dali.py: the training script of examples/nn, embedded in Rocq

    The script is glue code around torch, DALI and heat.  What it computes
    itself is embedded here: the command-line table of [parse], the running
    average [AverageMeter], the learning-rate schedule
    [adjust_learning_rate], the precision@k of [accuracy], the metric
    aggregation [reduce_tensor], and the control flow of [train],
    [validate] and [main].

    Conventions of the embedding.
    - Python [int] is [Z]; [//] and [%] are [Z.div] and [Z.modulo], which
      round towards minus infinity like Python's.
    - Python [float] and scalar tensors are exact rationals [Q]: rounding is
      not modelled, so an equation between floats is stated with [==].
    - A statement that can raise runs in the monad [M S], a state and
      exception monad in which the state survives a raise, as a Python
      object mutated before the exception does.
    - Calls into torch, DALI, MPI and heat are recorded as events or taken
      as inputs; they are assumed to return, except where the script itself
      makes them fail.  The tensor operations of [accuracy] follow torch
      from 1.7 on. *)

From Stdlib Require Import String Ascii.
From Stdlib Require Import ZArith QArith Qpower Qround List Bool Lia Lqa.
Local Open Scope string_scope.
Local Open Scope list_scope.
From Stdlib Require Import Sorting.Sorted Sorting.Permutation.
Import ListNotations.

Local Open Scope Z_scope.

(** ** Exceptions and the state/exception monad *)

Inductive exn : Type :=
| ZeroDivisionError
| TypeError
| ValueError
| IndexError
| AssertionError
| AttributeError (attr : string)
| RuntimeError (msg : string)
| SystemExit (code : Z).

Definition M (S A : Type) : Type := S -> (exn + A) * S.

Definition ret {S A} (a : A) : M S A := fun s => (inr a, s).

Definition bind {S A B} (m : M S A) (k : A -> M S B) : M S B :=
  fun s => match m s with
           | (inl e, s') => (inl e, s')
           | (inr a, s') => k a s'
           end.

Definition raise {S A} (e : exn) : M S A := fun s => (inl e, s).
Definition get {S} : M S S := fun s => (inr s, s).
Definition put {S} (s : S) : M S unit := fun _ => (inr tt, s).
Definition modify {S} (f : S -> S) : M S unit := fun s => (inr tt, f s).
Definition when {S} (b : bool) (m : M S unit) : M S unit :=
  if b then m else ret tt.

Declare Scope py_scope.
Delimit Scope py_scope with py.
Notation "x <- m ;; k" := (bind m (fun x => k))
  (at level 61, m at next level, right associativity) : py_scope.
Notation "m ;; k" := (bind m (fun _ => k))
  (at level 61, right associativity) : py_scope.
Local Open Scope py_scope.

(** [for x in xs: body x] *)
Fixpoint for_each {S A} (xs : list A) (body : A -> M S unit) : M S unit :=
  match xs with
  | [] => ret tt
  | x :: xs' => body x ;; for_each xs' body
  end.

(** Python's [float(n)] of an int, and the truth of [x == 0.0]. *)
Definition float (n : Z) : Q := inject_Z n.
Definition Qis_zero (q : Q) : bool := Qeq_bool q 0.

(** Python's [range(a, b)]. *)
Definition range (a b : Z) : list Z :=
  map (fun i => a + Z.of_nat i) (seq 0 (Z.to_nat (b - a))).

(** ** The namespace returned by [parse] and extended by [main] *)

(** A [nargs="*"] option holds its string default until the flag is given,
    then the list of the values. *)
Inductive dirs : Type :=
| DirDefault (path : string)
| DirList (paths : list string).

Module Args.
Record t : Type := mk {
  train : dirs;
  validate : dirs;
  train_indexes : dirs;
  validate_indexes : dirs;
  arch : string;
  workers : Z;
  epochs : Z;
  start_epoch : Z;
  batch_size : Z;
  batch_skip : Z;
  local_batch_skip : Z;
  lr : Q;
  momentum : Q;
  weight_decay : Q;
  print_freq : Z;
  resume : string;
  evaluate : bool;
  pretrained : bool;
  dali_cpu : bool;
  prof : Z;
  deterministic : bool;
  local_rank : Z;
  loss_scale : option string;
  test : bool;
  (* attributes that main adds after parsing *)
  distributed : bool;
  world_size : Z;
  rank : Z;
  gpus : Z;
  total_batch_size : Z;
  factor : Z
}.

Definition set_train v (a : t) : t :=
  mk v (validate a) (train_indexes a) (validate_indexes a) (arch a) (workers a)
     (epochs a) (start_epoch a) (batch_size a) (batch_skip a) (local_batch_skip a)
     (lr a) (momentum a) (weight_decay a) (print_freq a) (resume a) (evaluate a)
     (pretrained a) (dali_cpu a) (prof a) (deterministic a) (local_rank a)
     (loss_scale a) (test a) (distributed a) (world_size a) (rank a) (gpus a)
     (total_batch_size a) (factor a).
Definition set_validate v (a : t) : t :=
  mk (train a) v (train_indexes a) (validate_indexes a) (arch a) (workers a)
     (epochs a) (start_epoch a) (batch_size a) (batch_skip a) (local_batch_skip a)
     (lr a) (momentum a) (weight_decay a) (print_freq a) (resume a) (evaluate a)
     (pretrained a) (dali_cpu a) (prof a) (deterministic a) (local_rank a)
     (loss_scale a) (test a) (distributed a) (world_size a) (rank a) (gpus a)
     (total_batch_size a) (factor a).
Definition set_train_indexes v (a : t) : t :=
  mk (train a) (validate a) v (validate_indexes a) (arch a) (workers a)
     (epochs a) (start_epoch a) (batch_size a) (batch_skip a) (local_batch_skip a)
     (lr a) (momentum a) (weight_decay a) (print_freq a) (resume a) (evaluate a)
     (pretrained a) (dali_cpu a) (prof a) (deterministic a) (local_rank a)
     (loss_scale a) (test a) (distributed a) (world_size a) (rank a) (gpus a)
     (total_batch_size a) (factor a).
Definition set_validate_indexes v (a : t) : t :=
  mk (train a) (validate a) (train_indexes a) v (arch a) (workers a)
     (epochs a) (start_epoch a) (batch_size a) (batch_skip a) (local_batch_skip a)
     (lr a) (momentum a) (weight_decay a) (print_freq a) (resume a) (evaluate a)
     (pretrained a) (dali_cpu a) (prof a) (deterministic a) (local_rank a)
     (loss_scale a) (test a) (distributed a) (world_size a) (rank a) (gpus a)
     (total_batch_size a) (factor a).
Definition set_arch v (a : t) : t :=
  mk (train a) (validate a) (train_indexes a) (validate_indexes a) v (workers a)
     (epochs a) (start_epoch a) (batch_size a) (batch_skip a) (local_batch_skip a)
     (lr a) (momentum a) (weight_decay a) (print_freq a) (resume a) (evaluate a)
     (pretrained a) (dali_cpu a) (prof a) (deterministic a) (local_rank a)
     (loss_scale a) (test a) (distributed a) (world_size a) (rank a) (gpus a)
     (total_batch_size a) (factor a).
Definition set_workers v (a : t) : t :=
  mk (train a) (validate a) (train_indexes a) (validate_indexes a) (arch a) v
     (epochs a) (start_epoch a) (batch_size a) (batch_skip a) (local_batch_skip a)
     (lr a) (momentum a) (weight_decay a) (print_freq a) (resume a) (evaluate a)
     (pretrained a) (dali_cpu a) (prof a) (deterministic a) (local_rank a)
     (loss_scale a) (test a) (distributed a) (world_size a) (rank a) (gpus a)
     (total_batch_size a) (factor a).
Definition set_epochs v (a : t) : t :=
  mk (train a) (validate a) (train_indexes a) (validate_indexes a) (arch a) (workers a)
     v (start_epoch a) (batch_size a) (batch_skip a) (local_batch_skip a)
     (lr a) (momentum a) (weight_decay a) (print_freq a) (resume a) (evaluate a)
     (pretrained a) (dali_cpu a) (prof a) (deterministic a) (local_rank a)
     (loss_scale a) (test a) (distributed a) (world_size a) (rank a) (gpus a)
     (total_batch_size a) (factor a).
Definition set_start_epoch v (a : t) : t :=
  mk (train a) (validate a) (train_indexes a) (validate_indexes a) (arch a) (workers a)
     (epochs a) v (batch_size a) (batch_skip a) (local_batch_skip a)
     (lr a) (momentum a) (weight_decay a) (print_freq a) (resume a) (evaluate a)
     (pretrained a) (dali_cpu a) (prof a) (deterministic a) (local_rank a)
     (loss_scale a) (test a) (distributed a) (world_size a) (rank a) (gpus a)
     (total_batch_size a) (factor a).
Definition set_batch_size v (a : t) : t :=
  mk (train a) (validate a) (train_indexes a) (validate_indexes a) (arch a) (workers a)
     (epochs a) (start_epoch a) v (batch_skip a) (local_batch_skip a)
     (lr a) (momentum a) (weight_decay a) (print_freq a) (resume a) (evaluate a)
     (pretrained a) (dali_cpu a) (prof a) (deterministic a) (local_rank a)
     (loss_scale a) (test a) (distributed a) (world_size a) (rank a) (gpus a)
     (total_batch_size a) (factor a).
Definition set_batch_skip v (a : t) : t :=
  mk (train a) (validate a) (train_indexes a) (validate_indexes a) (arch a) (workers a)
     (epochs a) (start_epoch a) (batch_size a) v (local_batch_skip a)
     (lr a) (momentum a) (weight_decay a) (print_freq a) (resume a) (evaluate a)
     (pretrained a) (dali_cpu a) (prof a) (deterministic a) (local_rank a)
     (loss_scale a) (test a) (distributed a) (world_size a) (rank a) (gpus a)
     (total_batch_size a) (factor a).
Definition set_local_batch_skip v (a : t) : t :=
  mk (train a) (validate a) (train_indexes a) (validate_indexes a) (arch a) (workers a)
     (epochs a) (start_epoch a) (batch_size a) (batch_skip a) v
     (lr a) (momentum a) (weight_decay a) (print_freq a) (resume a) (evaluate a)
     (pretrained a) (dali_cpu a) (prof a) (deterministic a) (local_rank a)
     (loss_scale a) (test a) (distributed a) (world_size a) (rank a) (gpus a)
     (total_batch_size a) (factor a).
Definition set_lr v (a : t) : t :=
  mk (train a) (validate a) (train_indexes a) (validate_indexes a) (arch a) (workers a)
     (epochs a) (start_epoch a) (batch_size a) (batch_skip a) (local_batch_skip a)
     v (momentum a) (weight_decay a) (print_freq a) (resume a) (evaluate a)
     (pretrained a) (dali_cpu a) (prof a) (deterministic a) (local_rank a)
     (loss_scale a) (test a) (distributed a) (world_size a) (rank a) (gpus a)
     (total_batch_size a) (factor a).
Definition set_momentum v (a : t) : t :=
  mk (train a) (validate a) (train_indexes a) (validate_indexes a) (arch a) (workers a)
     (epochs a) (start_epoch a) (batch_size a) (batch_skip a) (local_batch_skip a)
     (lr a) v (weight_decay a) (print_freq a) (resume a) (evaluate a)
     (pretrained a) (dali_cpu a) (prof a) (deterministic a) (local_rank a)
     (loss_scale a) (test a) (distributed a) (world_size a) (rank a) (gpus a)
     (total_batch_size a) (factor a).
Definition set_weight_decay v (a : t) : t :=
  mk (train a) (validate a) (train_indexes a) (validate_indexes a) (arch a) (workers a)
     (epochs a) (start_epoch a) (batch_size a) (batch_skip a) (local_batch_skip a)
     (lr a) (momentum a) v (print_freq a) (resume a) (evaluate a)
     (pretrained a) (dali_cpu a) (prof a) (deterministic a) (local_rank a)
     (loss_scale a) (test a) (distributed a) (world_size a) (rank a) (gpus a)
     (total_batch_size a) (factor a).
Definition set_print_freq v (a : t) : t :=
  mk (train a) (validate a) (train_indexes a) (validate_indexes a) (arch a) (workers a)
     (epochs a) (start_epoch a) (batch_size a) (batch_skip a) (local_batch_skip a)
     (lr a) (momentum a) (weight_decay a) v (resume a) (evaluate a)
     (pretrained a) (dali_cpu a) (prof a) (deterministic a) (local_rank a)
     (loss_scale a) (test a) (distributed a) (world_size a) (rank a) (gpus a)
     (total_batch_size a) (factor a).
Definition set_resume v (a : t) : t :=
  mk (train a) (validate a) (train_indexes a) (validate_indexes a) (arch a) (workers a)
     (epochs a) (start_epoch a) (batch_size a) (batch_skip a) (local_batch_skip a)
     (lr a) (momentum a) (weight_decay a) (print_freq a) v (evaluate a)
     (pretrained a) (dali_cpu a) (prof a) (deterministic a) (local_rank a)
     (loss_scale a) (test a) (distributed a) (world_size a) (rank a) (gpus a)
     (total_batch_size a) (factor a).
Definition set_evaluate v (a : t) : t :=
  mk (train a) (validate a) (train_indexes a) (validate_indexes a) (arch a) (workers a)
     (epochs a) (start_epoch a) (batch_size a) (batch_skip a) (local_batch_skip a)
     (lr a) (momentum a) (weight_decay a) (print_freq a) (resume a) v
     (pretrained a) (dali_cpu a) (prof a) (deterministic a) (local_rank a)
     (loss_scale a) (test a) (distributed a) (world_size a) (rank a) (gpus a)
     (total_batch_size a) (factor a).
Definition set_pretrained v (a : t) : t :=
  mk (train a) (validate a) (train_indexes a) (validate_indexes a) (arch a) (workers a)
     (epochs a) (start_epoch a) (batch_size a) (batch_skip a) (local_batch_skip a)
     (lr a) (momentum a) (weight_decay a) (print_freq a) (resume a) (evaluate a)
     v (dali_cpu a) (prof a) (deterministic a) (local_rank a)
     (loss_scale a) (test a) (distributed a) (world_size a) (rank a) (gpus a)
     (total_batch_size a) (factor a).
Definition set_dali_cpu v (a : t) : t :=
  mk (train a) (validate a) (train_indexes a) (validate_indexes a) (arch a) (workers a)
     (epochs a) (start_epoch a) (batch_size a) (batch_skip a) (local_batch_skip a)
     (lr a) (momentum a) (weight_decay a) (print_freq a) (resume a) (evaluate a)
     (pretrained a) v (prof a) (deterministic a) (local_rank a)
     (loss_scale a) (test a) (distributed a) (world_size a) (rank a) (gpus a)
     (total_batch_size a) (factor a).
Definition set_prof v (a : t) : t :=
  mk (train a) (validate a) (train_indexes a) (validate_indexes a) (arch a) (workers a)
     (epochs a) (start_epoch a) (batch_size a) (batch_skip a) (local_batch_skip a)
     (lr a) (momentum a) (weight_decay a) (print_freq a) (resume a) (evaluate a)
     (pretrained a) (dali_cpu a) v (deterministic a) (local_rank a)
     (loss_scale a) (test a) (distributed a) (world_size a) (rank a) (gpus a)
     (total_batch_size a) (factor a).
Definition set_deterministic v (a : t) : t :=
  mk (train a) (validate a) (train_indexes a) (validate_indexes a) (arch a) (workers a)
     (epochs a) (start_epoch a) (batch_size a) (batch_skip a) (local_batch_skip a)
     (lr a) (momentum a) (weight_decay a) (print_freq a) (resume a) (evaluate a)
     (pretrained a) (dali_cpu a) (prof a) v (local_rank a)
     (loss_scale a) (test a) (distributed a) (world_size a) (rank a) (gpus a)
     (total_batch_size a) (factor a).
Definition set_local_rank v (a : t) : t :=
  mk (train a) (validate a) (train_indexes a) (validate_indexes a) (arch a) (workers a)
     (epochs a) (start_epoch a) (batch_size a) (batch_skip a) (local_batch_skip a)
     (lr a) (momentum a) (weight_decay a) (print_freq a) (resume a) (evaluate a)
     (pretrained a) (dali_cpu a) (prof a) (deterministic a) v
     (loss_scale a) (test a) (distributed a) (world_size a) (rank a) (gpus a)
     (total_batch_size a) (factor a).
Definition set_loss_scale v (a : t) : t :=
  mk (train a) (validate a) (train_indexes a) (validate_indexes a) (arch a) (workers a)
     (epochs a) (start_epoch a) (batch_size a) (batch_skip a) (local_batch_skip a)
     (lr a) (momentum a) (weight_decay a) (print_freq a) (resume a) (evaluate a)
     (pretrained a) (dali_cpu a) (prof a) (deterministic a) (local_rank a)
     v (test a) (distributed a) (world_size a) (rank a) (gpus a)
     (total_batch_size a) (factor a).
Definition set_test v (a : t) : t :=
  mk (train a) (validate a) (train_indexes a) (validate_indexes a) (arch a) (workers a)
     (epochs a) (start_epoch a) (batch_size a) (batch_skip a) (local_batch_skip a)
     (lr a) (momentum a) (weight_decay a) (print_freq a) (resume a) (evaluate a)
     (pretrained a) (dali_cpu a) (prof a) (deterministic a) (local_rank a)
     (loss_scale a) v (distributed a) (world_size a) (rank a) (gpus a)
     (total_batch_size a) (factor a).
Definition set_distributed v (a : t) : t :=
  mk (train a) (validate a) (train_indexes a) (validate_indexes a) (arch a) (workers a)
     (epochs a) (start_epoch a) (batch_size a) (batch_skip a) (local_batch_skip a)
     (lr a) (momentum a) (weight_decay a) (print_freq a) (resume a) (evaluate a)
     (pretrained a) (dali_cpu a) (prof a) (deterministic a) (local_rank a)
     (loss_scale a) (test a) v (world_size a) (rank a) (gpus a)
     (total_batch_size a) (factor a).
Definition set_world_size v (a : t) : t :=
  mk (train a) (validate a) (train_indexes a) (validate_indexes a) (arch a) (workers a)
     (epochs a) (start_epoch a) (batch_size a) (batch_skip a) (local_batch_skip a)
     (lr a) (momentum a) (weight_decay a) (print_freq a) (resume a) (evaluate a)
     (pretrained a) (dali_cpu a) (prof a) (deterministic a) (local_rank a)
     (loss_scale a) (test a) (distributed a) v (rank a) (gpus a)
     (total_batch_size a) (factor a).
Definition set_rank v (a : t) : t :=
  mk (train a) (validate a) (train_indexes a) (validate_indexes a) (arch a) (workers a)
     (epochs a) (start_epoch a) (batch_size a) (batch_skip a) (local_batch_skip a)
     (lr a) (momentum a) (weight_decay a) (print_freq a) (resume a) (evaluate a)
     (pretrained a) (dali_cpu a) (prof a) (deterministic a) (local_rank a)
     (loss_scale a) (test a) (distributed a) (world_size a) v (gpus a)
     (total_batch_size a) (factor a).
Definition set_gpus v (a : t) : t :=
  mk (train a) (validate a) (train_indexes a) (validate_indexes a) (arch a) (workers a)
     (epochs a) (start_epoch a) (batch_size a) (batch_skip a) (local_batch_skip a)
     (lr a) (momentum a) (weight_decay a) (print_freq a) (resume a) (evaluate a)
     (pretrained a) (dali_cpu a) (prof a) (deterministic a) (local_rank a)
     (loss_scale a) (test a) (distributed a) (world_size a) (rank a) v
     (total_batch_size a) (factor a).
Definition set_total_batch_size v (a : t) : t :=
  mk (train a) (validate a) (train_indexes a) (validate_indexes a) (arch a) (workers a)
     (epochs a) (start_epoch a) (batch_size a) (batch_skip a) (local_batch_skip a)
     (lr a) (momentum a) (weight_decay a) (print_freq a) (resume a) (evaluate a)
     (pretrained a) (dali_cpu a) (prof a) (deterministic a) (local_rank a)
     (loss_scale a) (test a) (distributed a) (world_size a) (rank a) (gpus a)
     v (factor a).
Definition set_factor v (a : t) : t :=
  mk (train a) (validate a) (train_indexes a) (validate_indexes a) (arch a) (workers a)
     (epochs a) (start_epoch a) (batch_size a) (batch_skip a) (local_batch_skip a)
     (lr a) (momentum a) (weight_decay a) (print_freq a) (resume a) (evaluate a)
     (pretrained a) (dali_cpu a) (prof a) (deterministic a) (local_rank a)
     (loss_scale a) (test a) (distributed a) (world_size a) (rank a) (gpus a)
     (total_batch_size a) v.
End Args.

(** ** parse (lines 34-176)

    [argparse] is modelled for the command lines the script documents: each
    option string is matched exactly and a valued option takes the next
    token.  Every rejection is argparse's [parser.error], which exits with
    status 2.  A token that starts with [-] and is neither the lone [-] nor
    a negative number is taken for an option string.  argparse does more
    with such tokens: the [-h]/[--help] option that it adds, unique prefixes
    of long options, [--opt=value], values glued to a short option, the
    separator [--], and a token with a space in it, which it takes for an
    argument unless it starts like an option.  None of these is modelled:
    the model takes them for unknown options, and the properties of [parse]
    are stated for command lines without them ([documented], below).  The
    builtins [int] and [float] that convert the values, and
    [torchvision.models.__dict__], are inputs. *)

Definition is_digit (c : ascii) : bool :=
  let n := nat_of_ascii c in (48 <=? n)%nat && (n <=? 57)%nat.
Definition is_upper (c : ascii) : bool :=
  let n := nat_of_ascii c in (65 <=? n)%nat && (n <=? 90)%nat.
Definition is_lower (c : ascii) : bool :=
  let n := nat_of_ascii c in (97 <=? n)%nat && (n <=? 122)%nat.

Fixpoint string_forallb (p : ascii -> bool) (s : string) : bool :=
  match s with
  | EmptyString => true
  | String c s' => p c && string_forallb p s'
  end.
Fixpoint string_existsb (p : ascii -> bool) (s : string) : bool :=
  match s with
  | EmptyString => false
  | String c s' => p c || string_existsb p s'
  end.

(** [str.islower()] on an ASCII name: a cased character exists and no
    cased character is upper case. *)
Definition islower (s : string) : bool :=
  string_existsb is_lower s && string_forallb (fun c => negb (is_upper c)) s.

Definition startswith (p s : string) : bool := String.prefix p s.

(** [sorted] on strings, by insertion. *)
Fixpoint insert_sorted (x : string) (l : list string) : list string :=
  match l with
  | [] => [x]
  | y :: l' => if String.leb x y then x :: l else y :: insert_sorted x l'
  end.
Definition sorted (l : list string) : list string :=
  fold_right insert_sorted [] l.

(** argparse's test for a token of digits: [-\d+] or [-\d*\.\d+] is a
    negative number, not an option string. *)
Fixpoint all_digits (s : string) : bool :=
  match s with
  | EmptyString => true
  | String c s' => is_digit c && all_digits s'
  end.
Definition nonempty_digits (s : string) : bool :=
  match s with
  | EmptyString => false
  | _ => all_digits s
  end.
Fixpoint digits_dot_digits (s : string) : bool :=
  match s with
  | EmptyString => false
  | String c s' =>
      if Ascii.eqb c "."%char then nonempty_digits s'
      else is_digit c && digits_dot_digits s'
  end.
Definition negative_number (tok : string) : bool :=
  match tok with
  | String c s' =>
      Ascii.eqb c "-"%char && (nonempty_digits s' || digits_dot_digits s')
  | EmptyString => false
  end.

(** What argparse takes for an argument, whatever the options of the
    parser: a token that does not start with [-], the lone [-], and a
    negative number (no option of this parser looks like one). *)
Definition plain_value (tok : string) : bool :=
  negb (startswith "-" tok) || String.eqb tok "-" || negative_number tok.
Definition flag_like (tok : string) : bool := negb (plain_value tok).

(** The [action], [type], [nargs] and [choices] of one [add_argument]
    call, with the attribute it stores to. *)
Inductive opt_kind : Type :=
| OStar (set : dirs -> Args.t -> Args.t)
| OStr (choices : option (list string)) (set : string -> Args.t -> Args.t)
| OInt (set : Z -> Args.t -> Args.t)
| OFloat (set : Q -> Args.t -> Args.t)
| OStoreTrue (set : Args.t -> Args.t).

Record option_spec : Type := mk_option {
  flags : list string;
  kind : opt_kind
}.

(** The defaults of the [add_argument] calls.  The attributes that [main]
    adds later hold [False] and 0 until [main] assigns them. *)
Definition defaults : Args.t :=
  Args.mk
    (DirDefault "/p/project/haf/data/imagenet/train/")
    (DirDefault "/p/project/haf/data/imagenet/val/")
    (DirDefault "/p/project/haf/data/imagenet/train-idx/")
    (DirDefault "/p/project/haf/data/imagenet/val-idx/")
    "resnet50" 4 90 0 256 2 1
    (1 # 10) (9 # 10) (1 # 10000) 10
    "" false false false (-1) false 0 None false
    false 0 0 0 0 0.

Section Parse.
(** [torchvision.models.__dict__]: each name with [callable] of its value. *)
Variable models_dict : list (string * bool).
(** The builtins [int] and [float] on a string; [None] is [ValueError]. *)
Variable py_int : string -> option Z.
Variable py_float : string -> option Q.

Definition model_names : list string :=
  sorted (map fst
    (filter (fun e => islower (fst e) && negb (startswith "__" (fst e)) && snd e)
            models_dict)).

Definition parser : list option_spec :=
  [ mk_option ["--train"] (OStar Args.set_train);
    mk_option ["--validate"] (OStar Args.set_validate);
    mk_option ["--train_indexes"] (OStar Args.set_train_indexes);
    mk_option ["--validate_indexes"] (OStar Args.set_validate_indexes);
    mk_option ["--arch"; "-a"] (OStr (Some model_names) Args.set_arch);
    mk_option ["-j"; "--workers"] (OInt Args.set_workers);
    mk_option ["--epochs"] (OInt Args.set_epochs);
    mk_option ["--start-epoch"] (OInt Args.set_start_epoch);
    mk_option ["-b"; "--batch-size"] (OInt Args.set_batch_size);
    mk_option ["-s"; "--batch-skip"] (OInt Args.set_batch_skip);
    mk_option ["-L"; "--local-batch-skip"] (OInt Args.set_local_batch_skip);
    mk_option ["--lr"; "--learning-rate"] (OFloat Args.set_lr);
    mk_option ["--momentum"] (OFloat Args.set_momentum);
    mk_option ["--weight-decay"; "--wd"] (OFloat Args.set_weight_decay);
    mk_option ["--print-freq"; "-p"] (OInt Args.set_print_freq);
    mk_option ["--resume"] (OStr None Args.set_resume);
    mk_option ["-e"; "--evaluate"] (OStoreTrue (Args.set_evaluate true));
    mk_option ["--pretrained"] (OStoreTrue (Args.set_pretrained true));
    mk_option ["--dali_cpu"] (OStoreTrue (Args.set_dali_cpu true));
    mk_option ["--prof"] (OInt Args.set_prof);
    mk_option ["--deterministic"] (OStoreTrue (Args.set_deterministic true));
    mk_option ["--local-rank"] (OInt Args.set_local_rank);
    mk_option ["--loss-scale"] (OStr None (fun v => Args.set_loss_scale (Some v)));
    mk_option ["-t"; "--test"] (OStoreTrue (Args.set_test true)) ].

Definition has_flag (tok : string) (o : option_spec) : bool :=
  existsb (String.eqb tok) (flags o).

Definition find_option (tok : string) : option option_spec :=
  find (has_flag tok) parser.

Definition usage_error {A} : exn + A := inl (SystemExit 2).

(** The value of a one-argument option: converted, then checked against
    [choices]. *)
Definition store (k : opt_kind) (v : string) (a : Args.t) : exn + Args.t :=
  match k with
  | OStr (Some names) set =>
      if existsb (String.eqb v) names then inr (set v a) else usage_error
  | OStr None set => inr (set v a)
  | OInt set =>
      match py_int v with Some z => inr (set z a) | None => usage_error end
  | OFloat set =>
      match py_float v with Some q => inr (set q a) | None => usage_error end
  | OStar _ | OStoreTrue _ => usage_error
  end.

(** The values collected so far for a [nargs="*"] option. *)
Definition pending : Type := option ((dirs -> Args.t -> Args.t) * list string).

Definition flush (p : pending) (a : Args.t) : Args.t :=
  match p with
  | Some (set, vals) => set (DirList vals) a
  | None => a
  end.

Fixpoint parse_args (argv : list string) (p : pending) (a : Args.t) : exn + Args.t :=
  match argv with
  | [] => inr (flush p a)
  | tok :: rest =>
      if flag_like tok then
        match find_option tok with
        | None => usage_error
        | Some o =>
            match kind o with
            | OStar set => parse_args rest (Some (set, [])) (flush p a)
            | OStoreTrue set => parse_args rest None (set (flush p a))
            | k =>
                match rest with
                | v :: rest' =>
                    if flag_like v then usage_error
                    else match store k v (flush p a) with
                         | inl e => inl e
                         | inr a' => parse_args rest' None a'
                         end
                | [] => usage_error
                end
            end
        end
      else
        match p with
        | Some (set, vals) => parse_args rest (Some (set, (vals ++ [tok])%list)) a
        | None => usage_error
        end
  end.

(** [parse()] on the command line [argv] (without the program name). *)
Definition parse (argv : list string) : exn + Args.t :=
  parse_args argv None defaults.
End Parse.

(** ** AverageMeter (lines 704-720) *)

Module AverageMeter.
Record t : Type := mk { val : Q; avg : Q; sum : Q; count : Z }.

(** [reset]: the four attributes are the int 0. *)
Definition reset : t := mk 0 0 0 0.

(** [update(val, n=1)].  The three assignments before the division are
    kept when [self.sum / self.count] raises on a zero count. *)
Definition update (v : Q) (n : Z) : M t unit :=
  modify (fun m => mk v (avg m) (sum m + v * float n) (count m + n)) ;;
  m <- get ;;
  if count m =? 0 then raise ZeroDivisionError
  else put (mk (val m) (sum m / float (count m)) (sum m) (count m)).

(** A sequence of [update] calls on one meter; a raise ends it. *)
Fixpoint updates (calls : list (Q * Z)) : M t unit :=
  match calls with
  | [] => ret tt
  | (v, n) :: rest => update v n ;; updates rest
  end.
End AverageMeter.

(** ** The optimizer and the heat model, as far as the script touches them *)

(** One entry of [optimizer.torch_optimizer.param_groups]. *)
Record param_group : Type := mk_param_group {
  pg_lr : Q;
  pg_momentum : Q;
  pg_weight_decay : Q
}.

Definition set_pg_lr (v : Q) (g : param_group) : param_group :=
  mk_param_group v (pg_momentum g) (pg_weight_decay g).

(** [torch.optim.SGD(model.parameters(), args.lr, momentum=args.momentum,
    weight_decay=args.weight_decay)]: one parameter group. *)
Definition SGD (lr momentum weight_decay : Q) : list param_group :=
  [mk_param_group lr momentum weight_decay].

(** ** reduce_tensor (lines 765-768) *)

(** An MPI communicator as one process sees it: its size, and what
    [Allreduce(MPI.IN_PLACE, rt, MPI.SUM)] leaves in [rt]. *)
Record communicator : Type := mk_comm {
  size : Z;
  Allreduce : Q -> Q
}.

Definition reduce_tensor (tensor : Q) (comm : communicator) : Q :=
  let rt := (tensor / float (size comm))%Q in
  Allreduce comm rt.

Definition Qsum (l : list Q) : Q := fold_right Qplus 0%Q l.

(** The communicator of process [rank] when the processes hold the send
    buffers [sendbufs]: the sum runs over every process, with the caller's
    own buffer in its place. *)
Definition rank_comm (sendbufs : list Q) (rank : nat) : communicator :=
  mk_comm (Z.of_nat (length sendbufs))
          (fun rt => Qsum (firstn rank sendbufs ++ rt :: skipn (S rank) sendbufs)).

(** Every process of the communicator calls [reduce_tensor] on its own
    tensor; the result lists what each process gets back. *)
Definition reduce_tensor_world (tensors : list Q) : list Q :=
  let sendbufs :=
    map (fun tensor => (tensor / float (Z.of_nat (length tensors)))%Q) tensors in
  map (fun rank => reduce_tensor (nth rank tensors 0%Q) (rank_comm sendbufs rank))
      (seq 0 (length tensors)).

(** The communicator of a run with one process. *)
Definition COMM_SELF : communicator := mk_comm 1 (fun rt => rt).

(** [ht.nn.DataParallelMultiGPU]: the attributes the script reads and
    writes, and the number of [reset_skips()] calls it made. *)
Record DataParallelMultiGPU : Type := mk_htmodel {
  training : bool;
  last_batch : option Z;
  reset_skips_calls : nat;
  comm : communicator
}.

(** What [adjust_learning_rate] reads and writes: the global [args], the
    optimizer's parameter groups and the heat model. *)
Record Ctx : Type := mk_ctx {
  args : Args.t;
  param_groups : list param_group;
  htmodel : DataParallelMultiGPU
}.

Definition set_args (f : Args.t -> Args.t) (c : Ctx) : Ctx :=
  mk_ctx (f (args c)) (param_groups c) (htmodel c).
Definition set_param_groups (f : list param_group -> list param_group) (c : Ctx) : Ctx :=
  mk_ctx (args c) (f (param_groups c)) (htmodel c).
Definition set_htmodel (f : DataParallelMultiGPU -> DataParallelMultiGPU) (c : Ctx) : Ctx :=
  mk_ctx (args c) (param_groups c) (f (htmodel c)).

Definition reset_skips (h : DataParallelMultiGPU) : DataParallelMultiGPU :=
  mk_htmodel (training h) (last_batch h) (S (reset_skips_calls h)) (comm h).

(** ** adjust_learning_rate (lines 723-746) *)

(** The warmup factor of line 743, [float(1 + step + epoch * len_epoch) /
    (5.0 * len_epoch)] applied to [lr]; [len_epoch] is [None] in the call
    of [main], and a zero [len_epoch] divides by [0.0]. *)
Definition warmup (lr : Q) (epoch step : Z) (len_epoch : option Z) : exn + Q :=
  match len_epoch with
  | None => inl TypeError
  | Some len =>
      if Qis_zero (5 * float len) then inl ZeroDivisionError
      else inr (lr * float (1 + step + epoch * len) / (5 * float len))%Q
  end.

Definition adjust_learning_rate (epoch : Z) (step len_epoch : option Z) : M Ctx unit :=
  c <- get ;;
  when ((epoch / 30 >? 0) && (Args.factor (args c) <? epoch / 30))
       (modify (set_htmodel reset_skips) ;;
        modify (set_args (fun a => Args.set_factor (Args.factor a + 1) a))) ;;
  when (epoch >=? 80)
       (modify (set_args (fun a => Args.set_factor (Args.factor a + 1) a))) ;;
  c <- get ;;
  let lr := (Args.lr (args c) * (1 # 10) ^ Args.factor (args c))%Q in
  lr <- match step with
        | Some s =>
            if epoch <? 5 then
              match warmup lr epoch s len_epoch with
              | inl e => raise e
              | inr lr' => ret lr'
              end
            else ret lr
        | None => ret lr
        end ;;
  modify (set_param_groups (map (set_pg_lr lr))).

(** ** accuracy (lines 749-762) *)

(** A tensor of labels: 0-dimensional, or a vector. *)
Inductive labels : Type :=
| Scalar (x : Z)
| Vector (l : list Z).

Section Accuracy.
(** The indices of a row of scores by decreasing score, as the sort of
    [torch.topk] leaves them.  torch does not fix the order among equal
    scores, so the sort is an input. *)
Variable argsort : list Q -> list nat.

(** [output.topk(maxk, 1, True, True)]: per row the indices of the [k]
    largest scores, largest first. *)
Definition topk_indices (input : list (list Q)) (k : Z) : exn + list (list Z) :=
  if (k <? 0) || existsb (fun row => Z.of_nat (length row) <? k) input
  then inl (RuntimeError "selected index k out of range")
  else inr (map (fun row => map Z.of_nat (firstn (Z.to_nat k) (argsort row))) input).

(** [pred.t()] of a matrix with [ncols] columns. *)
Definition t (ncols : nat) (m : list (list Z)) : list (list Z) :=
  map (fun r => map (fun row => nth r row 0) m) (seq 0 ncols).

(** [target.view(1, -1).expand_as(pred)]: one row of [pred], which has
    [width] columns; a target of one element is broadcast. *)
Definition expand_as (target : list Z) (width : nat) : exn + list Z :=
  if (length target =? width)%nat then inr target
  else match target with
       | [x] => inr (repeat x width)
       | _ => inl (RuntimeError "The expanded size of the tensor must match the existing size")
       end.

(** The slice [l[:k]]; a negative [k] counts from the end. *)
Definition slice_to {A} (k : Z) (l : list A) : list A :=
  if k >=? 0 then firstn (Z.to_nat k) l
  else firstn (length l - Z.to_nat (- k)) l.

(** [.view(-1)] on [correct[:k]].  [correct] has the strides of the
    transposed [pred], the operand of [eq]: a slice of two or more rows and
    two or more columns is not contiguous, and [view] refuses it. *)
Definition view_flat (rows : list (list bool)) (ncols : nat) : exn + list bool :=
  if (2 <=? length rows)%nat && (2 <=? ncols)%nat
  then inl (RuntimeError "view size is not compatible with input tensor's size and stride (at least one dimension spans across two contiguous subspaces). Use .reshape(...) instead.")
  else inr (concat rows).

(** [.float().sum(0, keepdim=True)] *)
Definition count_true (v : list bool) : Z :=
  Z.of_nat (length (filter (fun b => b) v)).

(** [max(topk)]; the empty tuple raises [ValueError]. *)
Definition max_of (ks : list Z) : exn + Z :=
  match ks with
  | [] => inl ValueError
  | k :: ks' => inr (fold_left Z.max ks' k)
  end.

(** Lines 759-761; [correct] has [ncols] columns. *)
Fixpoint accuracy_loop (correct : list (list bool)) (ncols : nat) (batch_size : Z)
    (topk : list Z) : exn + list Q :=
  match topk with
  | [] => inr []
  | k :: topk' =>
      match view_flat (slice_to k correct) ncols with
      | inl e => inl e
      | inr flat =>
          let correct_k := count_true flat in
          if batch_size =? 0 then inl ZeroDivisionError
          else match accuracy_loop correct ncols batch_size topk' with
               | inl e => inl e
               | inr res => inr ((float correct_k * (100 / float batch_size))%Q :: res)
               end
      end
  end.

Definition accuracy (output : list (list Q)) (target : labels) (topk : list Z)
  : exn + list Q :=
  match max_of topk with
  | inl e => inl e
  | inr maxk =>
      match target with
      | Scalar _ => inl IndexError           (* target.size(0) *)
      | Vector target =>
          let batch_size := Z.of_nat (length target) in
          match topk_indices output maxk with
          | inl e => inl e
          | inr pred =>
              let pred := t (Z.to_nat maxk) pred in
              match expand_as target (length output) with
              | inl e => inl e
              | inr target_row =>
                  let correct :=
                    map (fun prow =>
                           map (fun pl => fst pl =? snd pl) (combine prow target_row))
                        pred in
                  accuracy_loop correct (length output) batch_size topk
              end
          end
      end
  end.
End Accuracy.

(** ** train (lines 510-624) and validate (lines 627-695) *)

Inductive meter : Type := batch_time | losses | top1 | top5.

(** What a run does that is visible from outside, in program order. *)
Inductive event : Type :=
| E_adjust_learning_rate (epoch : Z) (step : option Z)
| E_forward (i : Z)
| E_loss (i : Z)
| E_zero_grad (i : Z)
| E_backward (i : Z)
| E_step (i : Z)
| E_update (m : meter) (i : Z)
| E_print (i : Z)
| E_nvtx_push (name : string)
| E_nvtx_pop
| E_profiler_start
| E_profiler_stop
| E_HybridPipe (crop : Z) (is_training : bool)
| E_train (epoch : Z)
| E_validate
| E_epoch_loss_logic
| E_reset_train_loader
| E_reset_val_loader
| E_print_results.

(** One item of a DALI iterator: the labels [data[0]["label"]], a tensor of
    shape (B, 1) for a batch of B samples, with what the external calls of
    one iteration return on the batch: [model(input)],
    [criterion(output, target)], and the clock when the meters are updated.
    [input.size(0)] is the number of rows of [output]. *)
Record batch : Type := mk_batch {
  output : list (list Q);
  label : list Z;
  loss : Q;
  now : Q
}.

(** [data[0]["label"].squeeze()]: a vector, but 0-dimensional for a batch of
    one sample. *)
Definition squeeze (label : list Z) : labels :=
  match label with
  | [x] => Scalar x
  | l => Vector l
  end.

Record loader : Type := mk_loader {
  loader_size : Z;          (* train_loader._size *)
  batches : list batch
}.

(** [zoom] runs a computation on a part of the state. *)
Definition zoom {S T A} (proj : S -> T) (upd : T -> S -> S) (m : M T A) : M S A :=
  fun s => (fst (m (proj s)), upd (snd (m (proj s))) s).

Definition lift {S A} (r : exn + A) : M S A :=
  match r with
  | inl e => raise e
  | inr a => ret a
  end.

(** The locals of [train] and [validate] with the context they share. *)
Module Loop.
Record t : Type := mk {
  ctx : Ctx;
  batch_time_ : AverageMeter.t;
  losses_ : AverageMeter.t;
  top1_ : AverageMeter.t;
  top5_ : AverageMeter.t;
  end_ : Q;
  log : list event
}.

Definition set_ctx v (s : t) : t :=
  mk v (batch_time_ s) (losses_ s) (top1_ s) (top5_ s) (end_ s) (log s).
Definition set_end v (s : t) : t :=
  mk (ctx s) (batch_time_ s) (losses_ s) (top1_ s) (top5_ s) v (log s).
Definition set_log v (s : t) : t :=
  mk (ctx s) (batch_time_ s) (losses_ s) (top1_ s) (top5_ s) (end_ s) v.

Definition get_meter (m : meter) (s : t) : AverageMeter.t :=
  match m with
  | batch_time => batch_time_ s
  | losses => losses_ s
  | top1 => top1_ s
  | top5 => top5_ s
  end.
Definition set_meter (m : meter) (v : AverageMeter.t) (s : t) : t :=
  match m with
  | batch_time => mk (ctx s) v (losses_ s) (top1_ s) (top5_ s) (end_ s) (log s)
  | losses => mk (ctx s) (batch_time_ s) v (top1_ s) (top5_ s) (end_ s) (log s)
  | top1 => mk (ctx s) (batch_time_ s) (losses_ s) v (top5_ s) (end_ s) (log s)
  | top5 => mk (ctx s) (batch_time_ s) (losses_ s) (top1_ s) v (end_ s) (log s)
  end.

(** The four fresh meters of lines 511-514 and [end = time.time()]. *)
Definition init (c : Ctx) (start : Q) : t :=
  mk c AverageMeter.reset AverageMeter.reset AverageMeter.reset AverageMeter.reset
     start [].
End Loop.

(** A state that carries a log of events. *)
Class Logged (S : Type) : Type := {
  get_log : S -> list event;
  set_log : list event -> S -> S
}.

#[global] Instance Loop_Logged : Logged Loop.t :=
  {| get_log := Loop.log; set_log := Loop.set_log |}.

Definition emit {S} `{Logged S} (e : event) : M S unit :=
  modify (fun s => set_log (get_log s ++ [e]) s).

Definition the_args : M Loop.t Args.t := s <- get ;; ret (args (Loop.ctx s)).

(** [meter.update(val, n)] on one of the four meters. *)
Definition update (m : meter) (i : Z) (v : Q) (n : Z) : M Loop.t unit :=
  emit (E_update m i) ;;
  zoom (Loop.get_meter m) (Loop.set_meter m) (AverageMeter.update v n).

(** [meter.avg = reduce_tensor(torch.tensor(meter.avg), comm=model.comm)] *)
Definition reduce_avg (m : meter) : M Loop.t unit :=
  modify (fun s =>
    let a := Loop.get_meter m s in
    Loop.set_meter m
      (AverageMeter.mk (AverageMeter.val a)
         (reduce_tensor (AverageMeter.avg a) (comm (htmodel (Loop.ctx s))))
         (AverageMeter.sum a) (AverageMeter.count a))
      s).

Definition avg_of (m : meter) : M Loop.t Q :=
  s <- get ;; ret (AverageMeter.avg (Loop.get_meter m s)).

(** [int(math.ceil(a / b))] and [int(a / b)] on ints. *)
Definition ceil_div (a b : Z) : exn + Z :=
  if b =? 0 then inl ZeroDivisionError else inr (Qceiling (float a / float b)).
Definition trunc_div (a b : Z) : exn + Z :=
  if b =? 0 then inl ZeroDivisionError
  else let q := (float a / float b)%Q in
       inr (if Qle_bool 0 q then Qfloor q else Qceiling q).

(** [x % y] and [x / y] with a float result. *)
Definition py_mod (x y : Z) : exn + Z :=
  if y =? 0 then inl ZeroDivisionError else inr (x mod y).
Definition py_div (x y : Q) : exn + Q :=
  if Qis_zero y then inl ZeroDivisionError else inr (x / y)%Q.

Section Loops.
(** The sort of [torch.topk], see [accuracy]. *)
Variable argsort : list Q -> list nat.

(** Lines 573-609: the metrics of a logged iteration. *)
Definition record_metrics (i train_loader_len : Z) (data : batch) : M Loop.t unit :=
  a <- the_args ;;
  prec <- lift (accuracy argsort (output data) (squeeze (label data)) [1; 5]) ;;
  let prec1 := nth 0 prec 0%Q in
  let prec5 := nth 1 prec 0%Q in
  let reduced_loss := loss data in
  let n := Z.of_nat (length (output data)) in
  update losses i reduced_loss n ;;
  update top1 i prec1 n ;;
  update top5 i prec5 n ;;
  s <- get ;;
  update batch_time i ((now data - Loop.end_ s) / float (Args.print_freq a))%Q 1 ;;
  modify (Loop.set_end (now data)) ;;
  when (Args.rank a =? 0)
    (s <- get ;;
     let total := float (Args.world_size a * Args.batch_size a) in
     _ <- lift (py_div total (AverageMeter.val (Loop.batch_time_ s))) ;;
     _ <- lift (py_div total (AverageMeter.avg (Loop.batch_time_ s))) ;;
     emit (E_print i)).

(** Line 567: [i % args.print_freq == 0 or i == train_loader_len]. *)
Definition metrics_due (i train_loader_len : Z) : M Loop.t bool :=
  a <- the_args ;;
  r <- lift (py_mod i (Args.print_freq a)) ;;
  ret ((r =? 0) || (i =? train_loader_len)).

(** The body of the loop of [train]; the result is [true] on [break]. *)
Definition train_body (epoch train_loader_len i : Z) (data : batch) : M Loop.t bool :=
  a <- the_args ;;
  let profiling := Args.prof a >=? 0 in
  when (profiling && (i =? Args.prof a)) (emit E_profiler_start) ;;
  when profiling (emit (E_nvtx_push "Body of iteration")) ;;
  emit (E_adjust_learning_rate epoch (Some i)) ;;
  zoom Loop.ctx Loop.set_ctx
       (adjust_learning_rate epoch (Some i) (Some train_loader_len)) ;;
  if Args.test a && (i >? 10) then ret true
  else
    when profiling (emit (E_nvtx_push "forward")) ;;
    emit (E_forward i) ;;
    when profiling (emit E_nvtx_pop) ;;
    emit (E_loss i) ;;
    emit (E_zero_grad i) ;;
    when profiling (emit (E_nvtx_push "backward")) ;;
    emit (E_backward i) ;;
    when profiling (emit E_nvtx_pop) ;;
    when profiling (emit (E_nvtx_push "optimizer.step()")) ;;
    emit (E_step i) ;;
    when profiling (emit E_nvtx_pop) ;;
    due <- metrics_due i train_loader_len ;;
    when due (record_metrics i train_loader_len data) ;;
    when profiling (emit E_nvtx_pop) ;;
    if profiling && (i =? Args.prof a + 10)
    then emit E_profiler_stop ;; raise (SystemExit 0)
    else ret false.

(** [for i, data in enumerate(train_loader)], from index [i]. *)
Fixpoint train_loop (epoch train_loader_len i : Z) (items : list batch) : M Loop.t unit :=
  match items with
  | [] => ret tt
  | data :: rest =>
      stop <- train_body epoch train_loader_len i data ;;
      if stop then ret tt else train_loop epoch train_loader_len (i + 1) rest
  end.

Definition set_training (b : bool) (h : DataParallelMultiGPU) : DataParallelMultiGPU :=
  mk_htmodel b (last_batch h) (reset_skips_calls h) (comm h).
Definition set_last_batch (n : Z) (h : DataParallelMultiGPU) : DataParallelMultiGPU :=
  mk_htmodel (training h) (Some n) (reset_skips_calls h) (comm h).

Definition on_model (f : DataParallelMultiGPU -> DataParallelMultiGPU) : M Loop.t unit :=
  modify (fun s => Loop.set_ctx (set_htmodel f (Loop.ctx s)) s).

Definition train_steps (train_loader : loader) (epoch : Z) : M Loop.t (Q * Q * Q * Q) :=
  on_model (set_training true) ;;
  a <- the_args ;;
  train_loader_len <- lift (ceil_div (loader_size train_loader) (Args.batch_size a)) ;;
  on_model (set_last_batch train_loader_len) ;;
  train_loop epoch train_loader_len 0 (batches train_loader) ;;
  reduce_avg top1 ;;
  reduce_avg top5 ;;
  reduce_avg batch_time ;;
  reduce_avg losses ;;
  bt <- avg_of batch_time ;;
  t1 <- avg_of top1 ;;
  t5 <- avg_of top5 ;;
  ls <- avg_of losses ;;
  ret (bt, t1, t5, ls).

(** [train(dev, train_loader, model, criterion, optimizer, epoch)], started
    when the clock reads [start]. *)
Definition train (train_loader : loader) (epoch : Z) (start : Q) (c : Ctx)
  : (exn + Q * Q * Q * Q) * Loop.t :=
  train_steps train_loader epoch (Loop.init c start).

Definition validate_body (val_loader : loader) (i : Z) (data : batch) : M Loop.t unit :=
  a <- the_args ;;
  _ <- lift (trunc_div (loader_size val_loader) (Args.batch_size a)) ;;
  emit (E_forward i) ;;
  emit (E_loss i) ;;
  prec <- lift (accuracy argsort (output data) (squeeze (label data)) [1; 5]) ;;
  let prec1 := nth 0 prec 0%Q in
  let prec5 := nth 1 prec 0%Q in
  let reduced_loss := loss data in
  let n := Z.of_nat (length (output data)) in
  update losses i reduced_loss n ;;
  update top1 i prec1 n ;;
  update top5 i prec5 n ;;
  s <- get ;;
  update batch_time i (now data - Loop.end_ s)%Q 1 ;;
  modify (Loop.set_end (now data)) ;;
  when (Args.rank a =? 0)
    (r <- lift (py_mod i (Args.print_freq a)) ;;
     when (r =? 0)
       (s <- get ;;
        let total := float (Args.world_size a * Args.batch_size a) in
        _ <- lift (py_div total (AverageMeter.val (Loop.batch_time_ s))) ;;
        _ <- lift (py_div total (AverageMeter.avg (Loop.batch_time_ s))) ;;
        emit (E_print i))).

Fixpoint validate_loop (val_loader : loader) (i : Z) (items : list batch) : M Loop.t unit :=
  match items with
  | [] => ret tt
  | data :: rest =>
      validate_body val_loader i data ;; validate_loop val_loader (i + 1) rest
  end.

Definition validate_steps (val_loader : loader) : M Loop.t (Q * Q) :=
  on_model (set_training false) ;;
  validate_loop val_loader 0 (batches val_loader) ;;
  reduce_avg top1 ;;
  reduce_avg top5 ;;
  reduce_avg losses ;;
  t1 <- avg_of top1 ;;
  t5 <- avg_of top5 ;;
  ret (t1, t5).

(** [validate(dev, val_loader, model, criterion)] *)
Definition validate (val_loader : loader) (start : Q) (c : Ctx)
  : (exn + Q * Q) * Loop.t :=
  validate_steps val_loader (Loop.init c start).
End Loops.

(** ** main (lines 279-507) *)

(** What [main] reads from the machine: [ht.MPI_WORLD] and its rank,
    [torch.cuda.device_count()], [torch.backends.cudnn.enabled], and whether
    [torch] has both [channels_last] and [contiguous_format]. *)
Record environment : Type := mk_env {
  MPI_WORLD : communicator;
  MPI_WORLD_rank : Z;
  device_count : Z;
  cudnn_enabled : bool;
  has_memory_formats : bool
}.

(** The globals and locals of [main]. *)
Module Main.
Record t : Type := mk {
  ctx : Ctx;
  best_prec1 : Q;
  total_time : AverageMeter.t;
  batch_time_avg : list Q;
  train_acc1 : list Q;
  train_acc5 : list Q;
  avg_loss : list Q;
  val_acc1 : list Q;
  val_acc5 : list Q;
  log : list event
}.

Definition set_ctx v (s : t) : t :=
  mk v (best_prec1 s) (total_time s) (batch_time_avg s) (train_acc1 s)
     (train_acc5 s) (avg_loss s) (val_acc1 s) (val_acc5 s) (log s).
Definition set_best_prec1 v (s : t) : t :=
  mk (ctx s) v (total_time s) (batch_time_avg s) (train_acc1 s)
     (train_acc5 s) (avg_loss s) (val_acc1 s) (val_acc5 s) (log s).
Definition set_total_time v (s : t) : t :=
  mk (ctx s) (best_prec1 s) v (batch_time_avg s) (train_acc1 s)
     (train_acc5 s) (avg_loss s) (val_acc1 s) (val_acc5 s) (log s).
Definition set_log v (s : t) : t :=
  mk (ctx s) (best_prec1 s) (total_time s) (batch_time_avg s) (train_acc1 s)
     (train_acc5 s) (avg_loss s) (val_acc1 s) (val_acc5 s) v.

(** Lines 492-497: the six [append]s of one epoch. *)
Definition append_results (prec1 prec5 tacc1 tacc5 ls : Q) (s : t) : t :=
  mk (ctx s) (best_prec1 s) (total_time s)
     (batch_time_avg s ++ [AverageMeter.avg (total_time s)])
     (train_acc1 s ++ [tacc1]) (train_acc5 s ++ [tacc5]) (avg_loss s ++ [ls])
     (val_acc1 s ++ [prec1]) (val_acc5 s ++ [prec5]) (log s).

(** The state at the first line of [main]; the context is filled in once
    the arguments are parsed and the optimizer and model are built. *)
Definition init (world : communicator) : t :=
  mk (mk_ctx defaults [] (mk_htmodel true None 0 world))
     0 AverageMeter.reset [] [] [] [] [] [] [].
End Main.

#[global] Instance Main_Logged : Logged Main.t :=
  {| get_log := Main.log; set_log := Main.set_log |}.

(** Lines 285-291: test mode presets. *)
Definition test_mode (a : Args.t) : Args.t :=
  if Args.test a
  then Args.set_batch_size 64
         (Args.set_arch "resnet50" (Args.set_start_epoch 0 (Args.set_epochs 1 a)))
  else a.

(** Lines 293-367: devices, the [cudnn] assertion, the memory format and the
    scaling of the learning rate.  The result is the namespace and
    [twice_dist]. *)
Definition setup (env : environment) (a : Args.t) : exn + Args.t * bool :=
  let a := Args.set_distributed true a in
  let a := Args.set_world_size (size (MPI_WORLD env)) a in
  let a := Args.set_rank (MPI_WORLD_rank env) a in
  let rank := Args.rank a in
  let a := Args.set_gpus (device_count env) a in
  let loc_dist := Args.gpus a >? 1 in
  match py_mod rank (Args.gpus a) with
  | inl e => inl e
  | inr loc_rank =>
      let a := Args.set_local_rank loc_rank a in
      let '(a, twice_dist) :=
        if Args.distributed a && loc_dist then (a, true)
        else if Args.gpus a =? 1
             then (Args.set_local_rank 0
                     (Args.set_distributed false
                        (Args.set_gpus (device_count env) a)), false)
             else (a, false) in
      let a := Args.set_total_batch_size (Args.world_size a * Args.batch_size a) a in
      if negb (cudnn_enabled env) then inl AssertionError
      else if negb (Args.distributed a) && has_memory_formats env
           then inl (AttributeError "channels_last")
           else
             let a := Args.set_lr
                        (Args.lr a * float (Args.batch_size a * size (MPI_WORLD env))
                         / 256)%Q a in
             inr (a, twice_dist)
  end.

(** Lines 412-418: the crop sizes, or the refusal of [inception_v3]. *)
Definition crop_sizes (a : Args.t) : exn + Z * Z :=
  if String.eqb (Args.arch a) "inception_v3"
  then inl (RuntimeError "Currently, inception_v3 is not supported by this example.")
  else inr (224, 256).

(** Python's [max(a, b)]: [b] only if it is greater. *)
Definition py_max (a b : Q) : Q := if Qle_bool b a then a else b.

(** [l[c]], with Python's negative indices. *)
Definition py_index (l : list Q) (c : Z) : exn + Q :=
  let i := if c <? 0 then Z.of_nat (length l) + c else c in
  if i <? 0 then inl IndexError
  else match nth_error l (Z.to_nat i) with
       | Some x => inr x
       | None => inl IndexError
       end.

Section Main.
Variable models_dict : list (string * bool).
Variable py_int : string -> option Z.
Variable py_float : string -> option Q.
Variable env : environment.
(** The calls [train(..., epoch)] and [validate(...)], as they act on the
    context they share with [main]. *)
Variable train_call : Z -> M Ctx (Q * Q * Q * Q).
Variable validate_call : M Ctx (Q * Q).

Definition main_args : M Main.t Args.t := s <- get ;; ret (args (Main.ctx s)).

Definition on_ctx {A} (m : M Ctx A) : M Main.t A := zoom Main.ctx Main.set_ctx m.

(** Lines 457-499: one epoch; the result is [true] on [break].  The
    metrics that [train] and [validate] return are tensors, and so are the
    attributes of [total_time]: the division of line 490 raises nothing. *)
Definition main_body (epoch : Z) : M Main.t bool :=
  emit (E_train epoch) ;;
  r <- on_ctx (train_call epoch) ;;
  let '(avg_train_time, tacc1, tacc5, ls) := r in
  zoom Main.total_time Main.set_total_time (AverageMeter.update avg_train_time 1) ;;
  a <- main_args ;;
  if Args.test a then ret true
  else
    emit E_validate ;;
    p <- on_ctx validate_call ;;
    let '(prec1, prec5) := p in
    emit E_epoch_loss_logic ;;
    emit (E_adjust_learning_rate epoch None) ;;
    on_ctx (adjust_learning_rate epoch None None) ;;
    a <- main_args ;;
    when (Args.rank a =? 0)
      (modify (fun s => Main.set_best_prec1 (py_max prec1 (Main.best_prec1 s)) s) ;;
       when (epoch =? Args.epochs a - 1) (emit (E_print epoch)) ;;
       modify (Main.append_results prec1 prec5 tacc1 tacc5 ls)) ;;
    emit E_reset_train_loader ;;
    emit E_reset_val_loader ;;
    ret false.

(** [for epoch in range(args.start_epoch, args.epochs)] *)
Fixpoint main_loop (epochs : list Z) : M Main.t unit :=
  match epochs with
  | [] => ret tt
  | epoch :: rest =>
      stop <- main_body epoch ;;
      if stop then ret tt else main_loop rest
  end.

(** Lines 500-507: the table printed on rank 0. *)
Definition print_results (a : Args.t) : M Main.t unit :=
  emit E_print_results ;;
  for_each (range (Args.start_epoch a) (Args.epochs a))
    (fun c =>
       s <- get ;;
       _ <- lift (py_index (Main.batch_time_avg s) c) ;;
       _ <- lift (py_index (Main.train_acc1 s) c) ;;
       _ <- lift (py_index (Main.train_acc5 s) c) ;;
       _ <- lift (py_index (Main.avg_loss s) c) ;;
       _ <- lift (py_index (Main.val_acc1 s) c) ;;
       _ <- lift (py_index (Main.val_acc5 s) c) ;;
       ret tt).

(** Lines 447-507, once the loaders are built. *)
Definition run_epochs : M Main.t unit :=
  a <- main_args ;;
  if Args.evaluate a then
    emit E_validate ;;
    _ <- on_ctx validate_call ;;
    ret tt
  else
    modify (fun s => Main.set_ctx (set_args (Args.set_factor 0) (Main.ctx s)) s) ;;
    modify (Main.set_total_time AverageMeter.reset) ;;
    a <- main_args ;;
    main_loop (range (Args.start_epoch a) (Args.epochs a)) ;;
    a <- main_args ;;
    when (Args.rank a =? 0) (print_results a).

Definition main_steps (argv : list string) : M Main.t unit :=
  modify (Main.set_best_prec1 0) ;;
  a <- lift (parse models_dict py_int py_float argv) ;;
  r <- lift (setup env (test_mode a)) ;;
  let '(a, twice_dist) := r in
  modify (Main.set_ctx
            (mk_ctx a (SGD (Args.lr a) (Args.momentum a) (Args.weight_decay a))
                    (mk_htmodel true None 0 (MPI_WORLD env)))) ;;
  sizes <- lift (crop_sizes a) ;;
  let '(crop_size, val_size) := sizes in
  emit (E_HybridPipe crop_size true) ;;
  emit (E_HybridPipe val_size false) ;;
  run_epochs.

(** [main()] on the command line [argv]. *)
Definition main (argv : list string) : (exn + unit) * Main.t :=
  main_steps argv (Main.init (MPI_WORLD env)).
End Main.

(** The script with its own [train] and [validate]; each loader yields the
    same batches in every epoch, and [clock] is read when a call starts. *)
Definition script (models_dict : list (string * bool))
    (py_int : string -> option Z) (py_float : string -> option Q)
    (argsort : list Q -> list nat)
    (env : environment) (train_loader val_loader : loader) (clock : Q)
    (argv : list string) : (exn + unit) * Main.t :=
  main models_dict py_int py_float env
       (fun epoch c =>
          (fst (train argsort train_loader epoch clock c),
           Loop.ctx (snd (train argsort train_loader epoch clock c))))
       (fun c =>
          (fst (validate argsort val_loader clock c),
           Loop.ctx (snd (validate argsort val_loader clock c))))
       argv.

(** ** HybridPipe (lines 187-276) *)

(** The operators [__init__] configures, with the arguments that depend on
    the parameters of the pipeline. *)
Record TFRecordReader : Type := mk_reader {
  path : list string;
  index_path : list string;
  random_shuffle : bool;
  shard_id : Z;
  num_shards : Z
}.

Inductive decoder : Type :=
| ImageDecoderRandomCrop (device_memory_padding host_memory_padding : Z)
| ImageDecoder.

Inductive resizer : Type :=
| Resize_xy (resize_x resize_y : Z)
| Resize_shorter (resize_shorter : Z).

Module HybridPipe.
Record t : Type := mk {
  batch_size : Z;
  num_threads : Z;
  device_id : Z;
  seed : Z;
  input : TFRecordReader;
  decode : decoder;
  resize : resizer;
  normalize_crop : Z * Z;
  training : bool
}.
End HybridPipe.

Section Pipes.
(** [os.listdir] on a path: the names, or the [OSError] it raises. *)
Variable listdir : string -> exn + list string.

(** [[data_dir + d for d in os.listdir(data_dir)]].  [data_dir] is the
    string default of the option or, once the option was given, a list,
    which [os.listdir] refuses. *)
Definition listed_files (data_dir : dirs) : exn + list string :=
  match data_dir with
  | DirList _ => inl TypeError
  | DirDefault dir =>
      match listdir dir with
      | inl e => inl e
      | inr names => inr (map (fun d => (dir ++ d)%string) names)
      end
  end.

(** [HybridPipe(batch_size, num_threads, device_id, data_dir, label_dir,
    crop, dali_cpu, training)] on the process [rank] of [world]. *)
Definition HybridPipe_init (world : communicator) (rank : Z)
    (batch_size num_threads device_id : Z) (data_dir label_dir : dirs)
    (crop : Z) (dali_cpu training : bool) : exn + HybridPipe.t :=
  let shard_id := rank in
  let num_shards := size world in
  match listed_files data_dir with
  | inl e => inl e
  | inr data_dir_list =>
      match listed_files label_dir with
      | inl e => inl e
      | inr label_dir_list =>
          let input :=
            mk_reader data_dir_list label_dir_list training shard_id num_shards in
          let decoder_device := if dali_cpu then "cpu" else "mixed" in
          let device_memory_padding :=
            if String.eqb decoder_device "mixed" then 211025920 else 0 in
          let host_memory_padding :=
            if String.eqb decoder_device "mixed" then 140544512 else 0 in
          let '(decode, resize) :=
            if training
            then (ImageDecoderRandomCrop device_memory_padding host_memory_padding,
                  Resize_xy crop crop)
            else (ImageDecoder, Resize_shorter crop) in
          inr (HybridPipe.mk batch_size num_threads device_id (68 + shard_id)
                             input decode resize (crop, crop) training)
      end
  end.

(** Lines 420-445 of [main]: the training and the validation pipeline.
    [device_id] is [loc_rank], which [args.local_rank] holds. *)
Definition main_pipes (env : environment) (a : Args.t) (crop_size val_size : Z)
  : exn + HybridPipe.t * HybridPipe.t :=
  match HybridPipe_init (MPI_WORLD env) (MPI_WORLD_rank env)
          (Args.batch_size a) (Args.workers a) (Args.local_rank a)
          (Args.train a) (Args.train_indexes a) crop_size (Args.dali_cpu a) true with
  | inl e => inl e
  | inr train_pipe =>
      match HybridPipe_init (MPI_WORLD env) (MPI_WORLD_rank env)
              (Args.batch_size a) (Args.workers a) (Args.local_rank a)
              (Args.validate a) (Args.validate_indexes a) val_size
              (Args.dali_cpu a) false with
      | inl e => inl e
      | inr val_pipe => inr (train_pipe, val_pipe)
      end
  end.
End Pipes.

(* ================================================================== *)
(** * The vocabulary of the properties *)

(** ** AverageMeter *)

Module AverageMeterSpec.

(** The sums of the claim: [Σ val_i * n_i] and [Σ n_i]. *)
Definition weighted_sum (calls : list (Q * Z)) : Q :=
  fold_right (fun c acc => (fst c * float (snd c) + acc)%Q) 0%Q calls.

Definition total_count (calls : list (Q * Z)) : Z :=
  fold_right (fun c acc => snd c + acc) 0 calls.

Definition last_val (calls : list (Q * Z)) (d : Q) : Q :=
  last (map fst calls) d.

Definition positive_weights (calls : list (Q * Z)) : Prop :=
  Forall (fun c => 0 < snd c) calls.

End AverageMeterSpec.

(** ** adjust_learning_rate *)

(** The rate before warmup, [args.lr * (0.1 ** args.factor)]. *)
Definition base_rate (a : Args.t) : Q := (Args.lr a * (1 # 10) ^ Args.factor a)%Q.

(** The warmup multiplier of the claim. *)
Definition warmup_scale (epoch step len : Z) : Q :=
  (float (1 + step + epoch * len) / (5 * float len))%Q.

(** The effect of the two [if]s of lines 730-737 on [args.factor]. *)
Definition bumps (epoch factor : Z) : Z :=
  (if (epoch / 30 >? 0) && (factor <? epoch / 30) then 1 else 0) +
  (if epoch >=? 80 then 1 else 0).


(** The calls of [adjust_learning_rate] in a run: each is for the epoch of
    the call before, or for the next epoch, below 80. *)
Fixpoint in_step (prev : Z) (calls : list (Z * option Z * option Z)) : Prop :=
  match calls with
  | [] => True
  | (e, _, _) :: rest => prev <= e <= prev + 1 /\ e < 80 /\ in_step e rest
  end.

(** The epoch of the last call, [e0] when there is none. *)
Definition last_epoch (e0 : Z) (calls : list (Z * option Z * option Z)) : Z :=
  last (map (fun c => fst (fst c)) calls) e0.

(** ** train *)

(** The six operations of the claim and their order in iteration [i]. *)
Definition is_core (e : event) : bool :=
  match e with
  | E_adjust_learning_rate _ (Some _) | E_forward _ | E_loss _
  | E_zero_grad _ | E_backward _ | E_step _ => true
  | _ => false
  end.

Definition core (l : list event) : list event := filter is_core l.

Definition block (epoch i : Z) : list event :=
  [E_adjust_learning_rate epoch (Some i); E_forward i; E_loss i;
   E_zero_grad i; E_backward i; E_step i].

(** The condition of line 567 on iteration [i]. *)
Definition due (print_freq train_loader_len i : Z) : Prop :=
  print_freq <> 0 /\ (i mod print_freq = 0 \/ i = train_loader_len).

(** Two namespaces that differ at most in [factor]. *)
Definition same_options (a a' : Args.t) : Prop :=
  Args.set_factor 0 a' = Args.set_factor 0 a.

(** A step of [train] from [s] to [s']: the options are kept and the log
    grows by events that satisfy [ok]. *)
Definition step (ok : event -> Prop) (s s' : Loop.t) : Prop :=
  same_options (args (Loop.ctx s)) (args (Loop.ctx s')) /\
  exists d, Loop.log s' = Loop.log s ++ d /\ Forall ok d.

Definition steps {A} (ok : event -> Prop) (m : M Loop.t A) : Prop :=
  forall s, step ok s (snd (m s)).

(** The events of a logged iteration: no core operation, and updates of
    iteration [i] only. *)
Definition metrics_event (i : Z) (e : event) : Prop :=
  is_core e = false /\ forall m j, e = E_update m j -> j = i.

(** The indices [i, i+1, ...] of [n] consecutive iterations. *)
Fixpoint iterations (i : Z) (n : nat) : list Z :=
  match n with
  | O => []
  | S n' => i :: iterations (i + 1) n'
  end.

(** A loader that yields as many batches as [train] computes for
    [train_loader_len], when it can compute it. *)
Definition yields_train_loader_len (batch_size : Z) (ld : loader) : Prop :=
  forall n, ceil_div (loader_size ld) batch_size = inr n ->
            n = Z.of_nat (length (batches ld)).

(** ** parse *)

(** A name that [--arch] accepts: a lower-case name of
    [torchvision.models] that is bound to a callable. *)
Definition accepted_arch (models_dict : list (string * bool)) (name : string) : Prop :=
  In (name, true) models_dict /\ islower name = true /\ startswith "__" name = false.

(** What it takes for the actions of an option to keep a property [P]
    of the namespace. *)
Definition keeps (P : Args.t -> Prop) (k : opt_kind) : Prop :=
  match k with
  | OStar set => forall d a, P a -> P (set d a)
  | OStr (Some names) set => forall v a, In v names -> P a -> P (set v a)
  | OStr None set => forall v a, P a -> P (set v a)
  | OInt set => forall z a, P a -> P (set z a)
  | OFloat set => forall q a, P a -> P (set q a)
  | OStoreTrue set => forall a, P a -> P (set a)
  end.

Definition pending_keeps (P : Args.t -> Prop) (p : pending) : Prop :=
  match p with
  | Some (set, _) => forall d a, P a -> P (set d a)
  | None => True
  end.

(** None of the option strings [fs] occurs on the command line. *)
Definition absent (fs argv : list string) : Prop :=
  Forall (fun f => ~ In f argv) fs.

(** A command line that the model of argparse covers: every token is an
    argument ([plain_value]) or one of the option strings of the
    [add_argument] calls, written out in full. *)
Definition documented (models_dict : list (string * bool)) (argv : list string) : Prop :=
  Forall (fun tok => flag_like tok = true -> find_option models_dict tok <> None)
         argv.

(** What it is for [parse] to accept an option: after any command line
    that parses, the option with a value stores the converted value in its
    attribute; a [store_true] option sets it; a [nargs="*"] option stores
    the list of the values that follow. *)
Section Accepts.
Variable models_dict : list (string * bool).
Variable py_int : string -> option Z.
Variable py_float : string -> option Q.

Definition extends (pre suffix : list string) (f : Args.t -> Args.t) : Prop :=
  forall a, documented models_dict pre ->
    parse models_dict py_int py_float pre = inr a ->
    parse models_dict py_int py_float (pre ++ suffix) = inr (f a).

Definition accepts_int (fs : list string) (set : Z -> Args.t -> Args.t) : Prop :=
  forall pre f v z, In f fs -> flag_like v = false -> py_int v = Some z ->
    extends pre [f; v] (set z).

Definition accepts_float (fs : list string) (set : Q -> Args.t -> Args.t) : Prop :=
  forall pre f v q, In f fs -> flag_like v = false -> py_float v = Some q ->
    extends pre [f; v] (set q).

Definition accepts_str (fs : list string) (set : string -> Args.t -> Args.t) : Prop :=
  forall pre f v, In f fs -> flag_like v = false -> extends pre [f; v] (set v).

Definition accepts_choice (fs : list string) (choice : string -> Prop)
    (set : string -> Args.t -> Args.t) : Prop :=
  forall pre f v, In f fs -> flag_like v = false -> choice v ->
    extends pre [f; v] (set v).

Definition accepts_flag (fs : list string) (set : Args.t -> Args.t) : Prop :=
  forall pre f, In f fs -> extends pre [f] set.

Definition accepts_list (fs : list string) (set : dirs -> Args.t -> Args.t) : Prop :=
  forall pre f vals, In f fs -> Forall (fun v => flag_like v = false) vals ->
    extends pre (f :: vals) (set (DirList vals)).
End Accepts.

(** ** main *)

(** A run that ends without an exception. *)
Definition returns {A} (r : exn + A) : Prop := exists a, r = inr a.

(** A judgement on the computations of [main]: every run is a step of the
    preorder [R], and a run that returns keeps the invariant [I]. *)
Definition sound (R : Main.t -> Main.t -> Prop) (I : Main.t -> Prop) {A}
    (m : M Main.t A) : Prop :=
  forall s, R s (snd (m s)) /\ (I s -> returns (fst (m s)) -> I (snd (m s))).

(** The events in which [main] calls its helpers. *)
Definition is_call (e : event) : bool :=
  match e with
  | E_train _ | E_validate | E_epoch_loss_logic | E_adjust_learning_rate _ None
  | E_reset_train_loader | E_reset_val_loader => true
  | _ => false
  end.

Definition calls (l : list event) : list event := filter is_call l.

(** The calls of one epoch of the loop of [main]. *)
Definition epoch_calls (epoch : Z) : list event :=
  [E_train epoch; E_validate; E_epoch_loss_logic;
   E_adjust_learning_rate epoch None; E_reset_train_loader; E_reset_val_loader].

(** [best] is the maximum of 0 and the precisions [precs]: it is 0 or one
    of them, and neither 0 nor one of them is above it. *)
Definition maximum_of (best : Q) (precs : list Q) : Prop :=
  (best = 0%Q \/ In best precs) /\
  (0 <= best)%Q /\ Forall (fun prec1 => (prec1 <= best)%Q) precs.

(** The log only grows and [best_prec1] never decreases. *)
Definition advances (s s' : Main.t) : Prop :=
  (exists d, Main.log s' = Main.log s ++ d) /\
  (Main.best_prec1 s <= Main.best_prec1 s')%Q.

(** [best_prec1] is the maximum of 0 and the precisions recorded so far. *)
Definition best_is_max (s : Main.t) : Prop :=
  maximum_of (Main.best_prec1 s) (Main.val_acc1 s).

(** A computation of [main] that only advances and keeps [best_is_max]. *)
Definition fine {A} (m : M Main.t A) : Prop := sound advances best_is_max m.

(** A step that adds no call to the log. *)
Definition same_calls (s s' : Main.t) : Prop :=
  calls (Main.log s') = calls (Main.log s).

(** The context in which the loop of [main] starts: the model and the
    optimizer are built and [args.factor] is 0. *)
Definition loop_start (env : environment) (a : Args.t) : Ctx :=
  set_args (Args.set_factor 0)
    (mk_ctx a (SGD (Args.lr a) (Args.momentum a) (Args.weight_decay a))
            (mk_htmodel true None 0 (MPI_WORLD env))).

Section Epochs.
Variable train_call : Z -> M Ctx (Q * Q * Q * Q).
Variable validate_call : M Ctx (Q * Q).

(** The context after the calls of one epoch, [train], [validate] and
    [adjust_learning_rate] in this order, and after the epochs of a list. *)
Definition after_epoch (epoch : Z) (c : Ctx) : Ctx :=
  snd (adjust_learning_rate epoch None None
         (snd (validate_call (snd (train_call epoch c))))).

Fixpoint after_epochs (epochs : list Z) (c : Ctx) : Ctx :=
  match epochs with
  | [] => c
  | epoch :: rest => after_epochs rest (after_epoch epoch c)
  end.

(** The calls of [train] and [validate] in these epochs return, and leave
    the options alone. *)
Fixpoint epochs_return (epochs : list Z) (c : Ctx) : Prop :=
  match epochs with
  | [] => True
  | epoch :: rest =>
      returns (fst (train_call epoch c)) /\
      same_options (args c) (args (snd (train_call epoch c))) /\
      returns (fst (validate_call (snd (train_call epoch c)))) /\
      same_options (args (snd (train_call epoch c)))
                   (args (snd (validate_call (snd (train_call epoch c))))) /\
      epochs_return rest (after_epoch epoch c)
  end.
End Epochs.

(** The state of [main] when the model and the optimizer are built. *)
Definition built (env : environment) (a : Args.t) : Main.t :=
  Main.set_ctx
    (mk_ctx a (SGD (Args.lr a) (Args.momentum a) (Args.weight_decay a))
            (mk_htmodel true None 0 (MPI_WORLD env)))
    (Main.init (MPI_WORLD env)).

(** A [nargs="*"] attribute that holds a list. *)
Definition listed (d : dirs) : Prop :=
  match d with
  | DirList _ => True
  | DirDefault _ => False
  end.

(** The actions of an option keep a property [P] of the namespace; a
    [nargs="*"] option stores a list. *)
Definition keeps_listed (P : Args.t -> Prop) (k : opt_kind) : Prop :=
  match k with
  | OStar set => forall vals a, P a -> P (set (DirList vals) a)
  | OStr _ set => forall v a, P a -> P (set v a)
  | OInt set => forall z a, P a -> P (set z a)
  | OFloat set => forall q a, P a -> P (set q a)
  | OStoreTrue set => forall a, P a -> P (set a)
  end.

(** The pending [nargs="*"] option keeps [P], or establishes it. *)
Definition pending_keeps_listed (P : Args.t -> Prop) (p : pending) : Prop :=
  match p with
  | Some (set, _) => forall vals a0, P a0 -> P (set (DirList vals) a0)
  | None => True
  end.
Definition pending_stores (P : Args.t -> Prop) (p : pending) : Prop :=
  match p with
  | Some (set, _) => forall vals a0, P (set (DirList vals) a0)
  | None => False
  end.

(** The six lists of results of [main] have [n] entries each. *)
Definition table_rows (s : Main.t) (n : nat) : Prop :=
  length (Main.batch_time_avg s) = n /\ length (Main.train_acc1 s) = n /\
  length (Main.train_acc5 s) = n /\ length (Main.avg_loss s) = n /\
  length (Main.val_acc1 s) = n /\ length (Main.val_acc5 s) = n.

(** [l[c]] is in range for a list of [n] entries. *)
Definition index_ok (n : nat) (c : Z) : bool :=
  let i := if c <? 0 then Z.of_nat n + c else c in
  (0 <=? i) && (i <? Z.of_nat n).

(** *** Inputs of the examples *)

(** [int] and [float] on plain decimal numerals, for the examples. *)
Fixpoint digits_value (s : string) (acc : Z) : option Z :=
  match s with
  | EmptyString => Some acc
  | String c s' =>
      if is_digit c
      then digits_value s' (10 * acc + (Z.of_nat (nat_of_ascii c) - 48))
      else None
  end.

Definition decimal_int (s : string) : option Z :=
  match s with
  | EmptyString => None
  | String c s' =>
      if Ascii.eqb c "-"%char
      then if nonempty_digits s' then option_map Z.opp (digits_value s' 0) else None
      else digits_value s 0
  end.

Definition decimal_float (s : string) : option Q :=
  option_map inject_Z (decimal_int s).

(** A model zoo with two constructors, a class and a module attribute. *)
Definition two_models : list (string * bool) :=
  [("ResNet", true); ("__name__", false); ("inception_v3", true); ("resnet50", true)].

(** One process on a node with two GPUs. *)
Definition two_gpus : environment := mk_env COMM_SELF 0 2 true true.

(** A descending sort for the examples: equal scores in the order of their
    indices.  The properties hold for every sort; the examples need one. *)
Definition score (row : list Q) (i : nat) : Q := nth i row 0%Q.

Definition outranks (row : list Q) (i j : nat) : bool :=
  match (score row i ?= score row j)%Q with
  | Gt => true
  | Eq => (i <? j)%nat
  | Lt => false
  end.

Fixpoint insert_ranked (row : list Q) (i : nat) (l : list nat) : list nat :=
  match l with
  | [] => [i]
  | j :: l' => if outranks row i j then i :: l else j :: insert_ranked row i l'
  end.

Definition ranking (row : list Q) : list nat :=
  fold_right (insert_ranked row) [] (seq 0 (length row)).

(** A loader of four samples with five classes in two batches of two, and
    a loader without samples. *)
Definition two_batches : loader :=
  mk_loader 4
    [mk_batch [[1 # 2; 3 # 4; 1 # 2; 9 # 10; 0]; [1 # 2; 3 # 4; 1 # 2; 9 # 10; 1]]%Q
              [3; 0] 2 1;
     mk_batch [[0; 1; 0; 0; 0]; [1; 0; 0; 0; 0]]%Q [1; 2] 1 2].

Definition no_batches : loader := mk_loader 0 [].

(** The context of [train] for batches of two samples. *)
Definition batches_of_two_ctx : Ctx :=
  mk_ctx (Args.set_batch_size 2 defaults) (SGD (1 # 10) (9 # 10) (1 # 10000))
         (mk_htmodel true None 0 COMM_SELF).

(** The context of a run with the default options on one process, with
    100 batches in an epoch. *)
Definition default_ctx : Ctx :=
  mk_ctx defaults (SGD (1 # 10) (9 # 10) (1 # 10000))
         (mk_htmodel true (Some 100) 0 COMM_SELF).

(** Calls of [train] and [validate] that return the same metrics each time. *)
Definition steady_train : Z -> M Ctx (Q * Q * Q * Q) :=
  fun _ c => (inr (1 # 4, 50, 80, 2)%Q, c).
Definition steady_validate : M Ctx (Q * Q) :=
  fun c => (inr (60, 90)%Q, c).

(** ** Proof steps that repeat *)

Ltac leaf H Hrun pre mid post :=
  injection H as <- <-;
  refine (Hrun _ pre mid post _ _ _ _ _ _ _ _ _ eq_refl);
  try assumption.

Ltac split_in H :=
  rewrite ?in_app_iff in H; cbn in H;
  repeat match type of H with
         | _ \/ _ => destruct H as [H | H]
         | False => destruct H
         | _ = E_update _ _ => discriminate H
         end.

(** An option whose strings are absent keeps the default of its
    attribute: every other option stores elsewhere. *)
Ltac keeps_default Habs :=
  let o := fresh "o" in
  let tok := fresh "tok" in
  let Hin := fresh "Hin" in
  let Hflag := fresh "Hflag" in
  let Hused := fresh "Hused" in
  intros o tok Hin Hflag Hused;
  unfold absent in Habs; rewrite Forall_forall in Habs;
  simpl in Hin;
  repeat (destruct Hin as [<- | Hin]); try contradiction;
  simpl;
  try (intros; assumption);
  exfalso; apply (Habs tok); [exact Hflag | exact Hused].

(* ================================================================== *)
(** * Properties *)
(** ** AverageMeter *)

Module AverageMeterFacts.
Import AverageMeter AverageMeterSpec.

Lemma last_default_irrelevant (x : Q) l d d' :
  last (x :: l) d = last (x :: l) d'.
Proof.
  revert x. induction l as [|y l IH]; intros x; [reflexivity|].
  change (last (y :: l) d = last (y :: l) d'). apply IH.
Qed.

Lemma total_count_nonneg calls :
  positive_weights calls -> 0 <= total_count calls.
Proof.
  induction 1 as [|c calls Hc _ IH]; simpl; lia.
Qed.

Lemma total_count_pos calls :
  positive_weights calls -> calls <> [] -> 0 < total_count calls.
Proof.
  intros H Hne. destruct H as [|c calls Hc Hrest]; [congruence|].
  simpl. pose proof (total_count_nonneg _ Hrest). lia.
Qed.

Lemma update_run m v n :
  count m + n <> 0 ->
  update v n m =
    (inr tt, mk v ((sum m + v * float n) / float (count m + n))
                (sum m + v * float n) (count m + n)).
Proof.
  intros H. unfold update, bind, modify, get, put; simpl.
  destruct (Z.eqb_spec (count m + n) 0); [contradiction | reflexivity].
Qed.

Lemma update_zero_count m v n :
  count m + n = 0 ->
  update v n m =
    (inl ZeroDivisionError, mk v (avg m) (sum m + v * float n) (count m + n)).
Proof.
  intros H. unfold update, bind, modify, get, put, raise; simpl.
  rewrite H. reflexivity.
Qed.

(** The invariant of a run that starts from any meter with a
    non-negative count. *)
Lemma updates_from m0 calls :
  positive_weights calls -> 0 <= count m0 ->
  exists m,
    updates calls m0 = (inr tt, m) /\
    (sum m == sum m0 + weighted_sum calls)%Q /\
    count m = count m0 + total_count calls /\
    val m = last_val calls (val m0) /\
    (calls <> [] -> (avg m == sum m / float (count m))%Q).
Proof.
  intros Hpos. revert m0.
  induction Hpos as [|[v n] calls Hn Hrest IH]; intros m0 Hc.
  - exists m0. simpl. repeat split; try (ring || lia || reflexivity).
    congruence.
  - simpl in Hn.
    destruct (IH (mk v ((sum m0 + v * float n) / float (count m0 + n))
                     (sum m0 + v * float n) (count m0 + n)))
      as (m & Hrun & Hsum & Hcount & Hval & Havg); [simpl; lia|].
    exists m. simpl in *.
    unfold bind at 1. rewrite update_run by lia. rewrite Hrun.
    split; [reflexivity|]. split; [rewrite Hsum; ring|].
    split; [lia|]. split.
    + rewrite Hval. unfold last_val. simpl.
      destruct (map fst calls) as [|q l]; [reflexivity|].
      apply last_default_irrelevant.
    + intros _. destruct calls as [|c calls'].
      * simpl in Hrun. injection Hrun as <-. simpl. reflexivity.
      * apply Havg. congruence.
Qed.
End AverageMeterFacts.

(** C2. From [reset()], after any sequence of [update(val_i, n_i)] calls
    with every [n_i > 0], no call raises and the meter holds
    [sum = Σ val_i * n_i], [count = Σ n_i], [avg = sum / count] (a division
    by a positive count once a call was made), and [val] is the last
    [val_i] passed. *)
Theorem AverageMeter_running_average (calls : list (Q * Z)) :
  AverageMeterSpec.positive_weights calls ->
  exists m,
    AverageMeter.updates calls AverageMeter.reset = (inr tt, m) /\
    (AverageMeter.sum m == AverageMeterSpec.weighted_sum calls)%Q /\
    AverageMeter.count m = AverageMeterSpec.total_count calls /\
    (AverageMeter.avg m == AverageMeter.sum m / float (AverageMeter.count m))%Q /\
    (calls <> [] -> 0 < AverageMeter.count m) /\
    AverageMeter.val m = AverageMeterSpec.last_val calls 0%Q.
Proof.
  intros Hpos.
  destruct (AverageMeterFacts.updates_from AverageMeter.reset calls Hpos)
    as (m & Hrun & Hsum & Hcount & Hval & Havg); [simpl; lia|].
  exists m. simpl in *.
  split; [exact Hrun|]. split; [rewrite Hsum; ring|].
  split; [exact Hcount|]. split.
  - destruct calls as [|c calls'].
    + simpl in Hrun. injection Hrun as <-. reflexivity.
    + apply Havg. congruence.
  - split; [|exact Hval].
    intros Hne. rewrite Hcount.
    now apply AverageMeterFacts.total_count_pos.
Qed.

Lemma AverageMeter_running_average_witness :
  AverageMeterSpec.positive_weights [((3 # 2)%Q, 4); ((1 # 2)%Q, 2)] /\
  exists m,
    AverageMeter.updates [((3 # 2)%Q, 4); ((1 # 2)%Q, 2)] AverageMeter.reset = (inr tt, m) /\
    (AverageMeter.sum m == 7)%Q /\ AverageMeter.count m = 6 /\
    (AverageMeter.avg m == 7 # 6)%Q /\ AverageMeter.val m = (1 # 2)%Q.
Proof.
  assert (Hpos : AverageMeterSpec.positive_weights [((3 # 2)%Q, 4); ((1 # 2)%Q, 2)])
    by (repeat constructor; simpl; lia).
  split; [exact Hpos|].
  destruct (AverageMeter_running_average _ Hpos)
    as (m & Hrun & Hsum & Hcount & Havg & _ & Hval).
  exists m. split; [exact Hrun|].
  split; [rewrite Hsum; reflexivity|].
  split; [exact Hcount|].
  split; [rewrite Havg, Hsum, Hcount; reflexivity|exact Hval].
Defined.

(** ** adjust_learning_rate *)

Lemma float_nonzero len : len <> 0 -> ~ (5 * float len == 0)%Q.
Proof.
  intros H E. unfold float in E.
  assert (E' : (inject_Z len == 0)%Q) by lra.
  unfold Qeq in E'. simpl in E'. lia.
Qed.

Lemma Qis_zero_false q : ~ (q == 0)%Q -> Qis_zero q = false.
Proof.
  intros H. unfold Qis_zero. destruct (Qeq_bool q 0) eqn:E; [|reflexivity].
  apply Qeq_bool_eq in E. contradiction.
Qed.

Lemma Qis_zero_true q : (q == 0)%Q -> Qis_zero q = true.
Proof. intros H. unfold Qis_zero. now apply Qeq_eq_bool. Qed.

(** Below epoch 30 neither [if] fires: the context is only read. *)
Lemma adjust_learning_rate_warmup_run c epoch step len :
  epoch < 5 -> len <> 0 ->
  adjust_learning_rate epoch (Some step) (Some len) c =
    (inr tt,
     mk_ctx (args c)
            (map (set_pg_lr (base_rate (args c) * float (1 + step + epoch * len)
                             / (5 * float len))%Q)
                 (param_groups c))
            (htmodel c)).
Proof.
  intros He Hl. unfold adjust_learning_rate, bind, get, when, modify, ret.
  assert (Hd : epoch / 30 <= 0).
  { destruct (Z_lt_le_dec epoch 0).
    - apply Z.lt_le_incl, Z.div_lt_upper_bound; lia.
    - rewrite Z.div_small by lia. lia. }
  destruct (Z.gtb_spec (epoch / 30) 0); [lia|]. simpl.
  destruct (Z.geb_spec epoch 80); [lia|]. simpl.
  destruct (Z.ltb_spec epoch 5); [|lia].
  unfold warmup. rewrite (Qis_zero_false _ (float_nonzero len Hl)).
  reflexivity.
Qed.

(** Outside warmup the rate written is [args.lr * 0.1 ** args.factor], for
    the value of [args.factor] that the call leaves behind. *)
Lemma adjust_learning_rate_plain_run c epoch step len_epoch :
  5 <= epoch \/ step = None ->
  exists c',
    adjust_learning_rate epoch step len_epoch c = (inr tt, c') /\
    Args.factor (args c') = Args.factor (args c) + bumps epoch (Args.factor (args c)) /\
    Args.lr (args c') = Args.lr (args c) /\
    param_groups c' = map (set_pg_lr (base_rate (args c'))) (param_groups c).
Proof.
  intros H. unfold adjust_learning_rate, bind, get, when, modify, ret, bumps.
  destruct ((epoch / 30 >? 0) && (Args.factor (args c) <? epoch / 30));
    destruct (epoch >=? 80) eqn:E80; simpl;
    (destruct step as [s|];
     [ destruct (Z.ltb_spec epoch 5); [destruct H; [lia|discriminate]|] | ]);
    eexists; (split; [reflexivity|]); simpl; repeat split; lia.
Qed.

(** In the steady state of an epoch below 80, when [args.factor] has caught
    up with [epoch // 30], a call changes nothing but the rates, and sets
    them to [args.lr * 0.1 ** (epoch // 30)]. *)
Lemma adjust_learning_rate_steady c epoch step len_epoch :
  5 <= epoch < 80 -> Args.factor (args c) = epoch / 30 ->
  adjust_learning_rate epoch step len_epoch c =
    (inr tt,
     mk_ctx (args c)
            (map (set_pg_lr (Args.lr (args c) * (1 # 10) ^ (epoch / 30))%Q)
                 (param_groups c))
            (htmodel c)).
Proof.
  intros He Hf. unfold adjust_learning_rate, bind, get, when, modify, ret.
  rewrite Hf, Z.ltb_irrefl, andb_false_r. simpl.
  destruct (Z.geb_spec epoch 80); [lia|]. simpl.
  rewrite Hf.
  destruct step as [s|]; [destruct (Z.ltb_spec epoch 5); [lia|]|]; reflexivity.
Qed.

(** From epoch 80 on, every call adds one to [args.factor]: of two
    consecutive calls in the same epoch the second writes a tenth of the
    rate the first wrote. *)
Lemma adjust_learning_rate_compounds c epoch step1 step2 len_epoch :
  80 <= epoch -> epoch / 30 <= Args.factor (args c) ->
  exists c1 c2,
    adjust_learning_rate epoch step1 len_epoch c = (inr tt, c1) /\
    adjust_learning_rate epoch step2 len_epoch c1 = (inr tt, c2) /\
    Args.factor (args c1) = Args.factor (args c) + 1 /\
    Args.factor (args c2) = Args.factor (args c) + 2 /\
    param_groups c1 = map (set_pg_lr (base_rate (args c1))) (param_groups c) /\
    param_groups c2 = map (set_pg_lr (base_rate (args c2))) (param_groups c1).
Proof.
  intros He Hf.
  destruct (adjust_learning_rate_plain_run c epoch step1 len_epoch)
    as (c1 & R1 & F1 & L1 & P1); [lia|].
  destruct (adjust_learning_rate_plain_run c1 epoch step2 len_epoch)
    as (c2 & R2 & F2 & L2 & P2); [lia|].
  exists c1, c2. repeat split; try assumption.
  - rewrite F1. unfold bumps.
    destruct (Z.ltb_spec (Args.factor (args c)) (epoch / 30)); [lia|].
    rewrite andb_false_r. destruct (Z.geb_spec epoch 80); lia.
  - rewrite F2, F1. unfold bumps.
    destruct (Z.ltb_spec (Args.factor (args c)) (epoch / 30)); [lia|].
    rewrite andb_false_r. destruct (Z.geb_spec epoch 80); [|lia].
    destruct (Z.ltb_spec (Args.factor (args c) + (0 + 1)) (epoch / 30)); [lia|].
    rewrite andb_false_r. lia.
Qed.

(** C1.  The schedule is not constant within an epoch once [epoch >= 80]:
    [args.factor] is a persistent attribute and line 737 adds one to it on
    every call.  With the default rate 0.1, the calls of [main] for epochs
    0..79 leave [args.factor = 2]; the first two batch steps of epoch 80
    then write the rates 1e-4 and 1e-5, not one rate for the epoch. *)
Theorem adjust_learning_rate_epoch_80_not_constant :
  exists c0 c1 c2 lr1 lr2,
    for_each (range 0 80) (fun e => adjust_learning_rate e None None)
             default_ctx = (inr tt, c0) /\
    Args.factor (args c0) = 2 /\
    adjust_learning_rate 80 (Some 0) (Some 100) c0 = (inr tt, c1) /\
    adjust_learning_rate 80 (Some 1) (Some 100) c1 = (inr tt, c2) /\
    Args.factor (args c1) = 3 /\ Args.factor (args c2) = 4 /\
    map pg_lr (param_groups c1) = [lr1] /\
    map pg_lr (param_groups c2) = [lr2] /\
    (lr1 == 1 # 10000)%Q /\ (lr2 == 1 # 100000)%Q /\ ~ (lr1 == lr2)%Q.
Proof.
  do 5 eexists.
  split; [vm_compute; reflexivity|].
  split; [reflexivity|].
  split; [vm_compute; reflexivity|].
  split; [vm_compute; reflexivity|].
  split; [reflexivity|]. split; [reflexivity|].
  split; [reflexivity|]. split; [reflexivity|].
  split; [reflexivity|]. split; [reflexivity|].
  intros H. vm_compute in H. discriminate H.
Qed.

(** C3.  Warmup.  For [epoch < 5] and a batch step, the call writes the
    base rate [args.lr * 0.1 ** args.factor] times
    [(1 + step + epoch * len_epoch) / (5.0 * len_epoch)] to every parameter
    group and leaves [args] and the model alone; the rate is linear in the
    global batch index [step + epoch * len_epoch], with slope
    [base / (5 * len_epoch)], and equals the base rate when
    [1 + step + epoch * len_epoch = 5 * len_epoch].  For [epoch >= 5] or
    [step = None] the rate written is the unscaled base rate. *)
Theorem adjust_learning_rate_warmup (c : Ctx) (epoch : Z) :
  (forall step len, epoch < 5 -> len <> 0 ->
     exists lr',
       adjust_learning_rate epoch (Some step) (Some len) c =
         (inr tt, mk_ctx (args c) (map (set_pg_lr lr') (param_groups c)) (htmodel c)) /\
       (lr' == base_rate (args c) * warmup_scale epoch step len)%Q /\
       (lr' == base_rate (args c) / (5 * float len)
               * float (1 + (step + epoch * len)))%Q /\
       (1 + step + epoch * len = 5 * len -> (lr' == base_rate (args c))%Q)) /\
  (forall step len_epoch, 5 <= epoch \/ step = None ->
     exists c',
       adjust_learning_rate epoch step len_epoch c = (inr tt, c') /\
       Args.lr (args c') = Args.lr (args c) /\
       param_groups c' = map (set_pg_lr (base_rate (args c'))) (param_groups c)).
Proof.
  split.
  - intros step len He Hl.
    eexists. split; [apply adjust_learning_rate_warmup_run; assumption|].
    pose proof (float_nonzero len Hl) as Hnz.
    assert (Hnz' : ~ (float len == 0)%Q) by (intros E; apply Hnz; rewrite E; ring).
    unfold warmup_scale. repeat split.
    + field. exact Hnz'.
    + replace (1 + (step + epoch * len)) with (1 + step + epoch * len) by ring.
      field. exact Hnz'.
    + intros E. rewrite E. unfold float. rewrite inject_Z_mult.
      change (inject_Z 5) with 5%Q. field. exact Hnz'.
  - intros step len_epoch H.
    destruct (adjust_learning_rate_plain_run c epoch step len_epoch H)
      as (c' & R & _ & L & P).
    exists c'. repeat split; assumption.
Qed.

Lemma adjust_learning_rate_warmup_witness :
  (4 < 5 /\ 100 <> 0 /\ 1 + 99 + 4 * 100 = 5 * 100) /\
  (exists lr',
     map pg_lr (param_groups
                  (snd (adjust_learning_rate 4 (Some 99) (Some 100) default_ctx)))
       = [lr'] /\ (lr' == 1 # 10)%Q) /\
  (exists lr',
     map pg_lr (param_groups
                  (snd (adjust_learning_rate 0 (Some 0) (Some 100) default_ctx)))
       = [lr'] /\ (lr' == 1 # 5000)%Q) /\
  (5 <= 5 \/ Some 0 = None) /\
  (exists lr',
     map pg_lr (param_groups
                  (snd (adjust_learning_rate 5 (Some 0) (Some 100) default_ctx)))
       = [lr'] /\ (lr' == 1 # 10)%Q).
Proof.
  assert (H4 : 4 < 5) by lia.
  assert (H0 : 0 < 5) by lia.
  assert (Hl : 100 <> 0) by lia.
  assert (Hlast : 1 + 99 + 4 * 100 = 5 * 100) by reflexivity.
  assert (H5 : 5 <= 5 \/ Some 0 = @None Z) by (left; lia).
  split; [auto|].
  split.
  { destruct (proj1 (adjust_learning_rate_warmup default_ctx 4) 99 100 H4 Hl)
      as (lr' & R & _ & _ & E).
    exists lr'. rewrite R. split; [reflexivity|].
    rewrite (E Hlast). reflexivity. }
  split.
  { destruct (proj1 (adjust_learning_rate_warmup default_ctx 0) 0 100 H0 Hl)
      as (lr' & R & E & _ & _).
    exists lr'. rewrite R. split; [reflexivity|].
    rewrite E. reflexivity. }
  split; [exact H5|].
  destruct (proj2 (adjust_learning_rate_warmup default_ctx 5) (Some 0) (Some 100) H5)
    as (c' & R & L & P).
  eexists. rewrite R. simpl. rewrite P. split; [reflexivity|].
  unfold base_rate. rewrite L.
  assert (F : Args.factor (args c') = 0).
  { assert (E := R). vm_compute in E. injection E as <-. reflexivity. }
  rewrite F. reflexivity.
Defined.

(** ** accuracy *)

Lemma max_of_spec (k : Z) (ks : list Z) :
  exists m, max_of (k :: ks) = inr m /\ In m (k :: ks) /\
            forall x, In x (k :: ks) -> x <= m.
Proof.
  exists (fold_left Z.max ks k). split; [reflexivity|].
  revert k. induction ks as [|y ks IH]; intros k; simpl.
  - split; [now left|]. intros x [<- | []]. lia.
  - destruct (IH (Z.max k y)) as [Hin Hmax]. split.
    + destruct Hin as [E | Hin]; [|now right; right].
      rewrite <- E. destruct (Z.max_spec k y) as [[_ ->] | [_ ->]]; auto.
    + intros x [<- | [<- | Hx]].
      * specialize (Hmax (Z.max k y) (or_introl eq_refl)). lia.
      * specialize (Hmax (Z.max k y) (or_introl eq_refl)). lia.
      * apply Hmax. now right.
Qed.

Lemma length_t (ncols : nat) (m : list (list Z)) : length (t ncols m) = ncols.
Proof. unfold t. now rewrite length_map, length_seq. Qed.

Lemma length_slice_to {A} (k : Z) (l : list A) :
  0 <= k <= Z.of_nat (length l) -> length (slice_to k l) = Z.to_nat k.
Proof.
  intros H. unfold slice_to. destruct (Z.geb_spec k 0); [|lia].
  rewrite length_firstn. lia.
Qed.

(** The loop of lines 759-761 on a [correct] of [maxk] rows and two or more
    columns: a [k] of 2 or more raises at [view], unless an earlier [k]
    did. *)
Lemma accuracy_loop_view (correct : list (list bool)) (ncols : nat)
    (batch_size : Z) (topk : list Z) :
  (2 <= ncols)%nat -> batch_size <> 0 ->
  Forall (fun k => 0 <= k <= Z.of_nat (length correct)) topk ->
  Exists (fun k => 2 <= k) topk ->
  accuracy_loop correct ncols batch_size topk =
    inl (RuntimeError "view size is not compatible with input tensor's size and stride (at least one dimension spans across two contiguous subspaces). Use .reshape(...) instead.").
Proof.
  intros Hcols Hb Hall Hex.
  induction topk as [|k topk IH]; [inversion Hex|].
  apply Forall_cons_iff in Hall. destruct Hall as [Hk Hall].
  cbn [accuracy_loop]. unfold view_flat.
  rewrite (length_slice_to k correct Hk).
  destruct (Nat.leb_spec 2 ncols) as [_|]; [|lia].
  destruct (Nat.leb_spec 2 (Z.to_nat k)) as [H2|H2]; [reflexivity|].
  cbn [andb].
  destruct (Z.eqb_spec batch_size 0); [contradiction|].
  rewrite IH; [reflexivity | exact Hall|].
  apply Exists_cons in Hex. destruct Hex as [Hex | Hex]; [lia | exact Hex].
Qed.

(** C4.  [accuracy] does not compute the precision@k of its docstring for
    [k >= 2]: on a batch of two or more samples whose rows have the classes
    that [topk] asks for, with a target vector of the length of the batch,
    a [topk] with some [k >= 2] makes line 760 raise the [RuntimeError] of
    [view], whatever the scores, the labels and the order of equal scores.
    [correct[:k]] is a slice of a tensor with the strides of the transposed
    [pred], which [view(-1)] cannot flatten. *)
Theorem accuracy_view_raises
    (argsort : list Q -> list nat)
    (output : list (list Q)) (target topk : list Z) :
  Forall (fun k => 0 <= k) topk ->
  Forall (fun row => Forall (fun k => k <= Z.of_nat (length row)) topk) output ->
  length target = length output ->
  (2 <= length output)%nat ->
  Exists (fun k => 2 <= k) topk ->
  accuracy argsort output (Vector target) topk =
    inl (RuntimeError "view size is not compatible with input tensor's size and stride (at least one dimension spans across two contiguous subspaces). Use .reshape(...) instead.").
Proof.
  intros Hpos Hrows Hlen Hbatch Hex.
  destruct topk as [|k0 ks]; [inversion Hex|].
  destruct (max_of_spec k0 ks) as (maxk & Hmax & Hin & Hle).
  unfold accuracy. rewrite Hmax.
  assert (Hmaxk : 0 <= maxk).
  { rewrite Forall_forall in Hpos. now apply Hpos. }
  unfold topk_indices.
  destruct (Z.ltb_spec maxk 0); [lia|]. simpl orb.
  replace (existsb (fun row => Z.of_nat (length row) <? maxk) output) with false.
  2:{ symmetry. apply not_true_is_false. intros E.
      apply existsb_exists in E. destruct E as (row & Hrow & E).
      rewrite Forall_forall in Hrows. specialize (Hrows row Hrow).
      rewrite Forall_forall in Hrows. specialize (Hrows maxk Hin).
      apply Z.ltb_lt in E. lia. }
  unfold expand_as. rewrite (proj2 (Nat.eqb_eq _ _) Hlen).
  apply accuracy_loop_view.
  - exact Hbatch.
  - lia.
  - rewrite length_map, length_t.
    apply Forall_forall. intros k Hk. rewrite Forall_forall in Hpos.
    specialize (Hpos k Hk). specialize (Hle k Hk). simpl in Hpos. lia.
  - exact Hex.
Qed.

Lemma accuracy_view_raises_witness :
  accuracy ranking
    [[1 # 2; 3 # 4; 1 # 2; 9 # 10; 0]; [1 # 2; 3 # 4; 1 # 2; 9 # 10; 1]]%Q
    (Vector [3; 0]) [1; 5] =
  inl (RuntimeError "view size is not compatible with input tensor's size and stride (at least one dimension spans across two contiguous subspaces). Use .reshape(...) instead.").
Proof.
  apply accuracy_view_raises.
  - repeat constructor; lia.
  - repeat constructor; simpl; lia.
  - reflexivity.
  - simpl. lia.
  - right. left. lia.
Defined.

(** The call of [train] and [validate], [topk=(1, 5)] on the squeezed
    labels of a batch, never returns: a batch of one sample has a
    0-dimensional target, and a larger batch fails at [topk], at
    [expand_as] or at [view]. *)
Lemma accuracy_1_5_raises (argsort : list Q -> list nat)
    (output : list (list Q)) (label : list Z) :
  exists e, accuracy argsort output (squeeze label) [1; 5] = inl e.
Proof.
  unfold accuracy. cbn [max_of fold_left]. change (Z.max 1 5) with 5.
  destruct label as [|x [|y label]]; cbn [squeeze].
  - (* no sample *)
    destruct (topk_indices argsort output 5) as [e|pred]; [now exists e|].
    unfold expand_as. cbn [length].
    destruct (0 =? length output)%nat eqn:E; [|eauto].
    cbn [accuracy_loop]. unfold view_flat.
    apply Nat.eqb_eq in E. rewrite <- E. rewrite andb_false_r. cbn. eauto.
  - eauto.
  - destruct (topk_indices argsort output 5) as [e|pred]; [now exists e|].
    unfold expand_as.
    destruct (length (x :: y :: label) =? length output)%nat eqn:E; [|eauto].
    apply Nat.eqb_eq in E.
    eexists. apply accuracy_loop_view.
    + rewrite <- E. simpl. lia.
    + simpl. lia.
    + rewrite length_map, length_t. repeat constructor; simpl; lia.
    + right. left. lia.
Qed.

(** ** reduce_tensor *)

Lemma Qsum_scaled (l : list Q) (n : Q) :
  (Qsum (map (fun t => t / n) l) == Qsum l / n)%Q.
Proof.
  induction l as [|x l IH]; simpl.
  - unfold Qdiv. ring.
  - rewrite IH. unfold Qdiv. ring.
Qed.

Lemma own_buffer_in_place (l : list Q) (r : nat) (d : Q) :
  (r < length l)%nat -> firstn r l ++ nth r l d :: skipn (S r) l = l.
Proof.
  revert r. induction l as [|x l IH]; intros r Hr; simpl in Hr; [lia|].
  destruct r as [|r]; [reflexivity|].
  simpl. f_equal. apply IH. lia.
Qed.

(** What one process gets: the sum of the buffers of all processes. *)
Lemma reduce_tensor_rank (tensors : list Q) (rank : nat) :
  (rank < length tensors)%nat ->
  reduce_tensor (nth rank tensors 0%Q)
    (rank_comm (map (fun t => t / float (Z.of_nat (length tensors)))%Q tensors) rank) =
  Qsum (map (fun t => t / float (Z.of_nat (length tensors)))%Q tensors).
Proof.
  intros Hr. unfold reduce_tensor, rank_comm. simpl.
  rewrite length_map. f_equal.
  rewrite <- (own_buffer_in_place
                (map (fun t => t / float (Z.of_nat (length tensors)))%Q tensors)
                rank (0 / float (Z.of_nat (length tensors)))%Q) at 3
    by (rewrite length_map; exact Hr).
  do 2 f_equal.
  symmetry.
  apply (map_nth (fun t => t / float (Z.of_nat (length tensors)))%Q).
Qed.

(** C5.  When every process of the communicator calls [reduce_tensor] on its
    own tensor, each of them gets the sum over all processes of
    [tensor / comm.size], which is the arithmetic mean of the tensors, and
    all processes get the same value. *)
Theorem reduce_tensor_mean (tensors : list Q) :
  length (reduce_tensor_world tensors) = length tensors /\
  Forall (fun r =>
            r = Qsum (map (fun t => t / float (Z.of_nat (length tensors)))%Q tensors) /\
            (r == Qsum tensors / float (Z.of_nat (length tensors)))%Q)
         (reduce_tensor_world tensors) /\
  (forall r1 r2,
     In r1 (reduce_tensor_world tensors) -> In r2 (reduce_tensor_world tensors) ->
     r1 = r2).
Proof.
  assert (H : forall r, In r (reduce_tensor_world tensors) ->
            r = Qsum (map (fun t => t / float (Z.of_nat (length tensors)))%Q tensors)).
  { intros r Hr. unfold reduce_tensor_world in Hr.
    apply in_map_iff in Hr. destruct Hr as (rank & <- & Hrank).
    apply in_seq in Hrank. apply reduce_tensor_rank. lia. }
  split; [|split].
  - unfold reduce_tensor_world. now rewrite length_map, length_seq.
  - apply Forall_forall. intros r Hr. split; [now apply H|].
    rewrite (H r Hr). apply Qsum_scaled.
  - intros r1 r2 H1 H2. now rewrite (H r1 H1), (H r2 H2).
Qed.

(** Three processes holding 90, 60 and 30 all get 60. *)
Example reduce_tensor_three_processes :
  Forall (fun r => (r == 60)%Q) (reduce_tensor_world [90; 60; 30]%Q).
Proof. repeat constructor. Qed.

(** ** train *)

Section Steps.
Variable ok : event -> Prop.

Lemma step_refl s : step ok s s.
Proof.
  split; [reflexivity|]. exists []. now rewrite app_nil_r.
Qed.

Lemma step_frame s s' :
  Loop.ctx s' = Loop.ctx s -> Loop.log s' = Loop.log s -> step ok s s'.
Proof.
  intros Hc Hl. split; [now rewrite Hc|].
  exists []. now rewrite app_nil_r.
Qed.

Lemma step_trans s1 s2 s3 : step ok s1 s2 -> step ok s2 s3 -> step ok s1 s3.
Proof.
  intros [H1 (d1 & L1 & F1)] [H2 (d2 & L2 & F2)]. split.
  - unfold same_options in *. congruence.
  - exists (d1 ++ d2). rewrite L2, L1, app_assoc. split; [reflexivity|].
    apply Forall_app. now split.
Qed.

Lemma steps_ret {A} (a : A) : steps ok (ret a).
Proof. intros s. apply step_refl. Qed.

Lemma steps_raise {A} e : steps ok (@raise Loop.t A e).
Proof. intros s. apply step_refl. Qed.

Lemma steps_lift {A} (r : exn + A) : steps ok (lift r).
Proof. destruct r; [apply steps_raise | apply steps_ret]. Qed.

Lemma steps_get : steps ok get.
Proof. intros s. apply step_refl. Qed.

Lemma steps_bind {A B} (m : M Loop.t A) (k : A -> M Loop.t B) :
  steps ok m -> (forall a, steps ok (k a)) -> steps ok (bind m k).
Proof.
  intros Hm Hk s. unfold bind. specialize (Hm s).
  destruct (m s) as [[e | a] s']; simpl in *; [exact Hm|].
  eapply step_trans; [exact Hm | apply Hk].
Qed.

Lemma steps_when (b : bool) (m : M Loop.t unit) :
  steps ok m -> steps ok (when b m).
Proof. intros H. destruct b; [exact H | apply steps_ret]. Qed.

Lemma steps_emit e : ok e -> steps ok (emit e).
Proof.
  intros He s. split; [reflexivity|]. exists [e]. simpl.
  split; [reflexivity | now constructor].
Qed.

Lemma steps_the_args : steps ok the_args.
Proof. apply steps_bind; [apply steps_get | intros; apply steps_ret]. Qed.

Lemma steps_meter {A} (m : meter) (c : M AverageMeter.t A) :
  steps ok (zoom (Loop.get_meter m) (Loop.set_meter m) c).
Proof.
  intros s. unfold zoom. simpl. destruct m; now apply step_frame.
Qed.

Lemma steps_update m i v n : ok (E_update m i) -> steps ok (update m i v n).
Proof.
  intros H. apply steps_bind; [now apply steps_emit | intros; apply steps_meter].
Qed.

Lemma steps_set_end v : steps ok (modify (Loop.set_end v)).
Proof. intros s. now apply step_frame. Qed.

Lemma steps_reduce_avg m : steps ok (reduce_avg m).
Proof.
  intros s. unfold reduce_avg, modify. simpl. destruct m; now apply step_frame.
Qed.

Lemma steps_avg_of m : steps ok (avg_of m).
Proof. apply steps_bind; [apply steps_get | intros; apply steps_ret]. Qed.

Lemma steps_on_model f : steps ok (on_model f).
Proof.
  intros s. split; [reflexivity|]. exists []. simpl. now rewrite app_nil_r.
Qed.
End Steps.

(** [adjust_learning_rate] writes no attribute of [args] but [factor]. *)
Lemma adjust_learning_rate_same_options epoch st len c :
  same_options (args c) (args (snd (adjust_learning_rate epoch st len c))).
Proof.
  unfold adjust_learning_rate, bind, get, when, modify, ret, raise, same_options.
  destruct ((epoch / 30 >? 0) && (Args.factor (args c) <? epoch / 30));
    destruct (epoch >=? 80); simpl;
    (destruct st as [s|]; [destruct (epoch <? 5); [destruct (warmup _ _ _ _)|]|]);
    reflexivity.
Qed.

Lemma steps_adjust ok epoch st len :
  steps ok (zoom Loop.ctx Loop.set_ctx (adjust_learning_rate epoch st len)).
Proof.
  intros s. unfold zoom. simpl. split.
  - apply adjust_learning_rate_same_options.
  - exists []. simpl. now rewrite app_nil_r.
Qed.


Lemma record_metrics_steps argsort i len data :
  steps (metrics_event i) (record_metrics argsort i len data).
Proof.
  assert (Hu : forall m, metrics_event i (E_update m i))
    by (intros m; split; [reflexivity | intros m' j E; congruence]).
  assert (Hp : metrics_event i (E_print i))
    by (split; [reflexivity | intros m' j E; discriminate]).
  unfold record_metrics.
  repeat first
    [ apply steps_the_args | apply steps_get | apply steps_lift
    | apply steps_update; apply Hu | apply steps_set_end
    | apply steps_emit; apply Hp | apply steps_ret
    | apply steps_when
    | apply steps_bind; [|intros ?] ].
Qed.

Lemma adjust_learning_rate_raises epoch i len c e :
  fst (adjust_learning_rate epoch (Some i) (Some len) c) = inl e ->
  epoch < 5 /\ len = 0.
Proof.
  intros H.
  destruct (Z_lt_le_dec epoch 5) as [He|He].
  - destruct (Z.eq_dec len 0) as [Hl|Hl]; [now split|].
    rewrite adjust_learning_rate_warmup_run in H by assumption. discriminate.
  - destruct (adjust_learning_rate_plain_run c epoch (Some i) (Some len))
      as (c' & R & _); [now left|].
    rewrite R in H. discriminate.
Qed.

Lemma same_options_fields a a' :
  same_options a a' ->
  Args.print_freq a' = Args.print_freq a /\ Args.test a' = Args.test a /\
  Args.prof a' = Args.prof a /\ Args.batch_size a' = Args.batch_size a.
Proof.
  intros H. unfold same_options in H.
  repeat split;
    [ apply (f_equal Args.print_freq) in H | apply (f_equal Args.test) in H
    | apply (f_equal Args.prof) in H | apply (f_equal Args.batch_size) in H ];
    exact H.
Qed.

Lemma same_options_trans a b c :
  same_options a b -> same_options b c -> same_options a c.
Proof. unfold same_options. congruence. Qed.

Lemma metrics_events_quiet i d :
  Forall (metrics_event i) d -> filter is_core d = [].
Proof.
  induction 1 as [|e d [He _] _ IH]; simpl; [reflexivity|].
  now rewrite He.
Qed.

Lemma metrics_events_updates i d m j :
  Forall (metrics_event i) d -> In (E_update m j) d -> j = i.
Proof.
  intros H Hin. rewrite Forall_forall in H.
  destruct (H _ Hin) as [_ Hj]. now apply (Hj m).
Qed.

Lemma due_of_bool pf len i :
  pf <> 0 -> (i mod pf =? 0) || (i =? len) = true -> due pf len i.
Proof.
  intros Hpf Hb. split; [exact Hpf|].
  apply orb_true_iff in Hb. destruct Hb as [Hb|Hb]; apply Z.eqb_eq in Hb; auto.
Qed.

(** The events of one iteration.  It either runs the six operations in
    order, or it is cut right after [adjust_learning_rate]: by the break of
    test mode, or because the warmup divides by a zero [len_epoch]. *)
Lemma train_body_log argsort epoch len i data s r s' :
  train_body argsort epoch len i data s = (r, s') ->
  same_options (args (Loop.ctx s)) (args (Loop.ctx s')) /\
  exists d,
    Loop.log s' = Loop.log s ++ d /\
    (forall m j, In (E_update m j) d ->
                 j = i /\ due (Args.print_freq (args (Loop.ctx s))) len i) /\
    ((core d = block epoch i /\ r <> inr true) \/
     (core d = [E_adjust_learning_rate epoch (Some i)] /\
      ((r = inr true /\ Args.test (args (Loop.ctx s)) = true /\ 10 < i) \/
       ((exists e, r = inl e) /\ epoch < 5 /\ len = 0)))).
Proof.
  unfold train_body.
  set (ADJ := zoom Loop.ctx Loop.set_ctx
                   (adjust_learning_rate epoch (Some i) (Some len))).
  set (REC := record_metrics argsort i len data).
  assert (HADJ : steps (fun _ => True) ADJ) by apply steps_adjust.
  assert (HADJlog : forall s0, Loop.log (snd (ADJ s0)) = Loop.log s0) by reflexivity.
  assert (HADJe : forall s0 e, fst (ADJ s0) = inl e -> epoch < 5 /\ len = 0).
  { intros s0 e. unfold ADJ, zoom. simpl. apply adjust_learning_rate_raises. }
  assert (HREC : steps (metrics_event i) REC) by apply record_metrics_steps.
  clearbody ADJ REC.
  unfold the_args, metrics_due.
  unfold bind, get, ret, when, emit, modify, raise. cbn.
  set (a := args (Loop.ctx s)).
  intros H.
  assert (Hcut : forall s1 pre,
    same_options a (args (Loop.ctx s1)) ->
    Loop.log s1 = Loop.log s ++ pre ++ [E_adjust_learning_rate epoch (Some i)] ->
    filter is_core pre = [] ->
    (forall m j, ~ In (E_update m j) pre) ->
    (r = inr true /\ Args.test a = true /\ 10 < i) \/
    ((exists e, r = inl e) /\ epoch < 5 /\ len = 0) ->
    s' = s1 ->
    same_options a (args (Loop.ctx s')) /\
    exists d,
      Loop.log s' = Loop.log s ++ d /\
      (forall m j, In (E_update m j) d -> j = i /\ due (Args.print_freq a) len i) /\
      ((core d = block epoch i /\ r <> inr true) \/
       (core d = [E_adjust_learning_rate epoch (Some i)] /\
        ((r = inr true /\ Args.test a = true /\ 10 < i) \/
         ((exists e, r = inl e) /\ epoch < 5 /\ len = 0))))).
  { intros s1 pre Ho Hl Hpre Hup Hr ->. split; [exact Ho|].
    eexists. split; [exact Hl|]. split.
    - intros m j Hin. apply in_app_or in Hin. destruct Hin as [Hin|Hin].
      + now apply Hup in Hin.
      + simpl in Hin. destruct Hin as [Hin|[]]. discriminate.
    - right. split; [|exact Hr]. unfold core. now rewrite filter_app, Hpre. }
  assert (Hrun : forall s1 pre mid post,
    same_options a (args (Loop.ctx s1)) ->
    Loop.log s1 = Loop.log s ++ pre ++ [E_adjust_learning_rate epoch (Some i)]
                    ++ mid ++ post ->
    filter is_core pre = [] ->
    (forall m j, ~ In (E_update m j) pre) ->
    filter is_core mid =
      [E_forward i; E_loss i; E_zero_grad i; E_backward i; E_step i] ->
    (forall m j, ~ In (E_update m j) mid) ->
    filter is_core post = [] ->
    (forall m j, In (E_update m j) post ->
                 j = i /\ due (Args.print_freq a) len i) ->
    r <> inr true ->
    s' = s1 ->
    same_options a (args (Loop.ctx s')) /\
    exists d,
      Loop.log s' = Loop.log s ++ d /\
      (forall m j, In (E_update m j) d -> j = i /\ due (Args.print_freq a) len i) /\
      ((core d = block epoch i /\ r <> inr true) \/
       (core d = [E_adjust_learning_rate epoch (Some i)] /\
        ((r = inr true /\ Args.test a = true /\ 10 < i) \/
         ((exists e, r = inl e) /\ epoch < 5 /\ len = 0))))).
  { intros s1 pre mid post Ho Hl Hpre Hup Hmid Hupm Hpost Hupp Hr ->.
    split; [exact Ho|].
    eexists. split; [exact Hl|]. split.
    - intros m j Hin. rewrite !in_app_iff in Hin.
      destruct Hin as [Hin|[Hin|[Hin|Hin]]].
      + now apply Hup in Hin.
      + simpl in Hin. destruct Hin as [Hin|[]]. discriminate.
      + now apply Hupm in Hin.
      + exact (Hupp m j Hin).
    - left. split; [|exact Hr]. unfold core.
      rewrite !filter_app, Hpre, Hmid, Hpost. reflexivity. }
  remember (Args.prof a >=? 0) as p eqn:Ep.
  remember ((if p && (i =? Args.prof a) then [E_profiler_start] else []) ++
            (if p then [E_nvtx_push "Body of iteration"] else [])) as pre eqn:Epre.
  remember ((if p then [E_nvtx_push "forward"] else []) ++ [E_forward i] ++
            (if p then [E_nvtx_pop] else []) ++ [E_loss i; E_zero_grad i] ++
            (if p then [E_nvtx_push "backward"] else []) ++ [E_backward i] ++
            (if p then [E_nvtx_pop; E_nvtx_push "optimizer.step()"] else []) ++
            [E_step i] ++ (if p then [E_nvtx_pop] else [])) as mid eqn:Emid.
  remember ((if p then [E_nvtx_pop] else []) ++
            (if p && (i =? Args.prof a + 10) then [E_profiler_stop] else []))
    as fin eqn:Efin.
  assert (Hfin : filter is_core fin = [] /\ forall m j, ~ In (E_update m j) fin).
  { subst fin. destruct p, (i =? Args.prof a + 10); cbn;
      (split; [reflexivity | intros m j Hin; split_in Hin]). }
  destruct Hfin as [Hfin1 Hfin2].
  assert (Hpre : filter is_core pre = [] /\ forall m j, ~ In (E_update m j) pre).
  { subst pre. destruct p, (i =? Args.prof a); cbn;
      (split; [reflexivity | intros m j Hin; split_in Hin]). }
  assert (Hmid : filter is_core mid =
                   [E_forward i; E_loss i; E_zero_grad i; E_backward i; E_step i] /\
                 forall m j, ~ In (E_update m j) mid).
  { subst mid. destruct p; cbn;
      (split; [reflexivity | intros m j Hin; split_in Hin]). }
  destruct Hpre as [Hpre1 Hpre2], Hmid as [Hmid1 Hmid2].
  destruct p; cbn in H;
    [destruct (i =? Args.prof a) eqn:Estart; cbn in H|];
    (match type of H with context [ADJ ?s0] =>
       pose proof (HADJ s0) as [Hopt _]; pose proof (HADJlog s0) as Hlog;
       pose proof (HADJe s0) as Hraise;
       destruct (ADJ s0) as [[e|[]] s1] end;
     cbn in Hopt, Hlog, Hraise, H; fold a in Hopt;
     [ injection H as <- <-;
       apply (Hcut s1 pre);
       [ exact Hopt
       | rewrite Hlog; subst pre; cbn; repeat rewrite <- app_assoc; reflexivity
       | exact Hpre1 | exact Hpre2
       | right; split; [now exists e | now apply (Hraise e)]
       | reflexivity ]
     | ]);
    (destruct (Args.test a && (i >? 10)) eqn:Etest;
     [ injection H as <- <-;
       apply (Hcut s1 pre);
       [ exact Hopt
       | rewrite Hlog; subst pre; cbn; repeat rewrite <- app_assoc; reflexivity
       | exact Hpre1 | exact Hpre2
       | left; apply andb_true_iff in Etest; destruct Etest as [Et Ei];
         apply Z.gtb_lt in Ei; repeat split; [exact Et | lia]
       | reflexivity ]
     | ]);
    (destruct (same_options_fields _ _ Hopt) as (Epf & _);
     rewrite Epf in H; unfold lift, py_mod, raise, ret in H;
     destruct (Z.eqb_spec (Args.print_freq a) 0) as [Hpf|Hpf]; cbn in H;
     [ injection H as <- <-;
       refine (Hrun _ pre mid [] _ _ Hpre1 Hpre2 Hmid1 Hmid2 _ _ _ eq_refl);
       [ exact Hopt
       | cbn; rewrite Hlog; subst pre mid; cbn; repeat rewrite <- app_assoc; reflexivity
       | reflexivity | intros m j []
       | discriminate ]
     | ]);
    (destruct ((i mod Args.print_freq a =? 0) || (i =? len)) eqn:Edue;
     [ match type of H with context [REC ?s0] =>
         pose proof (HREC s0) as [Hopt2 (dm & Ldm & Fdm)];
         destruct (REC s0) as [[e|[]] s2] end;
       cbn in Hopt2, Ldm, H;
       [ leaf H Hrun pre mid dm
       | destruct (i =? Args.prof a + 10) eqn:Estop; cbn in H;
         leaf H Hrun pre mid (dm ++ fin) ]
     | destruct (i =? Args.prof a + 10) eqn:Estop; cbn in H;
       leaf H Hrun pre mid fin ]);
    lazymatch goal with
    | |- same_options _ _ =>
        first [ exact Hopt | eapply same_options_trans; [exact Hopt | exact Hopt2] ]
    | |- Loop.log _ = _ =>
        cbn; rewrite ?Ldm; rewrite Hlog, Epre, Emid, ?Efin; cbn;
        repeat rewrite <- app_assoc; cbn; rewrite ?app_nil_r; reflexivity
    | |- filter is_core _ = _ =>
        rewrite ?filter_app, ?Hfin1;
        try match goal with
            | F : Forall (metrics_event _) _ |- _ =>
                rewrite (metrics_events_quiet _ _ F)
            end;
        reflexivity
    | |- forall _ _, _ -> _ =>
        intros m j Hin; rewrite ?in_app_iff in Hin;
        repeat match type of Hin with
               | _ \/ _ => destruct Hin as [Hin|Hin]
               end;
        first [ now apply Hfin2 in Hin
              | split; [ eapply metrics_events_updates; eassumption
                       | apply due_of_bool; assumption ] ]
    | |- _ <> _ => discriminate
    end.
Qed.


Lemma record_metrics_raises argsort i len data s :
  exists e, fst (record_metrics argsort i len data s) = inl e.
Proof.
  destruct (accuracy_1_5_raises argsort (output data) (label data)) as [e He].
  unfold record_metrics, the_args. unfold bind at 1 2. unfold get, ret at 1.
  unfold bind at 1, lift at 1. rewrite He. cbn. now exists e.
Qed.

(** An iteration that goes on to the next one has logged no metrics:
    [accuracy] raises on every batch. *)
Lemma train_body_continues argsort epoch len i data s s' :
  train_body argsort epoch len i data s = (inr false, s') ->
  i mod Args.print_freq (args (Loop.ctx s)) <> 0 /\ i <> len.
Proof.
  unfold train_body.
  set (ADJ := zoom Loop.ctx Loop.set_ctx
                   (adjust_learning_rate epoch (Some i) (Some len))).
  set (REC := record_metrics argsort i len data).
  assert (HADJ : steps (fun _ => True) ADJ) by apply steps_adjust.
  assert (HREC : forall s0, exists e, fst (REC s0) = inl e)
    by apply record_metrics_raises.
  clearbody ADJ REC.
  unfold the_args, metrics_due.
  unfold bind, get, ret, when, emit, modify, raise. cbn.
  set (a := args (Loop.ctx s)).
  intros H.
  destruct (Args.prof a >=? 0); cbn in H;
    [destruct (i =? Args.prof a) eqn:Estart; cbn in H|];
    (match type of H with context [ADJ ?s0] =>
       pose proof (HADJ s0) as [Hopt _];
       destruct (ADJ s0) as [[e|[]] s1] end;
     cbn in Hopt, H; fold a in Hopt; [discriminate|]);
    (destruct (Args.test a && (i >? 10)); [discriminate|]);
    (destruct (same_options_fields _ _ Hopt) as (Epf & _);
     rewrite Epf in H; unfold lift, py_mod, raise, ret in H;
     destruct (Z.eqb_spec (Args.print_freq a) 0) as [Hpf|Hpf]; cbn in H;
     [discriminate|]);
    (destruct ((i mod Args.print_freq a =? 0) || (i =? len)) eqn:Edue;
     [ match type of H with context [REC ?s0] =>
         destruct (HREC s0) as [e He];
         destruct (REC s0) as [[e'|[]] s2] end;
       cbn in He, H; discriminate
     | apply orb_false_iff in Edue; destruct Edue as [E1 E2];
       apply Z.eqb_neq in E1, E2; now split ]).
Qed.

Lemma iterations_range (a : Z) (n : nat) :
  iterations a n = range a (a + Z.of_nat n).
Proof.
  unfold range. replace (a + Z.of_nat n - a) with (Z.of_nat n) by lia.
  rewrite Nat2Z.id. revert a.
  induction n as [|n IH]; intros a; [reflexivity|].
  simpl iterations. rewrite IH, <- cons_seq, <- seq_shift, map_cons, map_map.
  f_equal; [simpl; lia|]. apply map_ext. intros k. lia.
Qed.

(** The loop of [train]: [n] complete iterations, then possibly one that is
    cut after [adjust_learning_rate].  An iteration that is followed by
    another one has logged no metrics. *)
Lemma train_loop_log argsort epoch len items :
  forall i s r s',
    train_loop argsort epoch len i items s = (r, s') ->
    same_options (args (Loop.ctx s)) (args (Loop.ctx s')) /\
    exists d n tail,
      Loop.log s' = Loop.log s ++ d /\
      (n <= length items)%nat /\
      core d = flat_map (block epoch) (iterations i n) ++ tail /\
      (tail = [] \/
       tail = [E_adjust_learning_rate epoch (Some (i + Z.of_nat n))] /\
       (n < length items)%nat /\
       (Args.test (args (Loop.ctx s)) = true /\ 10 < i + Z.of_nat n \/
        epoch < 5 /\ len = 0)) /\
      (forall k, (S k < n)%nat \/ (k < n)%nat /\ tail <> [] ->
                 (i + Z.of_nat k) mod Args.print_freq (args (Loop.ctx s)) <> 0) /\
      (forall m j, In (E_update m j) d ->
                   due (Args.print_freq (args (Loop.ctx s))) len j).
Proof.
  induction items as [|data rest IH]; intros i s r s' H; simpl in H.
  - injection H as <- <-. split; [reflexivity|].
    exists [], 0%nat, []. rewrite app_nil_r.
    split; [reflexivity|]. split; [simpl; lia|]. split; [reflexivity|].
    split; [now left|]. split; [intros k [Hk|[Hk _]]; lia|]. intros m j [].
  - unfold bind in H.
    destruct (train_body argsort epoch len i data s) as [r1 s1] eqn:E1.
    destruct (train_body_log _ _ _ _ _ _ _ _ E1) as (Ho1 & d1 & L1 & U1 & C1).
    assert (U1' : forall m j, In (E_update m j) d1 ->
                              due (Args.print_freq (args (Loop.ctx s))) len j).
    { intros m j Hin. destruct (U1 m j Hin) as [-> Hd]. exact Hd. }
    assert (Hstop : forall r0, r1 <> inr false ->
              (r0, s1) = (r, s') ->
              same_options (args (Loop.ctx s)) (args (Loop.ctx s')) /\
              exists d n tail,
                Loop.log s' = Loop.log s ++ d /\
                (n <= length (data :: rest))%nat /\
                core d = flat_map (block epoch) (iterations i n) ++ tail /\
                (tail = [] \/
                 tail = [E_adjust_learning_rate epoch (Some (i + Z.of_nat n))] /\
                 (n < length (data :: rest))%nat /\
                 (Args.test (args (Loop.ctx s)) = true /\ 10 < i + Z.of_nat n \/
                  epoch < 5 /\ len = 0)) /\
                (forall k, (S k < n)%nat \/ (k < n)%nat /\ tail <> [] ->
                   (i + Z.of_nat k) mod Args.print_freq (args (Loop.ctx s)) <> 0) /\
                (forall m j, In (E_update m j) d ->
                             due (Args.print_freq (args (Loop.ctx s))) len j)).
    { intros r0 _ E. injection E as <- <-. split; [exact Ho1|].
      destruct C1 as [[C1 _] | [C1 Hcase]].
      - exists d1, 1%nat, []. simpl.
        split; [exact L1|]. split; [lia|]. split; [exact C1|].
        split; [now left|]. split; [|exact U1'].
        intros k [Hk|[_ Hk]]; [lia | now contradiction Hk].
      - exists d1, 0%nat, [E_adjust_learning_rate epoch (Some i)].
        simpl. rewrite Z.add_0_r.
        split; [exact L1|]. split; [lia|]. split; [exact C1|].
        split; [|split; [intros k [Hk|[Hk _]]; lia | exact U1']].
        right. split; [reflexivity|]. split; [lia|].
        destruct Hcase as [(_ & Ht & Hi) | (_ & He & Hl)]; [left | right]; auto. }
    destruct r1 as [e | [|]].
    + apply (Hstop (inl e)); [discriminate | exact H].
    + apply (Hstop (inr tt)); [discriminate | exact H].
    + destruct (train_body_continues _ _ _ _ _ _ _ E1) as [Hgo _].
      destruct C1 as [[C1 _] | [_ [(C1 & _) | ((e & C1) & _)]]]; try discriminate.
      destruct (IH _ _ _ _ H) as (Ho2 & d2 & n & tail & L2 & Hn & C2 & T2 & G2 & U2).
      destruct (same_options_fields _ _ Ho1) as (Epf & Etest & _).
      split; [eapply same_options_trans; eassumption|].
      exists (d1 ++ d2), (S n), tail.
      split; [rewrite L2, L1, app_assoc; reflexivity|].
      split; [simpl; lia|].
      split.
      { unfold core in *. rewrite filter_app, C1, C2. simpl. reflexivity. }
      split.
      { destruct T2 as [T2 | (T2 & Hlt & Hc)]; [now left | right].
        replace (i + Z.of_nat (S n)) with (i + 1 + Z.of_nat n) by lia.
        split; [exact T2|]. split; [simpl; lia|]. rewrite <- Etest. exact Hc. }
      split.
      { intros [|k] Hk.
        - now rewrite Z.add_0_r.
        - replace (i + Z.of_nat (S k)) with (i + 1 + Z.of_nat k) by lia.
          rewrite <- Epf. apply G2. destruct Hk as [Hk|[Hk Ht]]; [left | right]; 
          [lia | split; [lia | exact Ht]]. }
      intros m j Hin. apply in_app_or in Hin. destruct Hin as [Hin|Hin].
      * now apply (U1' m).
      * rewrite <- Epf. now apply (U2 m).
Qed.

Lemma silent_steps_log {A} (m : M Loop.t A) s :
  steps (fun _ => False) m -> Loop.log (snd (m s)) = Loop.log s.
Proof.
  intros H. destruct (H s) as [_ (d & L & F)].
  destruct d as [|e d]; [now rewrite app_nil_r in L|].
  inversion F as [|? ? []].
Qed.

(** The log of a call of [train], with [train_loader_len] as line 519
    computes it. *)
Lemma train_log argsort (train_loader : loader) (epoch : Z) (start : Q) (c : Ctx) r s' :
  train argsort train_loader epoch start c = (r, s') ->
  exists n tail,
    (n <= length (batches train_loader))%nat /\
    (n <= 1)%nat /\
    core (Loop.log s') = flat_map (block epoch) (range 0 (Z.of_nat n)) ++ tail /\
    (tail = [] \/
     tail = [E_adjust_learning_rate epoch (Some 0)] /\
     n = 0%nat /\ batches train_loader <> [] /\ epoch < 5 /\
     ceil_div (loader_size train_loader) (Args.batch_size (args c)) = inr 0) /\
    (forall m j,
       In (E_update m j) (Loop.log s') ->
       Args.print_freq (args c) <> 0 /\
       (j mod Args.print_freq (args c) = 0 \/
        ceil_div (loader_size train_loader) (Args.batch_size (args c)) = inr j)).
Proof.
  unfold train, train_steps.
  set (REST := reduce_avg top1 ;; reduce_avg top5 ;; reduce_avg batch_time ;;
               reduce_avg losses ;; bt <- avg_of batch_time ;; t1 <- avg_of top1 ;;
               t5 <- avg_of top5 ;; ls <- avg_of losses ;; ret (bt, t1, t5, ls)).
  assert (HREST : steps (fun _ => False) REST).
  { unfold REST.
    repeat first [ apply steps_reduce_avg | apply steps_avg_of | apply steps_ret
                 | apply steps_bind; [|intros ?] ]. }
  clearbody REST.
  unfold bind at 1. unfold on_model at 1, modify at 1.
  unfold bind at 1. unfold the_args at 1, bind at 1, get at 1, ret at 1.
  cbn [Loop.ctx Loop.init Loop.set_ctx set_htmodel args].
  unfold bind at 1, lift at 1.
  destruct (ceil_div (loader_size train_loader) (Args.batch_size (args c)))
    as [e | len] eqn:Elen.
  - intros H. injection H as <- <-.
    exists 0%nat, []. cbn.
    split; [lia|]. split; [lia|]. split; [reflexivity|]. split; [now left|].
    intros m j [].
  - unfold ret at 1. unfold bind at 1, on_model at 1, modify at 1.
    unfold bind at 1.
    match goal with |- context [train_loop argsort epoch len 0 ?items ?s0] =>
      destruct (train_loop argsort epoch len 0 items s0) as [r1 s1] eqn:E;
      destruct (train_loop_log _ _ _ _ _ _ _ _ E)
        as (_ & d & n & tail & L & Hn & C & T & G & U)
    end.
    cbn in L, T, G, U. intros H.
    assert (Hlog : Loop.log s' = d).
    { destruct r1; [injection H as <- <-; exact L|].
      rewrite <- L, <- (silent_steps_log REST s1 HREST). now rewrite H. }
    assert (H0 : forall k, ~ ((S k < n)%nat \/ (k < n)%nat /\ tail <> [])).
    { intros k Hk. destruct k as [|k].
      - now apply (G 0%nat).
      - apply (G 0%nat); [|reflexivity]. destruct Hk as [Hk|[Hk Ht]]; left; lia. }
    assert (Hn1 : (n <= 1)%nat).
    { destruct n as [|[|n]]; [lia | lia|]. exfalso. apply (H0 0%nat). left. lia. }
    exists n, tail. split; [exact Hn|]. split; [exact Hn1|].
    replace (range 0 (Z.of_nat n)) with (iterations 0 n)
      by (rewrite iterations_range; reflexivity).
    rewrite Hlog. split; [exact C|]. split.
    + destruct T as [T | (T & Hlt & Hc)]; [now left | right].
      assert (n = 0%nat) as ->.
      { destruct n as [|n]; [reflexivity|]. exfalso. apply (H0 0%nat). right.
        split; [lia|]. rewrite T. discriminate. }
      split; [exact T|]. split; [reflexivity|].
      split; [intros Hb; rewrite Hb in Hlt; simpl in Hlt; lia|].
      destruct Hc as [[_ Hc] | [He Hl]]; [simpl in Hc; lia|].
      split; [exact He | now rewrite Hl].
    + intros m j Hin. destruct (U m j Hin) as [Hpf Hj].
      split; [exact Hpf|]. destruct Hj as [Hj | ->]; [now left | now right].
Qed.



(** ** parse *)

Lemma insert_sorted_In x y l : In y (insert_sorted x l) <-> y = x \/ In y l.
Proof.
  induction l as [|z l IH]; simpl.
  - intuition.
  - destruct (String.leb x z); simpl; [intuition|].
    rewrite IH. intuition.
Qed.

Lemma sorted_In y l : In y (sorted l) <-> In y l.
Proof.
  unfold sorted. induction l as [|x l IH]; simpl; [tauto|].
  rewrite insert_sorted_In, IH. intuition.
Qed.


Lemma model_names_spec models_dict name :
  In name (model_names models_dict) <-> accepted_arch models_dict name.
Proof.
  unfold model_names, accepted_arch.
  rewrite sorted_In, in_map_iff. split.
  - intros ([n c] & <- & H). apply filter_In in H. destruct H as [H E].
    simpl in *. apply andb_true_iff in E. destruct E as [E ->].
    apply andb_true_iff in E. destruct E as [E1 E2].
    apply negb_true_iff in E2. auto.
  - intros (H & E1 & E2). exists (name, true). split; [reflexivity|].
    apply filter_In. split; [exact H|]. simpl. now rewrite E1, E2.
Qed.

Lemma existsb_eqb (v : string) (names : list string) :
  existsb (String.eqb v) names = true <-> In v names.
Proof.
  rewrite existsb_exists. split.
  - intros (x & Hx & E). apply String.eqb_eq in E. now subst.
  - intros H. exists v. split; [exact H | apply String.eqb_refl].
Qed.

Section ParseProps.
Variable models_dict : list (string * bool).
Variable py_int : string -> option Z.
Variable py_float : string -> option Q.

Local Abbreviation options := (parser models_dict).
Local Abbreviation parse_from := (parse_args models_dict py_int py_float).
Local Abbreviation lookup := (find_option models_dict).
Local Abbreviation store_value := (store py_int py_float).

Lemma find_option_In tok o :
  lookup tok = Some o -> In o options /\ In tok (flags o).
Proof.
  unfold find_option. intros H. apply find_some in H.
  destruct H as [Hin E]. split; [exact Hin|].
  unfold has_flag in E. now apply existsb_eqb in E.
Qed.

Lemma parse_args_cons tok rest p a :
  parse_from (tok :: rest) p a =
    if flag_like tok then
      match lookup tok with
      | None => usage_error
      | Some o =>
          match kind o with
          | OStar set => parse_from rest (Some (set, [])) (flush p a)
          | OStoreTrue set => parse_from rest None (set (flush p a))
          | k =>
              match rest with
              | v :: rest' =>
                  if flag_like v then usage_error
                  else match store_value k v (flush p a) with
                       | inl e => inl e
                       | inr a' => parse_from rest' None a'
                       end
              | [] => usage_error
              end
          end
      end
    else
      match p with
      | Some (set, vals) => parse_from rest (Some (set, vals ++ [tok])) a
      | None => usage_error
      end.
Proof. reflexivity. Qed.


Section Invariant.
Variable P : Args.t -> Prop.
Variable used : string -> Prop.
Hypothesis options_keep :
  forall o tok, In o options -> In tok (flags o) -> used tok -> keeps P (kind o).


Lemma store_keeps k v a a' :
  keeps P k -> store_value k v a = inr a' -> P a -> P a'.
Proof.
  destruct k as [set | [names|] set | set | set | set]; simpl; intros Hk H Ha.
  - discriminate.
  - destruct (existsb (String.eqb v) names) eqn:E; [|discriminate].
    injection H as <-. apply Hk; [now apply existsb_eqb | exact Ha].
  - injection H as <-. now apply Hk.
  - destruct (py_int v); [|discriminate]. injection H as <-. now apply Hk.
  - destruct (py_float v); [|discriminate]. injection H as <-. now apply Hk.
  - discriminate.
Qed.

Lemma parse_args_keeps n :
  forall argv p a a',
    (length argv <= n)%nat ->
    Forall used argv ->
    parse_from argv p a = inr a' ->
    pending_keeps P p -> P a -> P a'.
Proof.
  induction n as [|n IH]; intros argv p a a' Hlen Hused H Hp Ha.
  - destruct argv; [|simpl in Hlen; lia]. simpl in H. injection H as <-.
    destruct p as [[set vals]|]; simpl; [now apply Hp | exact Ha].
  - destruct argv as [|tok rest].
    { simpl in H. injection H as <-.
      destruct p as [[set vals]|]; simpl; [now apply Hp | exact Ha]. }
    simpl in Hlen. inversion Hused as [|? ? Htok Hrest]; subst.
    assert (Hflush : P (flush p a)).
    { destruct p as [[set vals]|]; simpl; [now apply Hp | exact Ha]. }
    rewrite parse_args_cons in H. destruct (flag_like tok).
    + destruct (lookup tok) as [o|] eqn:Efind; [|discriminate].
      destruct (find_option_In _ _ Efind) as [Hin Hflag].
      pose proof (options_keep o tok Hin Hflag Htok) as Hk.
      destruct (kind o) as [set | names set | set | set | set] eqn:Ek.
      * apply (IH rest _ _ _ ltac:(lia) Hrest H); [exact Hk | exact Hflush].
      * destruct rest as [|v rest']; [discriminate|].
        destruct (flag_like v); [discriminate|].
        destruct (store_value _ v (flush p a)) as [e|a1] eqn:Es; [discriminate|].
        inversion Hrest; subst.
        apply (IH rest' None a1 a'); try assumption; [simpl in *; lia | exact I|].
        eapply store_keeps; eassumption.
      * destruct rest as [|v rest']; [discriminate|].
        destruct (flag_like v); [discriminate|].
        destruct (store_value _ v (flush p a)) as [e|a1] eqn:Es; [discriminate|].
        inversion Hrest; subst.
        apply (IH rest' None a1 a'); try assumption; [simpl in *; lia | exact I|].
        eapply store_keeps; eassumption.
      * destruct rest as [|v rest']; [discriminate|].
        destruct (flag_like v); [discriminate|].
        destruct (store_value _ v (flush p a)) as [e|a1] eqn:Es; [discriminate|].
        inversion Hrest; subst.
        apply (IH rest' None a1 a'); try assumption; [simpl in *; lia | exact I|].
        eapply store_keeps; eassumption.
      * apply (IH rest None _ _ ltac:(lia) Hrest H); [exact I|].
        now apply Hk.
    + destruct p as [[set vals]|]; [|discriminate].
      apply (IH rest _ _ _ ltac:(lia) Hrest H); [exact Hp | exact Ha].
Qed.
End Invariant.

Lemma store_error k v a e : store_value k v a = inl e -> e = SystemExit 2.
Proof.
  unfold store, usage_error.
  destruct k as [set | [names|] set | set | set | set];
    repeat match goal with
           | |- context [if ?b then _ else _] => destruct b
           | |- context [match ?x with Some _ => _ | None => _ end] => destruct x
           end;
    intros H; now inversion H.
Qed.

(** The value after [--arch] or [-a] is checked against the names of the
    model constructors, wherever the flag stands on the command line. *)
Lemma parse_args_rejects flag v post :
  In flag ["--arch"; "-a"] ->
  ~ In v (model_names models_dict) ->
  forall n pre p a,
    (length pre <= n)%nat ->
    parse_from (pre ++ flag :: v :: post) p a = inl (SystemExit 2).
Proof.
  intros Hflag Hv.
  assert (Hlike : flag_like flag = true)
    by (destruct Hflag as [<- | [<- | []]]; reflexivity).
  assert (Hfind : lookup flag =
                    Some (mk_option ["--arch"; "-a"]
                            (OStr (Some (model_names models_dict)) Args.set_arch)))
    by (destruct Hflag as [<- | [<- | []]]; reflexivity).
  assert (Hhere : forall p a, parse_from (flag :: v :: post) p a = inl (SystemExit 2)).
  { intros p a. rewrite parse_args_cons, Hlike, Hfind. cbn [kind].
    destruct (flag_like v); [reflexivity|].
    unfold store.
    destruct (existsb (String.eqb v) (model_names models_dict)) eqn:E;
      [|reflexivity].
    apply existsb_eqb in E. contradiction. }
  induction n as [|n IH]; intros pre p a Hlen.
  - destruct pre; [|simpl in Hlen; lia]. apply Hhere.
  - destruct pre as [|tok pre']; [apply Hhere|].
    simpl in Hlen. rewrite <- app_comm_cons, parse_args_cons.
    destruct (flag_like tok).
    + destruct (lookup tok) as [o|]; [|reflexivity].
      destruct (kind o) as [set | names set | set | set | set];
        try (apply IH; lia);
        (destruct pre' as [|v0 pre''];
         [ simpl; now rewrite Hlike
         | rewrite <- app_comm_cons;
           destruct (flag_like v0); [reflexivity|];
           match goal with |- context [store_value ?k v0 ?x] =>
             destruct (store_value k v0 x) as [e|a1] eqn:Es
           end;
           [ now rewrite (store_error _ _ _ _ Es)
           | apply IH; simpl in Hlen; lia ] ]).
    + destruct p as [[set vals]|]; [apply IH; lia | reflexivity].
Qed.

(** A command line that parses, followed by an option: the option and what
    follows it are parsed on the namespace of the first part. *)
Lemma parse_args_app n :
  forall xs p a a1 tok rest,
    (length xs <= n)%nat ->
    flag_like tok = true ->
    parse_from xs p a = inr a1 ->
    parse_from (xs ++ tok :: rest) p a = parse_from (tok :: rest) None a1.
Proof.
  induction n as [|n IH]; intros xs p a a1 tok rest Hlen Htok H.
  - destruct xs; [|simpl in Hlen; lia]. simpl in H. injection H as <-.
    simpl app. rewrite !parse_args_cons, Htok. reflexivity.
  - destruct xs as [|t xs'].
    { simpl in H. injection H as <-.
      simpl app. rewrite !parse_args_cons, Htok. reflexivity. }
    simpl in Hlen. rewrite <- app_comm_cons.
    rewrite parse_args_cons in H. rewrite (parse_args_cons t).
    destruct (flag_like t).
    + destruct (lookup t) as [o|]; [|discriminate].
      destruct (kind o) as [set | names set | set | set | set];
        try (apply IH; [lia | exact Htok | exact H]);
        (destruct xs' as [|v xs'']; [discriminate|];
         rewrite <- app_comm_cons;
         destruct (flag_like v); [discriminate|];
         match type of H with context [store_value ?k v ?x] =>
           destruct (store_value k v x) as [e1|a2]; [discriminate|]
         end;
         apply IH; [simpl in Hlen; lia | exact Htok | exact H]).
    + destruct p as [[set vals]|]; [|discriminate].
      apply IH; [lia | exact Htok | exact H].
Qed.

(** The values after a [nargs="*"] option, up to the end of the line. *)
Lemma parse_args_values (vals : list string) :
  forall set acc a,
    Forall (fun v => flag_like v = false) vals ->
    parse_from vals (Some (set, acc)) a = inr (set (DirList (acc ++ vals)) a).
Proof.
  induction vals as [|v vals IH]; intros set acc a Hv.
  - simpl. now rewrite app_nil_r.
  - inversion Hv as [|? ? Hv1 Hv2]; subst.
    rewrite parse_args_cons, Hv1, IH by exact Hv2.
    now rewrite <- app_assoc.
Qed.
End ParseProps.


Lemma parse_keeps models_dict py_int py_float (P : Args.t -> Prop) argv a :
  (forall o tok, In o (parser models_dict) -> In tok (flags o) -> In tok argv ->
                 keeps P (kind o)) ->
  parse models_dict py_int py_float argv = inr a ->
  P defaults -> P a.
Proof.
  intros Hk H Hd.
  apply (parse_args_keeps models_dict py_int py_float P (fun tok => In tok argv) Hk
           (length argv) argv None defaults a); auto.
  - apply Forall_forall. auto.
  - exact I.
Qed.


Lemma parse_app models_dict py_int py_float pre a tok rest :
  flag_like tok = true ->
  parse models_dict py_int py_float pre = inr a ->
  parse models_dict py_int py_float (pre ++ tok :: rest) =
    parse_args models_dict py_int py_float (tok :: rest) None a.
Proof.
  intros Htok H.
  exact (parse_args_app models_dict py_int py_float (length pre) pre None defaults
           a tok rest (le_n _) Htok H).
Qed.

Lemma parse_arch_accepts models_dict py_int py_float flag v :
  In flag ["--arch"; "-a"] -> accepted_arch models_dict v ->
  flag_like v = false ->
  parse models_dict py_int py_float [flag; v] = inr (Args.set_arch v defaults).
Proof.
  intros Hflag Hv Hlike.
  apply model_names_spec, existsb_eqb in Hv.
  destruct Hflag as [<- | [<- | []]];
    unfold parse; rewrite parse_args_cons; cbn [flag_like]; simpl;
    rewrite Hlike; unfold store; rewrite Hv; reflexivity.
Qed.

Section ParseAccepts.
Variable models_dict : list (string * bool).
Variable py_int : string -> option Z.
Variable py_float : string -> option Q.

Lemma parser_accepts_int fs set :
  In (mk_option fs (OInt set)) (parser models_dict) ->
  accepts_int models_dict py_int py_float fs set.
Proof.
  intros Ho pre f v z Hf Hv Hz a _ Hpre.
  simpl in Ho.
  repeat (destruct Ho as [Ho | Ho]; [try discriminate; injection Ho as <- <-|]);
    try contradiction;
    simpl in Hf; repeat (destruct Hf as [<- | Hf]); try contradiction;
    match goal with |- context [(pre ++ ?f :: ?r)%list] =>
      rewrite (parse_app models_dict py_int py_float pre a f r eq_refl Hpre) end;
    rewrite parse_args_cons; simpl; rewrite Hv; unfold store; rewrite Hz;
    reflexivity.
Qed.

Lemma parser_accepts_float fs set :
  In (mk_option fs (OFloat set)) (parser models_dict) ->
  accepts_float models_dict py_int py_float fs set.
Proof.
  intros Ho pre f v q Hf Hv Hq a _ Hpre.
  simpl in Ho.
  repeat (destruct Ho as [Ho | Ho]; [try discriminate; injection Ho as <- <-|]);
    try contradiction;
    simpl in Hf; repeat (destruct Hf as [<- | Hf]); try contradiction;
    match goal with |- context [(pre ++ ?f :: ?r)%list] =>
      rewrite (parse_app models_dict py_int py_float pre a f r eq_refl Hpre) end;
    rewrite parse_args_cons; simpl; rewrite Hv; unfold store; rewrite Hq;
    reflexivity.
Qed.

Lemma parser_accepts_str fs set :
  In (mk_option fs (OStr None set)) (parser models_dict) ->
  accepts_str models_dict py_int py_float fs set.
Proof.
  intros Ho pre f v Hf Hv a _ Hpre.
  simpl in Ho.
  repeat (destruct Ho as [Ho | Ho]; [try discriminate; injection Ho as <- <-|]);
    try contradiction;
    simpl in Hf; repeat (destruct Hf as [<- | Hf]); try contradiction;
    match goal with |- context [(pre ++ ?f :: ?r)%list] =>
      rewrite (parse_app models_dict py_int py_float pre a f r eq_refl Hpre) end;
    rewrite parse_args_cons; simpl; rewrite Hv; reflexivity.
Qed.

Lemma parser_accepts_flag fs set :
  In (mk_option fs (OStoreTrue set)) (parser models_dict) ->
  accepts_flag models_dict py_int py_float fs set.
Proof.
  intros Ho pre f Hf a _ Hpre.
  simpl in Ho.
  repeat (destruct Ho as [Ho | Ho]; [try discriminate; injection Ho as <- <-|]);
    try contradiction;
    simpl in Hf; repeat (destruct Hf as [<- | Hf]); try contradiction;
    match goal with |- context [(pre ++ ?f :: ?r)%list] =>
      rewrite (parse_app models_dict py_int py_float pre a f r eq_refl Hpre) end;
    reflexivity.
Qed.

Lemma parser_accepts_list fs set :
  In (mk_option fs (OStar set)) (parser models_dict) ->
  accepts_list models_dict py_int py_float fs set.
Proof.
  intros Ho pre f vals Hf Hv a _ Hpre.
  simpl in Ho.
  repeat (destruct Ho as [Ho | Ho]; [try discriminate; injection Ho as <- <-|]);
    try contradiction;
    simpl in Hf; repeat (destruct Hf as [<- | Hf]); try contradiction;
    match goal with |- context [(pre ++ ?f :: ?r)%list] =>
      rewrite (parse_app models_dict py_int py_float pre a f r eq_refl Hpre) end;
    rewrite parse_args_cons; cbn [flag_like]; simpl;
    apply (parse_args_values models_dict py_int py_float vals _ [] a Hv).
Qed.

Lemma parser_accepts_arch :
  accepts_choice models_dict py_int py_float ["--arch"; "-a"]
    (accepted_arch models_dict) Args.set_arch.
Proof.
  intros pre f v Hf Hv Hc a _ Hpre.
  apply model_names_spec, existsb_eqb in Hc.
  simpl in Hf; repeat (destruct Hf as [<- | Hf]); try contradiction;
    match goal with |- context [(pre ++ ?f :: ?r)%list] =>
      rewrite (parse_app models_dict py_int py_float pre a f r eq_refl Hpre) end;
    rewrite parse_args_cons; simpl; rewrite Hv; unfold store; rewrite Hc;
    reflexivity.
Qed.
End ParseAccepts.

(** C8.  [parse] accepts the options of its [add_argument] calls: after a
    command line that parses, each option string followed by its value
    (none for a [store_true] option, any number for a [nargs="*"] option)
    parses, and stores the converted value in the attribute of the option.
    Without arguments [parse] returns the documented defaults, and on a
    command line of arguments and full option strings an option whose
    strings are absent leaves its default.  [--arch] takes the lower-case
    names of callables of [torchvision.models] and no other value: another
    value is rejected (exit status 2), so [args.arch] is the default or such
    a name.  The separator [--] is not a value: argparse drops it. *)
Theorem parse_defaults
    (models_dict : list (string * bool))
    (py_int : string -> option Z) (py_float : string -> option Q) :
  parse models_dict py_int py_float [] = inr defaults /\
  (Args.arch defaults = "resnet50" /\ Args.batch_size defaults = 256 /\
   Args.epochs defaults = 90 /\ Args.start_epoch defaults = 0 /\
   Args.workers defaults = 4 /\ Args.lr defaults = (1 # 10)%Q /\
   Args.momentum defaults = (9 # 10)%Q /\
   Args.weight_decay defaults = (1 # 10000)%Q /\
   Args.print_freq defaults = 10 /\ Args.batch_skip defaults = 2 /\
   Args.local_batch_skip defaults = 1) /\
  (forall argv a,
     documented models_dict argv ->
     parse models_dict py_int py_float argv = inr a ->
     (absent ["--arch"; "-a"] argv -> Args.arch a = "resnet50") /\
     (absent ["-b"; "--batch-size"] argv -> Args.batch_size a = 256) /\
     (absent ["--epochs"] argv -> Args.epochs a = 90) /\
     (absent ["--start-epoch"] argv -> Args.start_epoch a = 0) /\
     (absent ["-j"; "--workers"] argv -> Args.workers a = 4) /\
     (absent ["--lr"; "--learning-rate"] argv -> Args.lr a = (1 # 10)%Q) /\
     (absent ["--momentum"] argv -> Args.momentum a = (9 # 10)%Q) /\
     (absent ["--weight-decay"; "--wd"] argv ->
      Args.weight_decay a = (1 # 10000)%Q) /\
     (absent ["--print-freq"; "-p"] argv -> Args.print_freq a = 10) /\
     (absent ["-s"; "--batch-skip"] argv -> Args.batch_skip a = 2) /\
     (absent ["-L"; "--local-batch-skip"] argv -> Args.local_batch_skip a = 1) /\
     (Args.arch a = "resnet50" \/ accepted_arch models_dict (Args.arch a))) /\
  (accepts_list models_dict py_int py_float ["--train"] Args.set_train /\
   accepts_list models_dict py_int py_float ["--validate"] Args.set_validate /\
   accepts_list models_dict py_int py_float ["--train_indexes"]
     Args.set_train_indexes /\
   accepts_list models_dict py_int py_float ["--validate_indexes"]
     Args.set_validate_indexes /\
   accepts_choice models_dict py_int py_float ["--arch"; "-a"]
     (accepted_arch models_dict) Args.set_arch /\
   accepts_int models_dict py_int py_float ["-j"; "--workers"] Args.set_workers /\
   accepts_int models_dict py_int py_float ["--epochs"] Args.set_epochs /\
   accepts_int models_dict py_int py_float ["--start-epoch"]
     Args.set_start_epoch /\
   accepts_int models_dict py_int py_float ["-b"; "--batch-size"]
     Args.set_batch_size /\
   accepts_int models_dict py_int py_float ["-s"; "--batch-skip"]
     Args.set_batch_skip /\
   accepts_int models_dict py_int py_float ["-L"; "--local-batch-skip"]
     Args.set_local_batch_skip /\
   accepts_float models_dict py_int py_float ["--lr"; "--learning-rate"]
     Args.set_lr /\
   accepts_float models_dict py_int py_float ["--momentum"] Args.set_momentum /\
   accepts_float models_dict py_int py_float ["--weight-decay"; "--wd"]
     Args.set_weight_decay /\
   accepts_int models_dict py_int py_float ["--print-freq"; "-p"]
     Args.set_print_freq /\
   accepts_str models_dict py_int py_float ["--resume"] Args.set_resume /\
   accepts_flag models_dict py_int py_float ["-e"; "--evaluate"]
     (Args.set_evaluate true) /\
   accepts_flag models_dict py_int py_float ["--pretrained"]
     (Args.set_pretrained true) /\
   accepts_flag models_dict py_int py_float ["--dali_cpu"]
     (Args.set_dali_cpu true) /\
   accepts_int models_dict py_int py_float ["--prof"] Args.set_prof /\
   accepts_flag models_dict py_int py_float ["--deterministic"]
     (Args.set_deterministic true) /\
   accepts_int models_dict py_int py_float ["--local-rank"] Args.set_local_rank /\
   accepts_str models_dict py_int py_float ["--loss-scale"]
     (fun v => Args.set_loss_scale (Some v)) /\
   accepts_flag models_dict py_int py_float ["-t"; "--test"]
     (Args.set_test true)) /\
  (forall pre flag v post,
     documented models_dict pre -> v <> "--" ->
     In flag ["--arch"; "-a"] -> ~ accepted_arch models_dict v ->
     parse models_dict py_int py_float (pre ++ flag :: v :: post) =
       inl (SystemExit 2)).
Proof.
  split; [reflexivity|].
  split; [repeat split|].
  split; [|split].
  - intros argv a _ H.
    repeat match goal with
           | |- (absent _ _ -> _) /\ _ =>
               split;
               [ let Habs := fresh "Habs" in
                 intros Habs;
                 refine (parse_keeps models_dict py_int py_float
                           (fun a => _ a = _) argv a _ H eq_refl);
                 keeps_default Habs
               | ]
           end.
    refine (parse_keeps models_dict py_int py_float
              (fun a => Args.arch a = "resnet50" \/
                        accepted_arch models_dict (Args.arch a))
              argv a _ H (or_introl eq_refl)).
    intros o tok Hin _ _. simpl in Hin.
    repeat (destruct Hin as [<- | Hin]); try contradiction; simpl;
      try (intros; assumption).
    intros v a1 Hv _. right. now apply model_names_spec.
  - repeat match goal with
           | |- _ /\ _ => split
           | |- accepts_int _ _ _ _ _ =>
               apply parser_accepts_int; simpl; tauto
           | |- accepts_float _ _ _ _ _ =>
               apply parser_accepts_float; simpl; tauto
           | |- accepts_str _ _ _ _ _ =>
               apply parser_accepts_str; simpl; tauto
           | |- accepts_flag _ _ _ _ _ =>
               apply parser_accepts_flag; simpl; tauto
           | |- accepts_list _ _ _ _ _ =>
               apply parser_accepts_list; simpl; tauto
           | |- accepts_choice _ _ _ _ _ _ => apply parser_accepts_arch
           end.
  - intros pre flag v post _ _ Hflag Hv.
    apply (parse_args_rejects models_dict py_int py_float flag v post Hflag)
      with (n := length pre); [|lia].
    intros Hin. apply Hv. now apply model_names_spec.
Qed.

(** ** main *)

Section Sound.
Variable R : Main.t -> Main.t -> Prop.
Variable I : Main.t -> Prop.
Hypothesis R_refl : forall s, R s s.
Hypothesis R_trans : forall s1 s2 s3, R s1 s2 -> R s2 s3 -> R s1 s3.

Lemma sound_ret {A} (a : A) : sound R I (ret a).
Proof. intros s. split; [apply R_refl | auto]. Qed.

Lemma sound_raise {A} e : sound R I (@raise Main.t A e).
Proof. intros s. split; [apply R_refl | auto]. Qed.

Lemma sound_lift {A} (r : exn + A) : sound R I (lift r).
Proof. destruct r; [apply sound_raise | apply sound_ret]. Qed.

Lemma sound_get : sound R I get.
Proof. intros s. split; [apply R_refl | auto]. Qed.

Lemma sound_bind {A B} (m : M Main.t A) (k : A -> M Main.t B) :
  sound R I m -> (forall a, sound R I (k a)) -> sound R I (bind m k).
Proof.
  intros Hm Hk s. unfold bind. destruct (Hm s) as [HR HI].
  destruct (m s) as [[e | a] s1]; simpl in *.
  - split; [exact HR|]. intros _ [b Hb]. discriminate.
  - destruct (Hk a s1) as [HR' HI']. split.
    + eapply R_trans; eassumption.
    + intros Hs Hret. apply HI'; [|exact Hret].
      apply HI; [exact Hs | now exists a].
Qed.

Lemma sound_when (b : bool) (m : M Main.t unit) : sound R I m -> sound R I (when b m).
Proof. intros H. destruct b; [exact H | apply sound_ret]. Qed.

Lemma sound_modify (f : Main.t -> Main.t) :
  (forall s, R s (f s) /\ (I s -> I (f s))) -> sound R I (modify f).
Proof.
  intros H s. destruct (H s) as [HR HI]. split; [exact HR|]. intros Hs _. auto.
Qed.

Lemma sound_zoom {T A} (proj : Main.t -> T) (upd : T -> Main.t -> Main.t)
      (m : M T A) :
  (forall s t, R s (upd t s) /\ (I s -> I (upd t s))) ->
  sound R I (zoom proj upd m).
Proof.
  intros H s. unfold zoom. simpl.
  destruct (H s (snd (m (proj s)))) as [HR HI].
  split; [exact HR|]. intros Hs _. auto.
Qed.

Lemma sound_for_each {A} (xs : list A) (body : A -> M Main.t unit) :
  (forall x, sound R I (body x)) -> sound R I (for_each xs body).
Proof.
  intros H. induction xs as [|x xs IH]; simpl.
  - apply sound_ret.
  - apply sound_bind; [apply H | intros _; exact IH].
Qed.
End Sound.

Lemma advances_refl s : advances s s.
Proof. split; [exists []; now rewrite app_nil_r | apply Qle_refl]. Qed.

Lemma advances_trans s1 s2 s3 : advances s1 s2 -> advances s2 s3 -> advances s1 s3.
Proof.
  intros [(d1 & L1) B1] [(d2 & L2) B2]. split.
  - exists (d1 ++ d2). now rewrite L2, L1, app_assoc.
  - eapply Qle_trans; eassumption.
Qed.

Lemma py_max_cases prec1 best :
  (prec1 <= py_max prec1 best)%Q /\ (best <= py_max prec1 best)%Q /\
  (py_max prec1 best = prec1 \/ py_max prec1 best = best).
Proof.
  unfold py_max. destruct (Qle_bool best prec1) eqn:E.
  - apply Qle_bool_iff in E. repeat split; [apply Qle_refl | exact E | now left].
  - assert (H : ~ (best <= prec1)%Q)
      by (intros H; apply Qle_bool_iff in H; congruence).
    apply Qnot_le_lt in H.
    repeat split; [now apply Qlt_le_weak | apply Qle_refl | now right].
Qed.

Lemma py_max_ge prec1 best : (best <= py_max prec1 best)%Q.
Proof. apply py_max_cases. Qed.

(** One more precision: Python's [max] keeps [best] the maximum. *)
Lemma maximum_of_step best precs prec1 :
  maximum_of best precs -> maximum_of (py_max prec1 best) (precs ++ [prec1]).
Proof.
  intros (Hin & H0 & Hall).
  destruct (py_max_cases prec1 best) as (H1 & H2 & Hc).
  split; [|split].
  - destruct Hc as [-> | ->].
    + right. apply in_or_app. right. now left.
    + destruct Hin as [Hin | Hin]; [now left | right].
      apply in_or_app. now left.
  - eapply Qle_trans; eassumption.
  - apply Forall_app. split.
    + eapply Forall_impl; [|exact Hall]. intros x Hx. cbn in Hx.
      eapply Qle_trans; eassumption.
    + constructor; [exact H1 | constructor].
Qed.

Lemma advances_frame s s' :
  Main.log s' = Main.log s -> Main.best_prec1 s' = Main.best_prec1 s ->
  advances s s'.
Proof.
  intros Hl Hb. split; [exists []; now rewrite app_nil_r | rewrite Hb; apply Qle_refl].
Qed.


Lemma fine_ret {A} (a : A) : fine (ret a).
Proof. apply sound_ret, advances_refl. Qed.

Lemma fine_lift {A} (r : exn + A) : fine (lift r).
Proof. apply sound_lift, advances_refl. Qed.

Lemma fine_get : fine get.
Proof. apply sound_get, advances_refl. Qed.

Lemma fine_bind {A B} (m : M Main.t A) (k : A -> M Main.t B) :
  fine m -> (forall a, fine (k a)) -> fine (bind m k).
Proof. apply sound_bind, advances_trans. Qed.

Lemma fine_when (b : bool) (m : M Main.t unit) : fine m -> fine (when b m).
Proof. apply sound_when, advances_refl. Qed.

Lemma fine_emit e : fine (emit e).
Proof.
  apply sound_modify. intros s. split; [|auto].
  split; [now exists [e] | apply Qle_refl].
Qed.

Lemma fine_on_ctx {A} (m : M Ctx A) : fine (on_ctx m).
Proof.
  apply sound_zoom. intros s c. split; [now apply advances_frame | auto].
Qed.

Lemma fine_total_time {A} (m : M AverageMeter.t A) :
  fine (zoom Main.total_time Main.set_total_time m).
Proof.
  apply sound_zoom. intros s c. split; [now apply advances_frame | auto].
Qed.

Lemma fine_main_args : fine main_args.
Proof. apply fine_bind; [apply fine_get | intros; apply fine_ret]. Qed.

(** Lines 473-497: the update of [best_prec1] and the appends of rank 0. *)
Lemma fine_rank_0 (a : Args.t) (epoch : Z) (prec1 prec5 tacc1 tacc5 ls : Q) :
  fine (modify (fun s => Main.set_best_prec1 (py_max prec1 (Main.best_prec1 s)) s) ;;
        when (epoch =? Args.epochs a - 1) (emit (E_print epoch)) ;;
        modify (Main.append_results prec1 prec5 tacc1 tacc5 ls)).
Proof.
  intros s. unfold bind, modify, when, emit, ret. cbn.
  destruct (epoch =? Args.epochs a - 1); cbn; (split;
    [ split; cbn; [eexists; try reflexivity; symmetry; apply app_nil_r
                  | apply py_max_ge]
    | intros Hs _; unfold best_is_max in *; cbn; now apply maximum_of_step ]).
Qed.

Section MainLoop.
Variable train_call : Z -> M Ctx (Q * Q * Q * Q).
Variable validate_call : M Ctx (Q * Q).

Lemma fine_main_body epoch : fine (main_body train_call validate_call epoch).
Proof.
  unfold main_body.
  apply fine_bind; [apply fine_emit | intros _].
  apply fine_bind; [apply fine_on_ctx | intros [[[avg_train_time tacc1] tacc5] ls]].
  apply fine_bind; [apply fine_total_time | intros _].
  apply fine_bind; [apply fine_main_args | intros a].
  destruct (Args.test a); [apply fine_ret|].
  apply fine_bind; [apply fine_emit | intros _].
  apply fine_bind; [apply fine_on_ctx | intros [prec1 prec5]].
  apply fine_bind; [apply fine_emit | intros _].
  apply fine_bind; [apply fine_emit | intros _].
  apply fine_bind; [apply fine_on_ctx | intros _].
  apply fine_bind; [apply fine_main_args | intros a'].
  apply fine_bind; [apply fine_when, fine_rank_0 | intros _].
  apply fine_bind; [apply fine_emit | intros _].
  apply fine_bind; [apply fine_emit | intros _].
  apply fine_ret.
Qed.

Lemma fine_main_loop epochs : fine (main_loop train_call validate_call epochs).
Proof.
  induction epochs as [|epoch rest IH]; simpl; [apply fine_ret|].
  apply fine_bind; [apply fine_main_body | intros [|]]; [apply fine_ret | exact IH].
Qed.

Lemma fine_print_results a : fine (print_results a).
Proof.
  unfold print_results.
  apply fine_bind; [apply fine_emit | intros _].
  apply sound_for_each; [apply advances_refl | apply advances_trans |].
  intros c.
  repeat first [ apply fine_get | apply fine_lift | apply fine_ret
               | apply fine_bind; [|intros ?] ].
Qed.

Lemma fine_run_epochs : fine (run_epochs train_call validate_call).
Proof.
  unfold run_epochs.
  apply fine_bind; [apply fine_main_args | intros a].
  destruct (Args.evaluate a).
  - repeat first [ apply fine_emit | apply fine_on_ctx | apply fine_ret
                 | apply fine_bind; [|intros ?] ].
  - apply fine_bind; [|intros _].
    { apply sound_modify. intros s. split; [now apply advances_frame | auto]. }
    apply fine_bind; [|intros _].
    { apply sound_modify. intros s. split; [now apply advances_frame | auto]. }
    apply fine_bind; [apply fine_main_args | intros a1].
    apply fine_bind; [apply fine_main_loop | intros _].
    apply fine_bind; [apply fine_main_args | intros a2].
    apply fine_when, fine_print_results.
Qed.

(** A completed epoch on rank 0 records the precision that [validate]
    returned, and [best_prec1] becomes the larger of the two. *)
Lemma main_body_records epoch s s' :
  main_body train_call validate_call epoch s = (inr false, s') ->
  Args.rank (args (Main.ctx s')) = 0 ->
  exists c prec1 prec5 c',
    validate_call c = (inr (prec1, prec5), c') /\
    Main.val_acc1 s' = Main.val_acc1 s ++ [prec1] /\
    (prec1 <= Main.best_prec1 s')%Q /\
    (Main.best_prec1 s <= Main.best_prec1 s')%Q /\
    (Main.best_prec1 s' = prec1 \/ Main.best_prec1 s' = Main.best_prec1 s).
Proof.
  unfold main_body, on_ctx, main_args.
  unfold bind, emit, modify, zoom, get, ret, when, lift, raise.
  cbn -[AverageMeter.update adjust_learning_rate].
  destruct (train_call epoch (Main.ctx s)) as [[e | [[[t tacc1] tacc5] ls]] c1];
    cbn -[AverageMeter.update adjust_learning_rate]; [discriminate|].
  destruct (AverageMeter.update t 1 (Main.total_time s)) as [[e | []] tt1];
    cbn -[AverageMeter.update adjust_learning_rate]; [discriminate|].
  destruct (Args.test (args c1));
    cbn -[AverageMeter.update adjust_learning_rate]; [discriminate|].
  destruct (validate_call c1) as [[e | [prec1 prec5]] c2] eqn:Eval;
    cbn -[AverageMeter.update adjust_learning_rate]; [discriminate|].
  destruct (adjust_learning_rate epoch None None c2) as [[e | []] c3];
    cbn -[AverageMeter.update adjust_learning_rate]; [discriminate|].
  destruct (py_max_cases prec1 (Main.best_prec1 s)) as (H1 & H2 & Hc).
  destruct (Args.rank (args c3) =? 0) eqn:Erank;
    cbn -[AverageMeter.update adjust_learning_rate].
  - destruct (epoch =? Args.epochs (args c3) - 1);
      cbn -[AverageMeter.update adjust_learning_rate];
      intros H _; injection H as <-; cbn;
      exists c1, prec1, prec5, c2; auto.
  - intros H Hr. injection H as <-. cbn in Hr.
    apply Z.eqb_neq in Erank. contradiction.
Qed.
End MainLoop.

(** ** The calls of [main] *)

Lemma print_results_same a s :
  same_calls s (snd (print_results a s)) /\
  Main.ctx (snd (print_results a s)) = Main.ctx s.
Proof.
  set (R := fun s0 s1 : Main.t => same_calls s0 s1 /\ Main.ctx s1 = Main.ctx s0).
  assert (H : sound R (fun _ => True) (print_results a)).
  { assert (Hr : forall s0, R s0 s0) by (intros s0; split; reflexivity).
    assert (Ht : forall s1 s2 s3, R s1 s2 -> R s2 s3 -> R s1 s3)
      by (unfold R, same_calls; intros s1 s2 s3 [? ?] [? ?]; split; congruence).
    unfold print_results.
    apply sound_bind; [exact Ht| |intros _].
    - apply sound_modify. intros s0. split; [|auto]. split; [|reflexivity].
      unfold same_calls, calls. cbn. rewrite filter_app. cbn. apply app_nil_r.
    - apply sound_for_each; [exact Hr | exact Ht|]. intros c.
      repeat first [ apply sound_get; exact Hr | apply sound_lift; exact Hr
                   | apply sound_ret; exact Hr
                   | apply sound_bind; [exact Ht| |intros ?] ]. }
  apply H.
Qed.

Lemma range_cons (a b : Z) : a < b -> range a b = a :: range (a + 1) b.
Proof.
  intros H. unfold range.
  replace (Z.to_nat (b - a)) with (S (Z.to_nat (b - (a + 1)))) by lia.
  rewrite <- cons_seq, <- seq_shift, map_cons, map_map.
  f_equal; [simpl; lia|]. apply map_ext. intros k. lia.
Qed.

Section MainCalls.
Variable train_call : Z -> M Ctx (Q * Q * Q * Q).
Variable validate_call : M Ctx (Q * Q).

(** An epoch in which [train] and [validate] return and leave the options
    alone. *)
Lemma main_body_run epoch s :
  Args.test (args (Main.ctx s)) = false ->
  0 <= AverageMeter.count (Main.total_time s) ->
  returns (fst (train_call epoch (Main.ctx s))) ->
  same_options (args (Main.ctx s)) (args (snd (train_call epoch (Main.ctx s)))) ->
  returns (fst (validate_call (snd (train_call epoch (Main.ctx s))))) ->
  same_options (args (snd (train_call epoch (Main.ctx s))))
    (args (snd (validate_call (snd (train_call epoch (Main.ctx s)))))) ->
  exists s',
    main_body train_call validate_call epoch s = (inr false, s') /\
    Main.ctx s' = after_epoch train_call validate_call epoch (Main.ctx s) /\
    same_options (args (Main.ctx s)) (args (Main.ctx s')) /\
    0 <= AverageMeter.count (Main.total_time s') /\
    calls (Main.log s') = calls (Main.log s) ++ epoch_calls epoch.
Proof.
  intros Htest Hcount. unfold after_epoch.
  unfold main_body, on_ctx, main_args.
  unfold bind, emit, modify, zoom, get, ret, when, lift, raise.
  cbn -[AverageMeter.update adjust_learning_rate].
  destruct (train_call epoch (Main.ctx s)) as [r1 c1].
  cbn [fst snd]. intros [[[[t tacc1] tacc5] ls] ->] Ho1.
  cbn -[AverageMeter.update adjust_learning_rate] in *.
  rewrite AverageMeterFacts.update_run by lia.
  cbn -[AverageMeter.update adjust_learning_rate].
  destruct (same_options_fields _ _ Ho1) as (_ & Etest & _).
  rewrite Etest, Htest.
  cbn -[AverageMeter.update adjust_learning_rate].
  destruct (validate_call c1) as [r2 c2].
  cbn [fst snd]. intros [[prec1 prec5] ->] Ho2.
  cbn -[AverageMeter.update adjust_learning_rate].
  pose proof (adjust_learning_rate_same_options epoch None None c2) as Ho3.
  destruct (adjust_learning_rate_plain_run c2 epoch None None)
    as (c3 & Eadj & _); [now right|].
  rewrite Eadj in *.
  cbn -[AverageMeter.update adjust_learning_rate] in *.
  assert (Ho : same_options (args (Main.ctx s)) (args c3))
    by (eapply same_options_trans; [|exact Ho3];
        eapply same_options_trans; eassumption).
  destruct (Args.rank (args c3) =? 0);
    [destruct (epoch =? Args.epochs (args c3) - 1)|];
    cbn; eexists; (split; [reflexivity|]); cbn;
    (split; [reflexivity|]); (split; [exact Ho|]); (split; [lia|]);
    unfold calls; rewrite !filter_app; cbn; rewrite ?app_nil_r;
    repeat rewrite <- app_assoc; reflexivity.
Qed.

Lemma main_loop_run epochs :
  forall s,
    Args.test (args (Main.ctx s)) = false ->
    0 <= AverageMeter.count (Main.total_time s) ->
    epochs_return train_call validate_call epochs (Main.ctx s) ->
    exists s',
      main_loop train_call validate_call epochs s = (inr tt, s') /\
      Main.ctx s' = after_epochs train_call validate_call epochs (Main.ctx s) /\
      same_options (args (Main.ctx s)) (args (Main.ctx s')) /\
      calls (Main.log s') = calls (Main.log s) ++ flat_map epoch_calls epochs.
Proof.
  induction epochs as [|epoch rest IH]; intros s Htest Hcount Hret; simpl.
  - exists s. split; [reflexivity|]. split; [reflexivity|].
    split; [reflexivity|]. now rewrite app_nil_r.
  - destruct Hret as (Ht & Hot & Hv & Hov & Hrest).
    destruct (main_body_run epoch s Htest Hcount Ht Hot Hv Hov)
      as (s1 & E1 & X1 & Ho1 & T1 & C1).
    unfold bind. rewrite E1.
    destruct (same_options_fields _ _ Ho1) as (_ & Etest & _).
    destruct (IH s1) as (s' & E & X & Ho & C);
      [congruence | exact T1 | now rewrite X1|].
    exists s'. split; [exact E|].
    split; [now rewrite X, X1|].
    split; [eapply same_options_trans; eassumption|].
    rewrite C, C1, <- app_assoc. reflexivity.
Qed.

(** [--evaluate]: one call of [validate], and [main] ends as it does. *)
Lemma run_epochs_evaluate s :
  Args.evaluate (args (Main.ctx s)) = true ->
  calls (Main.log (snd (run_epochs train_call validate_call s))) =
    calls (Main.log s) ++ [E_validate] /\
  Main.ctx (snd (run_epochs train_call validate_call s)) =
    snd (validate_call (Main.ctx s)) /\
  (returns (fst (validate_call (Main.ctx s))) ->
   fst (run_epochs train_call validate_call s) = inr tt) /\
  (forall e, fst (validate_call (Main.ctx s)) = inl e ->
             fst (run_epochs train_call validate_call s) = inl e).
Proof.
  intros Hev.
  unfold run_epochs, main_args, on_ctx;
    unfold bind, get, ret, emit, modify, zoom, when;
    cbn -[main_loop print_results range]; rewrite Hev;
    cbn -[main_loop print_results range].
  destruct (validate_call (Main.ctx s)) as [[e | p] c']; cbn;
    (split; [unfold calls; rewrite filter_app; reflexivity|]);
    (split; [reflexivity|]); split;
    try reflexivity; try (intros [x Hx]; discriminate);
    try (intros e0 H0; congruence); intros; discriminate.
Qed.

Lemma run_epochs_loop s :
  Args.evaluate (args (Main.ctx s)) = false ->
  Args.test (args (Main.ctx s)) = false ->
  epochs_return train_call validate_call
    (range (Args.start_epoch (args (Main.ctx s))) (Args.epochs (args (Main.ctx s))))
    (set_args (Args.set_factor 0) (Main.ctx s)) ->
  calls (Main.log (snd (run_epochs train_call validate_call s))) =
    calls (Main.log s) ++
    flat_map epoch_calls
      (range (Args.start_epoch (args (Main.ctx s)))
             (Args.epochs (args (Main.ctx s)))) /\
  Main.ctx (snd (run_epochs train_call validate_call s)) =
    after_epochs train_call validate_call
      (range (Args.start_epoch (args (Main.ctx s)))
             (Args.epochs (args (Main.ctx s))))
      (set_args (Args.set_factor 0) (Main.ctx s)).
Proof.
  intros Hev Htest Hret.
  unfold run_epochs, main_args, on_ctx;
    unfold bind, get, ret, emit, modify, zoom, when;
    cbn -[main_loop print_results range]; rewrite Hev;
    cbn -[main_loop print_results range].
  match goal with |- context [main_loop _ _ ?es ?s0] =>
    destruct (main_loop_run es s0) as (s1 & E & X & Ho & C);
    [exact Htest | cbn; lia | exact Hret |]
  end.
  rewrite E. cbn -[main_loop print_results range] in *.
  destruct (Args.rank (args (Main.ctx s1)) =? 0).
  - destruct (print_results_same (args (Main.ctx s1)) s1) as [Hc Hx].
    rewrite Hc, Hx. split; [exact C | exact X].
  - split; [exact C | exact X].
Qed.

(** A first call of [train] that raises ends [main]. *)
Lemma run_epochs_train_raises s e :
  Args.evaluate (args (Main.ctx s)) = false ->
  Args.start_epoch (args (Main.ctx s)) < Args.epochs (args (Main.ctx s)) ->
  fst (train_call (Args.start_epoch (args (Main.ctx s)))
                  (set_args (Args.set_factor 0) (Main.ctx s))) = inl e ->
  fst (run_epochs train_call validate_call s) = inl e /\
  calls (Main.log (snd (run_epochs train_call validate_call s))) =
    calls (Main.log s) ++ [E_train (Args.start_epoch (args (Main.ctx s)))].
Proof.
  intros Hev Hlt Hraise.
  assert (E : exists s',
             run_epochs train_call validate_call s = (inl e, s') /\
             Main.log s' =
               Main.log s ++ [E_train (Args.start_epoch (args (Main.ctx s)))]).
  { unfold run_epochs, main_args, on_ctx;
      unfold bind at 1 2, get at 1, ret at 1; rewrite Hev.
    unfold bind at 1, modify at 1. unfold bind at 1, modify at 1.
    unfold bind at 1 2, get at 1, ret at 1.
    cbn [Main.ctx Main.set_ctx Main.set_total_time set_args args Args.start_epoch
         Args.epochs Args.set_factor].
    rewrite (range_cons _ _ Hlt). cbn [main_loop].
    unfold bind at 1. unfold main_body at 1.
    unfold bind at 1, emit at 1, modify at 1.
    unfold bind at 1, zoom at 1.
    cbn [Main.ctx Main.set_ctx Main.set_total_time set_args args Args.start_epoch
         Args.epochs Args.set_factor set_log get_log Main_Logged Main.set_log
         Main.log].
    unfold bind at 1, on_ctx at 1, zoom at 1.
    cbn [Main.ctx Main.set_ctx Main.set_total_time Main.set_log].
    rewrite Hraise. cbn. eexists. split; reflexivity. }
  destruct E as (s' & -> & L). cbn [fst snd].
  split; [reflexivity|]. rewrite L. unfold calls. rewrite filter_app. reflexivity.
Qed.
End MainCalls.

(** What [setup] leaves as [parse] and the test mode set it. *)
Lemma setup_keeps env a a' twice_dist :
  setup env a = inr (a', twice_dist) ->
  Args.arch a' = Args.arch a /\ Args.evaluate a' = Args.evaluate a /\
  Args.test a' = Args.test a /\ Args.start_epoch a' = Args.start_epoch a /\
  Args.epochs a' = Args.epochs a.
Proof.
  unfold setup, py_mod. cbn.
  destruct (device_count env =? 0); [discriminate|].
  destruct (device_count env >? 1); cbn.
  - destruct (negb (cudnn_enabled env)); [discriminate|].
    intros H. injection H as <- _. repeat split.
  - destruct (device_count env =? 1); cbn;
      destruct (negb (cudnn_enabled env)); try discriminate;
      destruct (has_memory_formats env); try discriminate;
      intros H; injection H as <- _; repeat split.
Qed.

Section MainRun.
Variable models_dict : list (string * bool).
Variable py_int : string -> option Z.
Variable py_float : string -> option Q.
Variable env : environment.
Variable train_call : Z -> M Ctx (Q * Q * Q * Q).
Variable validate_call : M Ctx (Q * Q).


Lemma main_after_setup argv a0 a twice_dist :
  parse models_dict py_int py_float argv = inr a0 ->
  setup env (test_mode a0) = inr (a, twice_dist) ->
  main models_dict py_int py_float env train_call validate_call argv =
    match crop_sizes a with
    | inl e => (inl e, built env a)
    | inr (crop_size, val_size) =>
        run_epochs train_call validate_call
          (Main.set_log [E_HybridPipe crop_size true; E_HybridPipe val_size false]
                        (built env a))
    end.
Proof.
  intros Hparse Hsetup. unfold main, main_steps.
  unfold bind at 1. unfold modify at 1.
  unfold bind at 1. rewrite Hparse. unfold lift at 1, ret at 1.
  unfold bind at 1. rewrite Hsetup. unfold lift at 1, ret at 1.
  unfold bind at 1. unfold modify at 1.
  unfold bind at 1. unfold lift at 1.
  destruct (crop_sizes a) as [e | [crop_size val_size]]; [reflexivity|].
  reflexivity.
Qed.
End MainRun.



Lemma main_fine
    (models_dict : list (string * bool))
    (py_int : string -> option Z) (py_float : string -> option Q)
    (env : environment)
    (train_call : Z -> M Ctx (Q * Q * Q * Q)) (validate_call : M Ctx (Q * Q))
    (argv : list string) :
  advances (Main.init (MPI_WORLD env))
           (snd (main models_dict py_int py_float env train_call validate_call argv)) /\
  (returns (fst (main models_dict py_int py_float env train_call validate_call argv)) ->
   best_is_max
     (snd (main models_dict py_int py_float env train_call validate_call argv))).
Proof.
  unfold main, main_steps. unfold bind at 1. unfold modify at 1.
  change (Main.set_best_prec1 0 (Main.init (MPI_WORLD env)))
    with (Main.init (MPI_WORLD env)).
  match goal with |- context [snd (?m (Main.init _))] =>
    assert (H : fine m)
  end.
  { apply fine_bind; [apply fine_lift | intros a].
    apply fine_bind; [apply fine_lift | intros [a' twice_dist]].
    apply fine_bind; [|intros _].
    { apply sound_modify. intros s. split; [now apply advances_frame | auto]. }
    apply fine_bind; [apply fine_lift | intros [crop_size val_size]].
    apply fine_bind; [apply fine_emit | intros _].
    apply fine_bind; [apply fine_emit | intros _].
    apply fine_run_epochs. }
  destruct (H (Main.init (MPI_WORLD env))) as [HR HI].
  split; [exact HR|]. intros Hret. apply HI; [|exact Hret].
  split; [now left|]. split; [apply Qle_refl | constructor].
Qed.

(** C9.  [best_prec1] never decreases, and it is the maximum of its initial
    value 0 and the top-1 precisions of [validate] observed so far
    ([maximum_of]: it is 0 or one of them, and none of them is above it):
    every run of the loop of [main] only raises it, and a run that returns
    keeps it the maximum of 0 and the precisions recorded in [val_acc1]; on
    rank 0 a completed epoch records the precision [validate] returned, and
    [best_prec1] is then the larger of that precision and its value before;
    and [main] starts from 0 and no recorded precision. *)
Theorem best_prec1_running_maximum
    (train_call : Z -> M Ctx (Q * Q * Q * Q)) (validate_call : M Ctx (Q * Q)) :
  (forall epochs s,
     (Main.best_prec1 s <=
      Main.best_prec1 (snd (main_loop train_call validate_call epochs s)))%Q /\
     (maximum_of (Main.best_prec1 s) (Main.val_acc1 s) ->
      returns (fst (main_loop train_call validate_call epochs s)) ->
      maximum_of
        (Main.best_prec1 (snd (main_loop train_call validate_call epochs s)))
        (Main.val_acc1 (snd (main_loop train_call validate_call epochs s))))) /\
  (forall epoch s s',
     main_body train_call validate_call epoch s = (inr false, s') ->
     Args.rank (args (Main.ctx s')) = 0 ->
     exists c prec1 prec5 c',
       validate_call c = (inr (prec1, prec5), c') /\
       Main.val_acc1 s' = Main.val_acc1 s ++ [prec1] /\
       (prec1 <= Main.best_prec1 s')%Q /\
       (Main.best_prec1 s <= Main.best_prec1 s')%Q /\
       (Main.best_prec1 s' = prec1 \/ Main.best_prec1 s' = Main.best_prec1 s)) /\
  (forall models_dict py_int py_float env argv,
     (0 <= Main.best_prec1
             (snd (main models_dict py_int py_float env
                        train_call validate_call argv)))%Q /\
     (returns (fst (main models_dict py_int py_float env
                         train_call validate_call argv)) ->
      maximum_of
        (Main.best_prec1 (snd (main models_dict py_int py_float env
                                    train_call validate_call argv)))
        (Main.val_acc1 (snd (main models_dict py_int py_float env
                                  train_call validate_call argv))))).
Proof.
  split; [|split].
  - intros epochs s.
    destruct (fine_main_loop train_call validate_call epochs s) as [[_ HB] HI].
    split; assumption.
  - apply main_body_records.
  - intros models_dict py_int py_float env argv.
    destruct (main_fine models_dict py_int py_float env train_call validate_call argv)
      as [[_ HB] HI].
    split; assumption.
Qed.



(* ================================================================== *)
(** * Further properties of the helpers *)

(** ** AverageMeter: bounds, order and failures *)

Lemma weighted_sum_between (calls : list (Q * Z)) (lo hi : Q) :
  AverageMeterSpec.positive_weights calls ->
  Forall (fun c => (lo <= fst c <= hi)%Q) calls ->
  (lo * float (AverageMeterSpec.total_count calls)
     <= AverageMeterSpec.weighted_sum calls)%Q /\
  (AverageMeterSpec.weighted_sum calls
     <= hi * float (AverageMeterSpec.total_count calls))%Q.
Proof.
  intros Hpos Hb. induction Hpos as [|[v n] calls Hn _ IH]; simpl.
  - unfold float. change (inject_Z 0) with 0%Q. split; ring_simplify; apply Qle_refl.
  - inversion Hb as [|? ? [Hlo Hhi] Hrest]; subst. simpl in *.
    destruct (IH Hrest) as [IH1 IH2].
    unfold float in *. rewrite inject_Z_plus.
    assert (Hn' : (0 <= inject_Z n)%Q)
      by (change 0%Q with (inject_Z 0); rewrite <- Zle_Qle; lia).
    split; nra.
Qed.

Lemma float_pos (n : Z) : 0 < n -> (0 < float n)%Q.
Proof.
  intros H. unfold float. change 0%Q with (inject_Z 0). now rewrite <- Zlt_Qlt.
Qed.



Lemma weighted_sum_perm (l l' : list (Q * Z)) :
  Permutation l l' ->
  (AverageMeterSpec.weighted_sum l == AverageMeterSpec.weighted_sum l')%Q.
Proof.
  induction 1 as [|x l l' _ IH|x y l|l l' l'' _ IH1 _ IH2]; simpl.
  - reflexivity.
  - rewrite IH. reflexivity.
  - ring.
  - rewrite IH1. exact IH2.
Qed.

Lemma total_count_perm (l l' : list (Q * Z)) :
  Permutation l l' ->
  AverageMeterSpec.total_count l = AverageMeterSpec.total_count l'.
Proof.
  induction 1 as [|x l l' _ IH|x y l|l l' l'' _ IH1 _ IH2]; simpl; lia.
Qed.



(** The running count after the first [k] calls. *)
Lemma updates_fail_or_run (calls : list (Q * Z)) :
  forall m0,
    (forall k, (0 < k <= length calls)%nat ->
       AverageMeter.count m0 + AverageMeterSpec.total_count (firstn k calls) <> 0) ->
    exists m, AverageMeter.updates calls m0 = (inr tt, m) /\
              AverageMeter.count m =
                AverageMeter.count m0 + AverageMeterSpec.total_count calls.
Proof.
  induction calls as [|[v n] calls IH]; intros m0 H.
  - exists m0. split; [reflexivity | simpl; lia].
  - assert (H1 : AverageMeter.count m0 + n <> 0).
    { specialize (H 1%nat ltac:(simpl; lia)). simpl in H. lia. }
    simpl. unfold bind at 1. rewrite AverageMeterFacts.update_run by exact H1.
    match goal with |- context [AverageMeter.updates calls ?m1] =>
      destruct (IH m1) as (m & Hrun & Hc)
    end.
    + intros k Hk. simpl.
      specialize (H (S k) ltac:(simpl; lia)). simpl in H. lia.
    + exists m. split; [exact Hrun|]. rewrite Hc. simpl. lia.
Qed.

(** X3.  [update] divides by the running count: on the Python numbers
    that [train] and [validate] pass, a sequence of calls runs through
    exactly when the count is non-zero after every call, and the only
    exception it can raise is [ZeroDivisionError].  In particular
    [update(v, 0)] on a fresh meter raises, with [val] already written. *)
Theorem AverageMeter_updates_run_iff (calls : list (Q * Z)) (m0 : AverageMeter.t) :
  (fst (AverageMeter.updates calls m0) = inr tt <->
   forall k, (0 < k <= length calls)%nat ->
     AverageMeter.count m0 + AverageMeterSpec.total_count (firstn k calls) <> 0) /\
  (forall e, fst (AverageMeter.updates calls m0) = inl e -> e = ZeroDivisionError) /\
  (forall v, AverageMeter.update v 0 AverageMeter.reset =
             (inl ZeroDivisionError, AverageMeter.mk v 0 (0 + v * float 0) 0)).
Proof.
  split; [|split].
  - split.
    + revert m0. induction calls as [|[v n] calls IH]; intros m0 Hrun k Hk.
      { simpl in Hk. lia. }
      simpl in Hrun. unfold bind in Hrun at 1.
      destruct (Z.eq_dec (AverageMeter.count m0 + n) 0) as [E|E].
      { rewrite (AverageMeterFacts.update_zero_count _ _ _ E) in Hrun.
        discriminate. }
      rewrite (AverageMeterFacts.update_run _ _ _ E) in Hrun.
      destruct k as [|k]; [lia|]. simpl.
      destruct k as [|k]; [simpl; lia|].
      specialize (IH _ Hrun (S k) ltac:(simpl in Hk; lia)). simpl in IH.
      simpl. lia.
    + intros H. destruct (updates_fail_or_run calls m0 H) as (m & -> & _).
      reflexivity.
  - revert m0. induction calls as [|[v n] calls IH]; intros m0 e H.
    { discriminate. }
    simpl in H. unfold bind in H at 1.
    destruct (Z.eq_dec (AverageMeter.count m0 + n) 0) as [E|E].
    + rewrite (AverageMeterFacts.update_zero_count _ _ _ E) in H.
      simpl in H. congruence.
    + rewrite (AverageMeterFacts.update_run _ _ _ E) in H. eapply IH, H.
  - intros v. reflexivity.
Qed.

(** ** adjust_learning_rate: what a call writes, and when it fails *)

Lemma early_epoch_no_bump (epoch factor : Z) :
  epoch < 30 -> (epoch / 30 >? 0) && (factor <? epoch / 30) = false.
Proof.
  intros He.
  assert (Hd : epoch / 30 <= 0).
  { destruct (Z_lt_le_dec epoch 0).
    - apply Z.lt_le_incl, Z.div_lt_upper_bound; lia.
    - rewrite Z.div_small by lia. lia. }
  destruct (Z.gtb_spec (epoch / 30) 0); [lia | reflexivity].
Qed.

Lemma bumps_range (epoch factor : Z) : 0 <= bumps epoch factor <= 2.
Proof.
  unfold bumps.
  destruct ((epoch / 30 >? 0) && (factor <? epoch / 30)); destruct (epoch >=? 80); lia.
Qed.

(** A call outside warmup: the options, the rates and the model. *)
Lemma adjust_learning_rate_effect c epoch step len_epoch :
  5 <= epoch \/ step = None ->
  exists c',
    adjust_learning_rate epoch step len_epoch c = (inr tt, c') /\
    same_options (args c) (args c') /\
    Args.factor (args c') = Args.factor (args c) + bumps epoch (Args.factor (args c)) /\
    param_groups c' = map (set_pg_lr (base_rate (args c'))) (param_groups c) /\
    htmodel c' =
      (if (epoch / 30 >? 0) && (Args.factor (args c) <? epoch / 30)
       then reset_skips (htmodel c) else htmodel c).
Proof.
  intros H.
  destruct (adjust_learning_rate_plain_run c epoch step len_epoch H)
    as (c' & R & F & _ & P).
  exists c'. split; [exact R|].
  split.
  { replace c' with (snd (adjust_learning_rate epoch step len_epoch c))
      by (rewrite R; reflexivity).
    apply adjust_learning_rate_same_options. }
  split; [exact F|]. split; [exact P|].
  revert R. unfold adjust_learning_rate, bind, get, when, modify, ret.
  destruct ((epoch / 30 >? 0) && (Args.factor (args c) <? epoch / 30));
    destruct (epoch >=? 80); simpl;
    (destruct step as [s|];
     [ destruct (Z.ltb_spec epoch 5); [destruct H; [lia|discriminate]|] | ]);
    intros R; injection R as <-; reflexivity.
Qed.

(** The outcome of a warmup call, by the value of [len_epoch]. *)
Lemma adjust_learning_rate_warmup_cases c epoch s len_epoch :
  epoch < 5 ->
  adjust_learning_rate epoch (Some s) len_epoch c =
    match len_epoch with
    | None => (inl TypeError, c)
    | Some len =>
        if len =? 0 then (inl ZeroDivisionError, c)
        else (inr tt,
              mk_ctx (args c)
                (map (set_pg_lr (base_rate (args c) * float (1 + s + epoch * len)
                                 / (5 * float len))%Q)
                     (param_groups c))
                (htmodel c))
    end.
Proof.
  intros He.
  destruct len_epoch as [len|].
  - destruct (Z.eqb_spec len 0) as [->|Hl].
    + unfold adjust_learning_rate, bind, get, when, modify, ret, raise.
      rewrite early_epoch_no_bump by lia. simpl.
      destruct (Z.geb_spec epoch 80); [lia|]. simpl.
      destruct (Z.ltb_spec epoch 5); [|lia]. reflexivity.
    + now apply adjust_learning_rate_warmup_run.
  - unfold adjust_learning_rate, bind, get, when, modify, ret, raise.
    rewrite early_epoch_no_bump by lia. simpl.
    destruct (Z.geb_spec epoch 80); [lia|]. simpl.
    destruct (Z.ltb_spec epoch 5); [|lia]. reflexivity.
Qed.

(** What any call that returns has done. *)
Lemma adjust_learning_rate_returned c c' epoch step len_epoch :
  adjust_learning_rate epoch step len_epoch c = (inr tt, c') ->
  exists lr,
    param_groups c' = map (set_pg_lr lr) (param_groups c) /\
    same_options (args c) (args c') /\
    Args.factor (args c') =
      Args.factor (args c) + bumps epoch (Args.factor (args c)) /\
    htmodel c' =
      (if (epoch / 30 >? 0) && (Args.factor (args c) <? epoch / 30)
       then reset_skips (htmodel c) else htmodel c).
Proof.
  intros R.
  destruct (Z_lt_le_dec epoch 5) as [He|He]; [destruct step as [s|]|].
  - rewrite adjust_learning_rate_warmup_cases in R by exact He.
    destruct len_epoch as [len|]; [|discriminate].
    destruct (len =? 0); [discriminate|]. injection R as <-.
    eexists. split; [reflexivity|]. split; [reflexivity|]. simpl.
    rewrite early_epoch_no_bump by lia. unfold bumps.
    rewrite early_epoch_no_bump by lia.
    destruct (Z.geb_spec epoch 80); [lia|]. split; [lia | reflexivity].
  - destruct (adjust_learning_rate_effect c epoch None len_epoch)
      as (c1 & R1 & Ho & F & P & Hm); [now right|].
    rewrite R1 in R. injection R as <-. eauto.
  - destruct (adjust_learning_rate_effect c epoch step len_epoch)
      as (c1 & R1 & Ho & F & P & Hm); [now left|].
    rewrite R1 in R. injection R as <-. eauto.
Qed.

(** X4.  A call of [adjust_learning_rate] that returns writes one rate to
    every parameter group and leaves their momentum and weight decay, and
    their number, alone; of the options it changes [args.factor] only,
    which it raises by 0, 1 or 2; and it calls [reset_skips()] once exactly
    when [args.factor] was behind a positive [epoch // 30]. *)
Theorem adjust_learning_rate_writes_one_rate
    (c c' : Ctx) (epoch : Z) (step len_epoch : option Z) :
  adjust_learning_rate epoch step len_epoch c = (inr tt, c') ->
  (exists lr, param_groups c' = map (set_pg_lr lr) (param_groups c)) /\
  length (param_groups c') = length (param_groups c) /\
  map pg_momentum (param_groups c') = map pg_momentum (param_groups c) /\
  map pg_weight_decay (param_groups c') = map pg_weight_decay (param_groups c) /\
  same_options (args c) (args c') /\
  Args.factor (args c) <= Args.factor (args c') <= Args.factor (args c) + 2 /\
  training (htmodel c') = training (htmodel c) /\
  last_batch (htmodel c') = last_batch (htmodel c) /\
  reset_skips_calls (htmodel c') =
    (if (epoch / 30 >? 0) && (Args.factor (args c) <? epoch / 30)
     then S (reset_skips_calls (htmodel c)) else reset_skips_calls (htmodel c)).
Proof.
  intros R.
  destruct (adjust_learning_rate_returned _ _ _ _ _ R) as (lr & P & Ho & F & Hm).
  pose proof (bumps_range epoch (Args.factor (args c))) as Hb.
  split; [now exists lr|].
  split; [rewrite P; apply length_map|].
  split; [rewrite P, map_map; reflexivity|].
  split; [rewrite P, map_map; reflexivity|].
  split; [exact Ho|]. split; [lia|].
  rewrite Hm.
  destruct ((epoch / 30 >? 0) && (Args.factor (args c) <? epoch / 30)); simpl;
    repeat split.
Qed.

Lemma adjust_learning_rate_writes_one_rate_witness :
  exists c',
    adjust_learning_rate 30 (Some 7) (Some 100)
      (mk_ctx defaults
         [mk_param_group (1 # 10) (9 # 10) (1 # 10000);
          mk_param_group (1 # 2) 0 (1 # 100)]%Q
         (mk_htmodel true (Some 100) 0 COMM_SELF)) = (inr tt, c') /\
    map pg_momentum (param_groups c') = [(9 # 10)%Q; 0%Q] /\
    Args.factor (args c') = 1 /\
    reset_skips_calls (htmodel c') = 1%nat.
Proof.
  eexists. split; [vm_compute; reflexivity|].
  match goal with |- context [param_groups ?c'] =>
    pose proof (adjust_learning_rate_writes_one_rate
                  (mk_ctx defaults
                     [mk_param_group (1 # 10) (9 # 10) (1 # 10000);
                      mk_param_group (1 # 2) 0 (1 # 100)]%Q
                     (mk_htmodel true (Some 100) 0 COMM_SELF))
                  c' 30 (Some 7) (Some 100) ltac:(vm_compute; reflexivity))
      as (_ & _ & Hm & _ & _ & _ & _ & _ & Hr)
  end.
  split; [exact Hm|]. split; [reflexivity | exact Hr].
Defined.

(** X5.  [adjust_learning_rate] raises only in warmup, on a batch step:
    [TypeError] when [len_epoch] is [None] and [ZeroDivisionError] when it
    is 0; and a call that raises has written nothing: the options, the
    rates and the model are as before. *)
Theorem adjust_learning_rate_failures
    (c : Ctx) (epoch : Z) (step len_epoch : option Z) (e : exn) :
  (fst (adjust_learning_rate epoch step len_epoch c) = inl e <->
   epoch < 5 /\ step <> None /\
   (len_epoch = None /\ e = TypeError \/
    len_epoch = Some 0 /\ e = ZeroDivisionError)) /\
  (fst (adjust_learning_rate epoch step len_epoch c) = inl e ->
   snd (adjust_learning_rate epoch step len_epoch c) = c).
Proof.
  destruct (Z_lt_le_dec epoch 5) as [He|He]; [destruct step as [s|]|].
  - rewrite adjust_learning_rate_warmup_cases by exact He.
    destruct len_epoch as [len|]; [destruct (Z.eqb_spec len 0) as [->|Hl]|]; simpl.
    + split; [|reflexivity]. split.
      * intros H. injection H as <-. repeat split; [exact He | discriminate | now right].
      * intros (_ & _ & [[H _] | [_ ->]]); [discriminate | reflexivity].
    + split; [|discriminate]. split; [discriminate|].
      intros (_ & _ & [[H _] | [H _]]); [discriminate | congruence].
    + split; [|reflexivity]. split.
      * intros H. injection H as <-. repeat split; [exact He | discriminate | now left].
      * intros (_ & _ & [[_ ->] | [H _]]); [reflexivity | discriminate].
  - destruct (adjust_learning_rate_effect c epoch None len_epoch)
      as (c1 & R1 & _); [now right|]. rewrite R1. simpl.
    split; [|discriminate]. split; [discriminate|]. intros (_ & H & _). congruence.
  - destruct (adjust_learning_rate_effect c epoch step len_epoch)
      as (c1 & R1 & _); [now left|]. rewrite R1. simpl.
    split; [|discriminate]. split; [discriminate|]. intros (H & _). lia.
Qed.


Lemma same_options_lr a a' : same_options a a' -> Args.lr a' = Args.lr a.
Proof. intros H. exact (f_equal Args.lr H). Qed.

Lemma last_cons_default {A} (x : A) (q : list A) (d : A) :
  last (x :: q) d = last q x.
Proof.
  revert x d. induction q as [|y q IH]; intros x d; [reflexivity|].
  change (last (y :: q) d = last (y :: q) x). now rewrite !IH.
Qed.

(** X6.  Below epoch 80 the schedule is the step function of the epoch:
    when the calls go through the epochs without skipping one (each call is
    for the epoch of the call before or the next one) and [args.factor]
    starts at [e0 // 30], then after the calls [args.factor] is
    [epoch // 30] for the epoch of the last call, and [reset_skips()] was
    called once for each step of the factor. *)
Theorem adjust_learning_rate_step_function
    (calls : list (Z * option Z * option Z)) (e0 : Z) (c c' : Ctx) :
  0 <= e0 ->
  Args.factor (args c) = e0 / 30 ->
  in_step e0 calls ->
  for_each calls (fun call => adjust_learning_rate (fst (fst call)) (snd (fst call))
                                                   (snd call)) c = (inr tt, c') ->
  Args.factor (args c') = last_epoch e0 calls / 30 /\
  Args.lr (args c') = Args.lr (args c) /\
  Z.of_nat (reset_skips_calls (htmodel c')) =
    Z.of_nat (reset_skips_calls (htmodel c)) + (last_epoch e0 calls / 30 - e0 / 30).
Proof.
  revert e0 c. induction calls as [|[[e s] l] calls IH]; intros e0 c He0 Hf Hstep Hrun.
  - simpl in Hrun. injection Hrun as <-. unfold last_epoch. simpl.
    repeat split; [exact Hf | lia].
  - simpl in Hstep. destruct Hstep as (Hnext & H80 & Hrest).
    simpl in Hrun. unfold bind in Hrun at 1.
    destruct (adjust_learning_rate e s l c) as [[x|[]] c1] eqn:R; [discriminate|].
    destruct (adjust_learning_rate_returned _ _ _ _ _ R) as (lr & _ & Ho & F & Hm).
    assert (F1 : Args.factor (args c1) = e / 30 /\
                 Z.of_nat (reset_skips_calls (htmodel c1)) =
                   Z.of_nat (reset_skips_calls (htmodel c)) + (e / 30 - e0 / 30)).
    { rewrite F, Hm, Hf. unfold bumps.
      destruct (Z.geb_spec e 80); [lia|].
      assert (Hd : e / 30 = e0 / 30 \/ e / 30 = e0 / 30 + 1)
        by (Z.div_mod_to_equations; lia).
      assert (Hd0 : 0 <= e0 / 30) by (Z.div_mod_to_equations; lia).
      destruct (Z.gtb_spec (e / 30) 0); destruct (Z.ltb_spec (e0 / 30) (e / 30));
        simpl; unfold reset_skips; simpl; lia. }
    destruct F1 as [F1 F2].
    destruct (IH e c1 ltac:(lia) F1 Hrest Hrun) as (G1 & G2 & G3).
    unfold last_epoch in *. simpl map.
    rewrite last_cons_default.
    split; [exact G1|].
    split; [rewrite G2; now apply same_options_lr|]. lia.
Qed.

Lemma adjust_learning_rate_step_function_witness :
  exists c',
    for_each [(29, Some 99, Some 100); (29, None, None); (30, Some 0, Some 100);
              (30, Some 1, Some 100)]
      (fun call => adjust_learning_rate (fst (fst call)) (snd (fst call)) (snd call))
      default_ctx = (inr tt, c') /\
    Args.factor (args c') = 1 /\
    Z.of_nat (reset_skips_calls (htmodel c')) = 1.
Proof.
  eexists. split; [vm_compute; reflexivity|].
  match goal with |- context [args ?c'] =>
    pose proof (adjust_learning_rate_step_function
                  [(29, Some 99, Some 100); (29, None, None); (30, Some 0, Some 100);
                   (30, Some 1, Some 100)] 29 default_ctx c'
                  ltac:(lia) ltac:(reflexivity)
                  ltac:(simpl; repeat split; lia)
                  ltac:(vm_compute; reflexivity)) as (Hf & _ & Hr)
  end.
  split; [exact Hf | exact Hr].
Defined.



(** X7.  [args.factor] catches up with [epoch // 30] by one per call: below
    epoch 80, from a factor that is not ahead of [epoch // 30], a run of
    calls for the same epoch leaves [args.factor] at the smaller of
    [factor + number of calls] and [epoch // 30].  A run that starts at
    epoch 60 with [args.factor = 0] so needs two calls to reach the rate of
    that epoch. *)
Theorem adjust_learning_rate_catches_up
    (calls : list (Z * option Z * option Z)) (epoch : Z) (c c' : Ctx) :
  epoch < 80 ->
  0 <= Args.factor (args c) <= epoch / 30 ->
  Forall (fun call => fst (fst call) = epoch) calls ->
  for_each calls (fun call => adjust_learning_rate (fst (fst call)) (snd (fst call))
                                                   (snd call)) c = (inr tt, c') ->
  Args.factor (args c') =
    Z.min (Args.factor (args c) + Z.of_nat (length calls)) (epoch / 30).
Proof.
  intros H80. revert c.
  induction calls as [|[[e s] l] calls IH]; intros c Hf Hall Hrun.
  - simpl in Hrun. injection Hrun as <-. simpl. lia.
  - apply Forall_cons_iff in Hall. destruct Hall as [He Hrest].
    simpl in He. subst e.
    simpl in Hrun. unfold bind in Hrun at 1.
    destruct (adjust_learning_rate epoch s l c) as [[x|[]] c1] eqn:R; [discriminate|].
    destruct (adjust_learning_rate_returned _ _ _ _ _ R) as (lr & _ & _ & F & _).
    assert (F1 : Args.factor (args c1) =
                 Z.min (Args.factor (args c) + 1) (epoch / 30)).
    { rewrite F. unfold bumps.
      destruct (Z.geb_spec epoch 80); [lia|].
      destruct (Z.gtb_spec (epoch / 30) 0);
        destruct (Z.ltb_spec (Args.factor (args c)) (epoch / 30)); simpl; lia. }
    rewrite (IH c1 ltac:(lia) Hrest Hrun), F1.
    change (length ((epoch, s, l) :: calls)) with (S (length calls)). lia.
Qed.

Lemma adjust_learning_rate_catches_up_witness :
  exists c1 c2,
    for_each [(60, Some 0, Some 100)]
      (fun call => adjust_learning_rate (fst (fst call)) (snd (fst call)) (snd call))
      default_ctx = (inr tt, c1) /\
    for_each [(60, Some 0, Some 100); (60, Some 1, Some 100)]
      (fun call => adjust_learning_rate (fst (fst call)) (snd (fst call)) (snd call))
      default_ctx = (inr tt, c2) /\
    Args.factor (args c1) = 1 /\ Args.factor (args c2) = 2.
Proof.
  do 2 eexists. split; [vm_compute; reflexivity|].
  split; [vm_compute; reflexivity|].
  split.
  - match goal with |- Args.factor (args ?c1) = _ =>
      exact (adjust_learning_rate_catches_up [(60, Some 0, Some 100)] 60
               default_ctx c1 ltac:(lia) ltac:(vm_compute; split; discriminate)
               ltac:(repeat constructor) ltac:(vm_compute; reflexivity))
    end.
  - match goal with |- Args.factor (args ?c2) = _ =>
      exact (adjust_learning_rate_catches_up
               [(60, Some 0, Some 100); (60, Some 1, Some 100)] 60
               default_ctx c2 ltac:(lia) ltac:(vm_compute; split; discriminate)
               ltac:(repeat constructor) ltac:(vm_compute; reflexivity))
    end.
Defined.

(** ** reduce_tensor: the mean stays within the values *)

Lemma Qsum_between (l : list Q) (lo hi : Q) :
  Forall (fun t => (lo <= t <= hi)%Q) l ->
  (lo * float (Z.of_nat (length l)) <= Qsum l)%Q /\
  (Qsum l <= hi * float (Z.of_nat (length l)))%Q.
Proof.
  induction 1 as [|t l [Hlo Hhi] _ [IH1 IH2]].
  - simpl. unfold float. change (inject_Z 0) with 0%Q.
    split; ring_simplify; apply Qle_refl.
  - change (length (t :: l)) with (S (length l)).
    rewrite Nat2Z.inj_succ. unfold Z.succ, float in *.
    rewrite inject_Z_plus. change (inject_Z 1) with 1%Q.
    simpl Qsum. split; lra.
Qed.


(** ** parse: rejections and how command lines compose *)

Section ParseMore.
Variable models_dict : list (string * bool).
Variable py_int : string -> option Z.
Variable py_float : string -> option Q.

(** Every rejection is argparse's [error]. *)
Lemma parse_args_error n :
  forall argv p a e,
    (length argv <= n)%nat ->
    parse_args models_dict py_int py_float argv p a = inl e -> e = SystemExit 2.
Proof.
  induction n as [|n IH]; intros argv p a e Hlen H.
  - destruct argv; [discriminate | simpl in Hlen; lia].
  - destruct argv as [|tok rest]; [discriminate|].
    simpl in Hlen. rewrite parse_args_cons in H.
    destruct (flag_like tok).
    + destruct (find_option models_dict tok) as [o|]; [|now inversion H].
      destruct (kind o) as [set | names set | set | set | set];
        try (eapply IH; [|exact H]; lia);
        (destruct rest as [|v rest']; [now inversion H|];
         destruct (flag_like v); [now inversion H|];
         match type of H with context [store py_int py_float ?k v ?x] =>
           destruct (store py_int py_float k v x) as [e1|a1] eqn:Es
         end;
         [ injection H as <-; eapply store_error; exact Es
         | eapply IH; [|exact H]; simpl in Hlen; lia ]).
    + destruct p as [[set vals]|]; [|now inversion H].
      eapply IH; [|exact H]; lia.
Qed.

End ParseMore.


(** ** main: the setup before the loop *)

(** X10.  The setup of [main] fails on three machines: without a GPU
    ([rank % args.gpus] divides by zero), with [cudnn] disabled (the
    assertion), and with exactly one GPU when torch has the memory formats,
    where [args.channels_last] is read although [parse] defines no such
    option.  On every other machine it completes. *)
Theorem setup_failures (env : environment) (a : Args.t) :
  (device_count env = 0 -> setup env a = inl ZeroDivisionError) /\
  (device_count env <> 0 -> cudnn_enabled env = false ->
   setup env a = inl AssertionError) /\
  (device_count env = 1 -> cudnn_enabled env = true ->
   has_memory_formats env = true ->
   setup env a = inl (AttributeError "channels_last")) /\
  (returns (setup env a) <->
   device_count env <> 0 /\ cudnn_enabled env = true /\
   (device_count env = 1 -> has_memory_formats env = false)).
Proof.
  unfold setup, py_mod, returns. cbn.
  destruct (Z.eqb_spec (device_count env) 0) as [E0|E0];
    [|destruct (Z.gtb_spec (device_count env) 1) as [E1|E1];
      [|destruct (Z.eqb_spec (device_count env) 1) as [E2|E2]]];
    cbn; destruct (cudnn_enabled env); cbn;
    destruct (has_memory_formats env); cbn;
    repeat split; intros;
    repeat match goal with
           | H : exists _, _ |- _ => destruct H
           | H : _ /\ _ |- _ => destruct H
           end;
    try congruence; try lia; try (eexists; reflexivity);
    try (match goal with H : _ -> _ |- _ => specialize (H ltac:(assumption)) end;
         congruence).
Qed.



(** ** HybridPipe: the directories given on the command line *)

Section ParseListed.
Variable models_dict : list (string * bool).
Variable py_int : string -> option Z.
Variable py_float : string -> option Q.
Variable P : Args.t -> Prop.
Variable flag : string.
Hypothesis flag_is_option : flag_like flag = true.
Hypothesis options_keep :
  forall o, In o (parser models_dict) -> keeps_listed P (kind o).
Hypothesis flag_stores :
  forall o, find_option models_dict flag = Some o ->
    exists set, kind o = OStar set /\ forall vals a, P (set (DirList vals) a).

Lemma store_keeps_listed k v a a' :
  keeps_listed P k -> store py_int py_float k v a = inr a' -> P a -> P a'.
Proof.
  destruct k as [set | [names|] set | set | set | set]; simpl; intros Hk H Ha.
  - discriminate.
  - destruct (existsb (String.eqb v) names); [|discriminate].
    injection H as <-. now apply Hk.
  - injection H as <-. now apply Hk.
  - destruct (py_int v); [|discriminate]. injection H as <-. now apply Hk.
  - destruct (py_float v); [|discriminate]. injection H as <-. now apply Hk.
  - discriminate.
Qed.

Lemma flush_listed p a :
  pending_keeps_listed P p -> P a \/ pending_stores P p -> P (flush p a).
Proof.
  destruct p as [[set vals]|]; simpl; intros Hk [Ha | Hs];
    [now apply Hk | apply Hs | exact Ha | destruct Hs].
Qed.

(** Once established, [P] holds to the end of the command line; and the
    option [flag] establishes it. *)
Lemma parse_args_listed n :
  forall argv p a a',
    (length argv <= n)%nat ->
    parse_args models_dict py_int py_float argv p a = inr a' ->
    pending_keeps_listed P p ->
    P a \/ pending_stores P p \/ In flag argv ->
    P a'.
Proof.
  induction n as [|n IH]; intros argv p a a' Hlen H Hk Hp.
  - destruct argv; [|simpl in Hlen; lia]. simpl in H. injection H as <-.
    apply flush_listed; [exact Hk|]. destruct Hp as [Ha | [Hs | []]]; auto.
  - destruct argv as [|tok rest].
    { simpl in H. injection H as <-.
      apply flush_listed; [exact Hk|]. destruct Hp as [Ha | [Hs | []]]; auto. }
    simpl in Hlen. rewrite parse_args_cons in H.
    destruct (flag_like tok) eqn:Etok.
    + destruct (find_option models_dict tok) as [o|] eqn:Efind; [|discriminate].
      destruct (find_option_In _ _ _ Efind) as [Hin _].
      pose proof (options_keep o Hin) as Hko.
      assert (Hflush : P (flush p a) \/ tok = flag \/ In flag rest).
      { destruct Hp as [Ha | [Hs | [E | Hin']]]; auto;
          left; apply flush_listed; auto. }
      destruct Hflush as [Ha | [-> | Hin']].
      * (* [P] holds before this option *)
        destruct (kind o) as [set | names set | set | set | set] eqn:Ek;
          try (apply (IH rest _ _ _ ltac:(lia) H); [exact Hko | now left]);
          try (apply (IH rest _ _ _ ltac:(lia) H); [exact I | left; now apply Hko]);
          (destruct rest as [|v rest']; [discriminate|];
           destruct (flag_like v); [discriminate|];
           destruct (store py_int py_float _ v (flush p a)) as [e|a1] eqn:Es;
             [discriminate|];
           apply (IH rest' None a1 a' ltac:(simpl in Hlen; lia) H); [exact I|];
           left; eapply store_keeps_listed; [|exact Es|exact Ha];
           rewrite <- Ek in Hko |- *; exact Hko).
      * (* this option is [flag] *)
        destruct (flag_stores o Efind) as (set & Ek & Hset).
        rewrite Ek in H.
        apply (IH rest _ _ _ ltac:(lia) H); [rewrite Ek in Hko; exact Hko|].
        right. left. exact Hset.
      * (* [flag] comes later *)
        destruct (kind o) as [set | names set | set | set | set] eqn:Ek;
          try (apply (IH rest _ _ _ ltac:(lia) H); [exact Hko | now right; right]);
          try (apply (IH rest _ _ _ ltac:(lia) H); [exact I | now right; right]);
          (destruct rest as [|v rest']; [discriminate|];
           destruct (flag_like v) eqn:Ev; [discriminate|];
           destruct (store py_int py_float _ v (flush p a)) as [e|a1] eqn:Es;
             [discriminate|];
           apply (IH rest' None a1 a' ltac:(simpl in Hlen; lia) H); [exact I|];
           right; right; destruct Hin' as [E | Hin']; [|exact Hin'];
           subst v; congruence).
    + destruct p as [[set vals]|]; [|discriminate].
      apply (IH rest _ _ _ ltac:(lia) H); [exact Hk|].
      destruct Hp as [Ha | [Hs | [E | Hin']]]; auto.
      subst tok. congruence.
Qed.
End ParseListed.

(** A [nargs="*"] option that occurs on the command line leaves a list. *)
Lemma parse_lists models_dict py_int py_float argv a :
  parse models_dict py_int py_float argv = inr a ->
  (In "--train" argv -> listed (Args.train a)) /\
  (In "--validate" argv -> listed (Args.validate a)) /\
  (In "--train_indexes" argv -> listed (Args.train_indexes a)) /\
  (In "--validate_indexes" argv -> listed (Args.validate_indexes a)).
Proof.
  intros H. unfold parse in H.
  assert (G : forall (proj : Args.t -> dirs) flag,
            flag_like flag = true ->
            (forall o, In o (parser models_dict) ->
                       keeps_listed (fun a => listed (proj a)) (kind o)) ->
            (forall o, find_option models_dict flag = Some o ->
               exists set, kind o = OStar set /\
                           forall vals a, listed (proj (set (DirList vals) a))) ->
            In flag argv -> listed (proj a)).
  { intros proj flag Hlike Hkeep Hstore Hin.
    apply (parse_args_listed models_dict py_int py_float
             (fun a => listed (proj a)) flag Hlike Hkeep Hstore
             (length argv) argv None defaults a (le_n _) H I).
    now right; right. }
  repeat split; apply G; try reflexivity;
    intros o Ho;
    lazymatch type of Ho with
    | In _ _ =>
        simpl in Ho;
        repeat (destruct Ho as [<- | Ho];
                [simpl; intros; first [assumption | exact I]|]);
        destruct Ho
    | _ =>
        cbn in Ho; injection Ho as <-; eexists;
        (split; [reflexivity | intros; exact I])
    end.
Qed.

Lemma setup_keeps_dirs env a a' twice_dist :
  setup env a = inr (a', twice_dist) ->
  Args.train a' = Args.train a /\ Args.validate a' = Args.validate a /\
  Args.train_indexes a' = Args.train_indexes a /\
  Args.validate_indexes a' = Args.validate_indexes a.
Proof.
  unfold setup, py_mod. cbn.
  destruct (device_count env =? 0); [discriminate|].
  destruct (device_count env >? 1); cbn.
  - destruct (negb (cudnn_enabled env)); [discriminate|].
    intros H. injection H as <- _. repeat split.
  - destruct (device_count env =? 1); cbn;
      destruct (negb (cudnn_enabled env)); try discriminate;
      destruct (has_memory_formats env); try discriminate;
      intros H; injection H as <- _; repeat split.
Qed.

Lemma test_mode_keeps_dirs a :
  Args.train (test_mode a) = Args.train a /\
  Args.validate (test_mode a) = Args.validate a /\
  Args.train_indexes (test_mode a) = Args.train_indexes a /\
  Args.validate_indexes (test_mode a) = Args.validate_indexes a.
Proof. unfold test_mode. destruct (Args.test a); repeat split. Qed.

(** X12.  The data directories cannot be given on the command line: the
    four options are [nargs="*"], so a directory that is given reaches
    [HybridPipe] as a list, which [os.listdir] refuses.  With [--train] on
    the command line the first pipeline of [main] raises [TypeError]; with
    any of the four options no pair of pipelines is built, whatever the
    directories hold. *)
Theorem main_pipes_refuse_given_dirs
    (models_dict : list (string * bool))
    (py_int : string -> option Z) (py_float : string -> option Q)
    (env : environment) (listdir : string -> exn + list string)
    (argv : list string) (a0 a : Args.t) (twice_dist : bool)
    (crop_size val_size : Z) :
  documented models_dict argv ->
  parse models_dict py_int py_float argv = inr a0 ->
  setup env (test_mode a0) = inr (a, twice_dist) ->
  (In "--train" argv -> main_pipes listdir env a crop_size val_size = inl TypeError) /\
  (In "--train" argv \/ In "--validate" argv \/
   In "--train_indexes" argv \/ In "--validate_indexes" argv ->
   forall pipes, main_pipes listdir env a crop_size val_size <> inr pipes) /\
  (absent ["--train"; "--validate"; "--train_indexes"; "--validate_indexes"] argv ->
   (forall dir, exists names, listdir dir = inr names) ->
   exists pipes, main_pipes listdir env a crop_size val_size = inr pipes).
Proof.
  intros _ Hparse Hsetup.
  destruct (parse_lists _ _ _ _ _ Hparse) as (L1 & L2 & L3 & L4).
  destruct (setup_keeps_dirs _ _ _ _ Hsetup) as (S1 & S2 & S3 & S4).
  destruct (test_mode_keeps_dirs a0) as (T1 & T2 & T3 & T4).
  rewrite T1 in S1. rewrite T2 in S2. rewrite T3 in S3. rewrite T4 in S4.
  unfold main_pipes, HybridPipe_init, listed_files.
  rewrite S1, S2, S3, S4.
  split; [|split].
  - intros Hin. specialize (L1 Hin).
    destruct (Args.train a0); [destruct L1 | reflexivity].
  - intros Hin pipes.
    destruct Hin as [Hin | [Hin | [Hin | Hin]]];
      [ specialize (L1 Hin) | specialize (L2 Hin)
      | specialize (L3 Hin) | specialize (L4 Hin) ];
      destruct (Args.train a0) as [d1|]; try discriminate;
      try (destruct (listdir d1); [discriminate|]);
      destruct (Args.train_indexes a0) as [d2|]; try discriminate;
      try (destruct (listdir d2); [discriminate|]);
      destruct (Args.validate a0) as [d3|]; try discriminate;
      try (destruct (listdir d3); [discriminate|]);
      destruct (Args.validate_indexes a0) as [d4|]; try discriminate;
      try (destruct (listdir d4); [discriminate|]);
      try contradiction.
  - intros Habs Hdirs.
    assert (D : exists d1 d2 d3 d4,
              Args.train a0 = DirDefault d1 /\ Args.train_indexes a0 = DirDefault d2 /\
              Args.validate a0 = DirDefault d3 /\
              Args.validate_indexes a0 = DirDefault d4).
    { unfold absent in Habs. rewrite Forall_forall in Habs.
      do 4 eexists.
      repeat split;
        refine (parse_keeps models_dict py_int py_float (fun a => _ a = _)
                  argv a0 _ Hparse eq_refl);
        intros o tok Hin Hflag Hused; simpl in Hin;
        repeat (destruct Hin as [<- | Hin]); try contradiction; simpl;
        try (intros; assumption);
        exfalso; (apply (Habs tok); [simpl in Hflag |- *; tauto | exact Hused]). }
    destruct D as (d1 & d2 & d3 & d4 & -> & -> & -> & ->).
    destruct (Hdirs d1) as (n1 & ->). destruct (Hdirs d2) as (n2 & ->).
    destruct (Hdirs d3) as (n3 & ->). destruct (Hdirs d4) as (n4 & ->).
    eexists. reflexivity.
Qed.

Lemma main_pipes_refuse_given_dirs_witness :
  exists a0 a twice_dist,
    parse two_models decimal_int decimal_float ["--train"; "/data/train/"] = inr a0 /\
    setup two_gpus (test_mode a0) = inr (a, twice_dist) /\
    main_pipes (fun _ => inr ["a.tfrecord"]) two_gpus a 224 256 = inl TypeError.
Proof.
  eassert (Hp : parse two_models decimal_int decimal_float
                      ["--train"; "/data/train/"] = inr _)
    by (vm_compute; reflexivity).
  match type of Hp with
  | _ = inr ?a0 =>
      eassert (Hs : setup two_gpus (test_mode a0) = inr (_, _))
        by (vm_compute; reflexivity)
  end.
  assert (Hd : documented two_models ["--train"; "/data/train/"])
    by (repeat constructor; intros H; vm_compute in *; discriminate).
  do 3 eexists. split; [exact Hp|]. split; [exact Hs|].
  exact (proj1 (main_pipes_refuse_given_dirs two_models decimal_int decimal_float
                  two_gpus (fun _ => inr ["a.tfrecord"]) _ _ _ _ 224 256 Hd Hp Hs)
               (or_introl eq_refl)).
Defined.

(** ** main: the results table *)

Lemma same_options_rank a a' :
  same_options a a' ->
  Args.rank a' = Args.rank a /\ Args.epochs a' = Args.epochs a /\
  Args.start_epoch a' = Args.start_epoch a /\ Args.evaluate a' = Args.evaluate a.
Proof.
  intros H. unfold same_options in H.
  repeat split;
    [ apply (f_equal Args.rank) in H | apply (f_equal Args.epochs) in H
    | apply (f_equal Args.start_epoch) in H | apply (f_equal Args.evaluate) in H ];
    exact H.
Qed.

Section MainTable.
Variable train_call : Z -> M Ctx (Q * Q * Q * Q).
Variable validate_call : M Ctx (Q * Q).

(** One epoch outside test mode: on rank 0 each of the six lists grows by
    one entry, on the other ranks none does. *)
Lemma main_body_table epoch s n :
  Args.test (args (Main.ctx s)) = false ->
  0 <= AverageMeter.count (Main.total_time s) ->
  returns (fst (train_call epoch (Main.ctx s))) ->
  same_options (args (Main.ctx s)) (args (snd (train_call epoch (Main.ctx s)))) ->
  returns (fst (validate_call (snd (train_call epoch (Main.ctx s))))) ->
  same_options (args (snd (train_call epoch (Main.ctx s))))
    (args (snd (validate_call (snd (train_call epoch (Main.ctx s)))))) ->
  table_rows s n ->
  exists s',
    main_body train_call validate_call epoch s = (inr false, s') /\
    Main.ctx s' = after_epoch train_call validate_call epoch (Main.ctx s) /\
    same_options (args (Main.ctx s)) (args (Main.ctx s')) /\
    0 <= AverageMeter.count (Main.total_time s') /\
    table_rows s' (if Args.rank (args (Main.ctx s)) =? 0 then S n else n).
Proof.
  intros Htest Hcount. unfold after_epoch.
  unfold main_body, on_ctx, main_args.
  unfold bind, emit, modify, zoom, get, ret, when, lift, raise.
  cbn -[AverageMeter.update adjust_learning_rate].
  destruct (train_call epoch (Main.ctx s)) as [r1 c1].
  cbn [fst snd]. intros [[[[t tacc1] tacc5] ls] ->] Ho1.
  cbn -[AverageMeter.update adjust_learning_rate] in *.
  rewrite AverageMeterFacts.update_run by lia.
  cbn -[AverageMeter.update adjust_learning_rate].
  destruct (same_options_fields _ _ Ho1) as (_ & Etest & _).
  rewrite Etest, Htest.
  cbn -[AverageMeter.update adjust_learning_rate].
  destruct (validate_call c1) as [r2 c2].
  cbn [fst snd]. intros [[prec1 prec5] ->] Ho2 Hrows.
  cbn -[AverageMeter.update adjust_learning_rate].
  pose proof (adjust_learning_rate_same_options epoch None None c2) as Ho3.
  destruct (adjust_learning_rate_plain_run c2 epoch None None)
    as (c3 & Eadj & _); [now right|].
  rewrite Eadj in *.
  cbn -[AverageMeter.update adjust_learning_rate] in *.
  assert (Ho : same_options (args (Main.ctx s)) (args c3))
    by (eapply same_options_trans; [|exact Ho3];
        eapply same_options_trans; eassumption).
  destruct (same_options_rank _ _ Ho) as (Erank & _).
  rewrite Erank.
  destruct Hrows as (R1 & R2 & R3 & R4 & R5 & R6).
  destruct (Args.rank (args (Main.ctx s)) =? 0);
    [destruct (epoch =? Args.epochs (args c3) - 1)|];
    cbn; eexists; (split; [reflexivity|]); cbn;
    (split; [reflexivity|]); (split; [exact Ho|]); (split; [lia|]);
    unfold table_rows; cbn; rewrite ?length_app; cbn; repeat split; lia.
Qed.

Lemma main_loop_table epochs :
  forall s n,
    Args.test (args (Main.ctx s)) = false ->
    0 <= AverageMeter.count (Main.total_time s) ->
    epochs_return train_call validate_call epochs (Main.ctx s) ->
    table_rows s n ->
    exists s',
      main_loop train_call validate_call epochs s = (inr tt, s') /\
      same_options (args (Main.ctx s)) (args (Main.ctx s')) /\
      table_rows s' (if Args.rank (args (Main.ctx s)) =? 0
                     then (n + length epochs)%nat else n).
Proof.
  induction epochs as [|epoch rest IH]; intros s n Htest Hcount Hret Hrows; simpl.
  - exists s. split; [reflexivity|]. split; [reflexivity|].
    destruct (Args.rank (args (Main.ctx s)) =? 0);
      [now rewrite Nat.add_0_r | exact Hrows].
  - destruct Hret as (Ht & Hot & Hv & Hov & Hrest).
    destruct (main_body_table epoch s n Htest Hcount Ht Hot Hv Hov Hrows)
      as (s1 & E1 & X1 & Ho1 & T1 & R1).
    unfold bind. rewrite E1.
    destruct (same_options_fields _ _ Ho1) as (_ & Etest & _).
    destruct (same_options_rank _ _ Ho1) as (Erank & _).
    destruct (IH s1 _ ltac:(congruence) T1 ltac:(now rewrite X1) R1)
      as (s' & E & Ho & R).
    exists s'. split; [exact E|].
    split; [eapply same_options_trans; eassumption|].
    rewrite Erank in R.
    destruct (Args.rank (args (Main.ctx s)) =? 0); [|exact R].
    now rewrite <- Nat.add_succ_comm.
Qed.
End MainTable.

Lemma In_range (a b c : Z) : In c (range a b) <-> a <= c < b.
Proof.
  unfold range. rewrite in_map_iff. split.
  - intros (i & <- & Hi). apply in_seq in Hi. lia.
  - intros H. exists (Z.to_nat (c - a)). split; [lia|]. apply in_seq. lia.
Qed.

Lemma length_range (a b : Z) : length (range a b) = Z.to_nat (b - a).
Proof. unfold range. now rewrite length_map, length_seq. Qed.

Lemma py_index_cases (l : list Q) (c : Z) :
  if index_ok (length l) c then exists x, py_index l c = inr x
  else py_index l c = inl IndexError.
Proof.
  unfold index_ok, py_index.
  set (i := if c <? 0 then Z.of_nat (length l) + c else c). clearbody i.
  destruct (Z.leb_spec 0 i) as [H0|H0]; destruct (Z.ltb_spec i 0) as [H0'|H0'];
    try lia; simpl; [|reflexivity].
  destruct (Z.ltb_spec i (Z.of_nat (length l))) as [Hn|Hn].
  - destruct (nth_error l (Z.to_nat i)) as [x|] eqn:E; [now exists x|].
    apply nth_error_None in E. lia.
  - destruct (nth_error l (Z.to_nat i)) as [x|] eqn:E; [|reflexivity].
    assert (Hs : nth_error l (Z.to_nat i) <> None) by congruence.
    apply nth_error_Some in Hs. lia.
Qed.

(** The table is printed row by row; the first index out of range ends it. *)
Lemma print_results_result (a : Args.t) (s : Main.t) (n : nat) :
  table_rows s n ->
  fst (print_results a s) =
    if forallb (index_ok n) (range (Args.start_epoch a) (Args.epochs a))
    then inr tt else inl IndexError.
Proof.
  intros (R1 & R2 & R3 & R4 & R5 & R6).
  unfold print_results, bind at 1, emit, modify. cbn.
  set (s1 := Main.set_log _ s).
  assert (T : table_rows s1 n) by (unfold table_rows, s1; cbn; repeat split; assumption).
  clearbody s1. clear - T.
  induction (range (Args.start_epoch a) (Args.epochs a)) as [|c cs IH];
    [reflexivity|].
  destruct T as (R1 & R2 & R3 & R4 & R5 & R6).
  cbn [for_each forallb]. unfold bind at 1. unfold bind at 1. unfold get at 1.
  pose proof (py_index_cases (Main.batch_time_avg s1) c) as H1.
  pose proof (py_index_cases (Main.train_acc1 s1) c) as H2.
  pose proof (py_index_cases (Main.train_acc5 s1) c) as H3.
  pose proof (py_index_cases (Main.avg_loss s1) c) as H4.
  pose proof (py_index_cases (Main.val_acc1 s1) c) as H5.
  pose proof (py_index_cases (Main.val_acc5 s1) c) as H6.
  rewrite R1 in H1. rewrite R2 in H2. rewrite R3 in H3. rewrite R4 in H4.
  rewrite R5 in H5. rewrite R6 in H6.
  destruct (index_ok n c); simpl andb.
  - destruct H1 as (x1 & ->), H2 as (x2 & ->), H3 as (x3 & ->),
             H4 as (x4 & ->), H5 as (x5 & ->), H6 as (x6 & ->).
    cbn. apply IH.
  - rewrite H1. reflexivity.
Qed.

Lemma table_in_range (st e : Z) :
  forallb (index_ok (Z.to_nat (e - st))) (range st e) =
  negb ((st <? e) && ((1 <=? st) || (e <? 0))).
Proof.
  destruct (Z.ltb_spec st e) as [H2|H2]; simpl.
  2:{ apply forallb_forall. intros c Hc. apply In_range in Hc. exfalso. lia. }
  destruct (Z.leb_spec 1 st) as [H1|H1]; simpl.
  { apply not_true_is_false. intros H. rewrite forallb_forall in H.
    specialize (H (e - 1) ltac:(apply In_range; lia)).
    unfold index_ok in H. destruct (Z.ltb_spec (e - 1) 0); [lia|].
    apply andb_true_iff in H. destruct H as [_ H]. apply Z.ltb_lt in H. lia. }
  destruct (Z.ltb_spec e 0) as [H0|H0]; simpl.
  { apply not_true_is_false. intros H. rewrite forallb_forall in H.
    specialize (H st ltac:(apply In_range; lia)).
    unfold index_ok in H. destruct (Z.ltb_spec st 0); [|lia].
    apply andb_true_iff in H. destruct H as [H _]. apply Z.leb_le in H. lia. }
  apply forallb_forall. intros c Hc. apply In_range in Hc.
  unfold index_ok. destruct (Z.ltb_spec c 0);
    apply andb_true_iff; split; [apply Z.leb_le | apply Z.ltb_lt
                                |apply Z.leb_le | apply Z.ltb_lt]; lia.
Qed.

Lemma run_epochs_result train_call validate_call s :
  Args.evaluate (args (Main.ctx s)) = false ->
  Args.test (args (Main.ctx s)) = false ->
  epochs_return train_call validate_call
    (range (Args.start_epoch (args (Main.ctx s))) (Args.epochs (args (Main.ctx s))))
    (set_args (Args.set_factor 0) (Main.ctx s)) ->
  table_rows s 0 ->
  fst (run_epochs train_call validate_call s) =
    (if (Args.rank (args (Main.ctx s)) =? 0) &&
        ((Args.start_epoch (args (Main.ctx s)) <? Args.epochs (args (Main.ctx s))) &&
         ((1 <=? Args.start_epoch (args (Main.ctx s))) ||
          (Args.epochs (args (Main.ctx s)) <? 0)))
     then inl IndexError else inr tt).
Proof.
  intros Hev Htest Hret Hrows.
  unfold run_epochs, main_args, on_ctx;
    unfold bind, get, ret, emit, modify, zoom, when;
    cbn -[main_loop print_results range]; rewrite Hev;
    cbn -[main_loop print_results range].
  match goal with |- context [main_loop _ _ ?es ?s0] =>
    destruct (main_loop_table train_call validate_call es s0 0%nat)
      as (s1 & E & Ho & R);
    [exact Htest | cbn; lia | exact Hret | exact Hrows |]
  end.
  rewrite E. cbn -[main_loop print_results range] in *.
  destruct (same_options_rank _ _ Ho) as (Erank & Eep & Est & _).
  cbn in Erank, Eep, Est. rewrite Erank in *.
  destruct (Args.rank (args (Main.ctx s)) =? 0); simpl andb; [|reflexivity].
  rewrite (print_results_result _ _ _ R), Eep, Est.
  rewrite ?Nat.add_0_l, length_range, table_in_range.
  destruct ((Args.start_epoch (args (Main.ctx s)) <? Args.epochs (args (Main.ctx s))) &&
            ((1 <=? Args.start_epoch (args (Main.ctx s))) ||
             (Args.epochs (args (Main.ctx s)) <? 0))); reflexivity.
Qed.


